(** * Practice-Progress: tier policy, profile fetch and the athlete/session/goal store

    A shallow embedding of the data-sync and tier-gating logic of the
    practice tracker (the component [PracticeTrackerApp] and the
    [AuthProvider] around it).  Both copies of the component in the
    repository (the earlier [App.jsx] and the later one with the athlete
    roster) share [isPro], [handleQuickLog] and [saveGoal] literally; the
    roster-aware [loadData] / [loadAthleteData] / [handleSelectAthlete]
    are those of the later copy.

    JavaScript values are embedded as a small untyped value type, so that
    truthiness, [?.], [||] and [&&] can be written the way the source
    writes them.  Numbers are integers (durations, limits, time values in
    milliseconds); no float arithmetic occurs in the modelled code. *)

From Stdlib Require Import ZArith List String Ascii Bool Lia.
From Stdlib Require Import DecimalString.
Import ListNotations.
Open Scope string_scope.
Open Scope Z_scope.

(* ------------------------------------------------------------------ *)
(** ** JavaScript values *)

#[local] Set Warnings "-register-all".

Inductive jsval : Type :=
| JUndefined
| JNull
| JBool (b : bool)
| JNum (n : Z)
| JStr (s : string)
| JArr (items : list jsval)
| JObj (props : list (string * jsval)).

(** ToBoolean. *)
Definition truthy (v : jsval) : bool :=
  match v with
  | JUndefined | JNull => false
  | JBool b => b
  | JNum n => negb (n =? 0)
  | JStr s => negb (s =? "")%string
  | JArr _ | JObj _ => true
  end.

(** [a || b], [a && b] and [!a]; the right operand is a value here, the
    callers below only pass operands whose evaluation cannot fail. *)
Definition js_or (a b : jsval) : jsval := if truthy a then a else b.
Definition js_and (a b : jsval) : jsval := if truthy a then b else a.
Definition js_not (a : jsval) : jsval := JBool (negb (truthy a)).

(** Own enumerable properties of an object literal or of a parsed JSON
    object, in insertion order.  (Integer-like keys, which JavaScript
    enumerates first, do not occur: keys are column names and skill tags.) *)
Fixpoint obj_get (o : list (string * jsval)) (k : string) : option jsval :=
  match o with
  | [] => None
  | (k', v) :: rest => if (k' =? k)%string then Some v else obj_get rest k
  end.

(** [o[k] = v] on a fresh copy: replaces in place, else appends. *)
Fixpoint obj_set (k : string) (v : jsval) (o : list (string * jsval))
  : list (string * jsval) :=
  match o with
  | [] => [(k, v)]
  | (k', v') :: rest =>
      if (k' =? k)%string then (k, v) :: rest else (k', v') :: obj_set k v rest
  end.

(** [v.k] for a value that is neither [null] nor [undefined]: a property
    of an object, [undefined] on everything else (the names read below are
    never [length] or an index). *)
Definition prop (v : jsval) (k : string) : jsval :=
  match v with
  | JObj o => match obj_get o k with Some x => x | None => JUndefined end
  | _ => JUndefined
  end.

Definition nullish (v : jsval) : bool :=
  match v with JUndefined | JNull => true | _ => false end.

(** [v?.k] *)
Definition opt_prop (v : jsval) (k : string) : jsval :=
  if nullish v then JUndefined else prop v k.

Notation "v ?. k" := (opt_prop v k) (at level 20, left associativity).

(* ------------------------------------------------------------------ *)
(** ** Tier policy *)

Section TierPolicy.
(** [new Date(v)]: the time value in milliseconds, [None] for an
    Invalid Date.  [now] is the time value of [new Date()]. *)
Variable new_Date : jsval -> option Z.
Variable now : Z.

(** [d > new Date()] on Date objects compares time values; a comparison
    with NaN is false. *)
Definition date_after_now (d : option Z) : bool :=
  match d with
  | Some t => now <? t
  | None => false
  end.

(** [profile?.is_pro && (!profile?.pro_expires_at ||
      new Date(profile.pro_expires_at) > new Date())].
    The last operand is only reached when [profile?.is_pro] is truthy,
    hence [profile] is an object and [profile.pro_expires_at] cannot fail. *)
Definition isPro (profile : jsval) : jsval :=
  js_and (profile ?. "is_pro")
         (js_or (js_not (profile ?. "pro_expires_at"))
                (JBool (date_after_now (new_Date (prop profile "pro_expires_at"))))).

(** The predicate in the words of the specification:
    [profile.is_pro AND (profile.pro_expires_at is absent OR
     profile.pro_expires_at > now)]. *)
Definition flag_is_true (v : jsval) : bool :=
  match v with JBool true => true | _ => false end.

Definition isEntitled (profile : jsval) : bool :=
  flag_is_true (profile ?. "is_pro")
  && (nullish (profile ?. "pro_expires_at")
      || date_after_now (new_Date (profile ?. "pro_expires_at"))).
End TierPolicy.

(** A profile as the data model has it: a boolean (or missing) flag and an
    optional expiry timestamp, which the backend sends as text. *)
Definition flag_typed (v : jsval) : Prop :=
  v = JUndefined \/ v = JNull \/ exists b, v = JBool b.

Definition timestamp_typed (v : jsval) : Prop :=
  v = JUndefined \/ v = JNull \/ exists s, v = JStr s /\ s <> "".

Definition profile_typed (profile : jsval) : Prop :=
  flag_typed (profile ?. "is_pro") /\ timestamp_typed (profile ?. "pro_expires_at").

(* ------------------------------------------------------------------ *)
(** ** Session/identity manager: [fetchProfile] *)

(** Completion of a block: normal, or a thrown value. *)
Inductive completion (A : Type) : Type :=
| Normal (a : A)
| Throw (err : jsval).
Arguments Normal {A} a.
Arguments Throw {A} err.

Module AuthProvider.

(** What [await fetch(...)] followed by [await response.json()] can give:
    the request is rejected (transport fault, or the abort fired by the
    5 second timer), or a response arrives with a status and a body that
    parses as JSON or does not. *)
Inductive fetch_result : Type :=
| Rejected (err : jsval)
| Response (status : Z) (body : option jsval).

(** The three [useState] cells of [AuthProvider]. *)
Record AuthState : Type := mkAuth {
  user : jsval;
  profile : jsval;
  loading : bool
}.

Definition setProfile (p : jsval) (s : AuthState) : AuthState :=
  mkAuth (user s) p (loading s).
Definition setLoading (b : bool) (s : AuthState) : AuthState :=
  mkAuth (user s) (profile s) b.

Definition SyntaxError : jsval :=
  JObj [("name", JStr "SyntaxError"); ("message", JStr "Unexpected token in JSON")].

(** [{ id: userId, is_pro: false }] *)
Definition defaultProfile (userId : string) : jsval :=
  JObj [("id", JStr userId); ("is_pro", JBool false)].

(** The [try] block of [fetchProfile]. *)
Definition fetchProfile_try (userId : string) (r : fetch_result) (s : AuthState)
  : completion AuthState :=
  match r with
  | Rejected err => Throw err
  | Response _ None => Throw SyntaxError
  | Response _ (Some data) =>
      match data with
      | JArr (first :: _) =>            (* Array.isArray(data) && data.length > 0 *)
          Normal (setProfile first s)
      | _ => Normal (setProfile (defaultProfile userId) s)
      end
  end.

(** [fetchProfile(userId)]: [try { ... } catch (err) { setProfile(default) }]
    and then [setLoading(false)]. *)
Definition fetchProfile (userId : string) (r : fetch_result) (s : AuthState)
  : completion AuthState :=
  let s1 :=
    match fetchProfile_try userId r s with
    | Normal s' => s'
    | Throw _ => setProfile (defaultProfile userId) s
    end in
  Normal (setLoading false s1).

(** The parsed body is an array with at least one element. *)
Definition nonempty_array (body : option jsval) : bool :=
  match body with
  | Some (JArr (_ :: _)) => true
  | _ => false
  end.

(** [response.ok] *)
Definition is_2xx (status : Z) : bool := (200 <=? status) && (status <=? 299).

(** A failed fetch in the words of the specification: a non-2xx response,
    a timeout or abort, a malformed or non-array body. *)
Definition failed_fetch (r : fetch_result) : bool :=
  match r with
  | Rejected _ => true
  | Response status body =>
      negb (is_2xx status)
      || match body with
         | None => true
         | Some (JArr _) => false
         | Some _ => true
         end
  end.

(** What [fetchProfile] goes by: whether a parsed, non-empty array came. *)
Definition carries_row (r : fetch_result) : bool :=
  match r with
  | Rejected _ => false
  | Response _ body => nonempty_array body
  end.

End AuthProvider.

(* ------------------------------------------------------------------ *)
(** ** More of the JavaScript runtime *)

Definition TypeError (msg : string) : jsval :=
  JObj [("name", JStr "TypeError"); ("message", JStr msg)].

(** [v.k]: reading a property of [null] or [undefined] throws. *)
Definition member (v : jsval) (k : string) : completion jsval :=
  if nullish v
  then Throw (TypeError ("Cannot read properties of null or undefined: " ++ k))
  else Normal (prop v k).

Definition decimal (n : Z) : string := NilZero.string_of_int (Z.to_int n).

Fixpoint join (sep : string) (l : list string) : string :=
  match l with
  | [] => ""
  | [x] => x
  | x :: rest => x ++ sep ++ join sep rest
  end.

(** ToString (integers print in decimal; the exponent form of very large
    numbers is not modelled). *)
Fixpoint ToString (v : jsval) : string :=
  match v with
  | JUndefined => "undefined"
  | JNull => "null"
  | JBool true => "true"
  | JBool false => "false"
  | JNum n => decimal n
  | JStr s => s
  | JArr items =>
      join "," (map (fun x => if nullish x then "" else ToString x) items)
  | JObj _ => "[object Object]"
  end.

(** The entries of the elements of an array or the characters of a string
    under their indices. *)
Fixpoint indexed (i : nat) (l : list jsval) : list (string * jsval) :=
  match l with
  | [] => []
  | x :: rest => (decimal (Z.of_nat i), x) :: indexed (S i) rest
  end.

Fixpoint chars (s : string) : list jsval :=
  match s with
  | EmptyString => []
  | String c rest => JStr (String c EmptyString) :: chars rest
  end.

(** The own enumerable properties copied by [{ ...v }]. *)
Definition spread (v : jsval) : list (string * jsval) :=
  match v with
  | JObj o => o
  | JArr items => indexed 0 items
  | JStr s => indexed 0 (chars s)
  | _ => []
  end.

(** [v.length] of a non-nullish value. *)
Definition js_length (v : jsval) : jsval :=
  match v with
  | JArr items => JNum (Z.of_nat (List.length items))
  | JStr s => JNum (Z.of_nat (String.length s))
  | _ => prop v "length"
  end.

(** [v[0]] of a non-nullish value. *)
Definition index0 (v : jsval) : jsval :=
  match v with
  | JArr items => match items with x :: _ => x | [] => JUndefined end
  | JStr s => match chars s with x :: _ => x | [] => JUndefined end
  | _ => prop v "0"
  end.

(** [v === n] for a number literal and [v === s] for a string. *)
Definition is_num (v : jsval) (n : Z) : bool :=
  match v with JNum m => m =? n | _ => false end.
Definition is_str (v : jsval) (s : string) : bool :=
  match v with JStr t => (t =? s)%string | _ => false end.

(** [arr.map(f)], [arr.find(f)] and [arr.forEach(f)] with callbacks that
    may throw; on a value that is not an array the method does not exist
    and the call throws. *)
Fixpoint map_throwing {A B} (f : A -> completion B) (l : list A)
  : completion (list B) :=
  match l with
  | [] => Normal []
  | x :: rest =>
      match f x with
      | Throw e => Throw e
      | Normal y =>
          match map_throwing f rest with
          | Throw e => Throw e
          | Normal ys => Normal (y :: ys)
          end
      end
  end.

Fixpoint find_throwing (f : jsval -> completion bool) (l : list jsval)
  : completion jsval :=
  match l with
  | [] => Normal JUndefined
  | x :: rest =>
      match f x with
      | Throw e => Throw e
      | Normal true => Normal x
      | Normal false => find_throwing f rest
      end
  end.

Fixpoint fold_throwing {A S} (f : S -> A -> completion S) (acc : S) (l : list A)
  : completion S :=
  match l with
  | [] => Normal acc
  | x :: rest =>
      match f acc x with
      | Throw e => Throw e
      | Normal acc' => fold_throwing f acc' rest
      end
  end.

Definition array_of (method : string) (v : jsval) : completion (list jsval) :=
  match v with
  | JArr items => Normal items
  | _ => Throw (TypeError (method ++ " is not a function"))
  end.

(** [localStorage]: string keys, string values. *)
Fixpoint getItem (st : list (string * string)) (k : string) : option string :=
  match st with
  | [] => None
  | (k', v) :: rest => if (k' =? k)%string then Some v else getItem rest k
  end.

Fixpoint setItem (k v : string) (st : list (string * string))
  : list (string * string) :=
  match st with
  | [] => [(k, v)]
  | (k', v') :: rest =>
      if (k' =? k)%string then (k, v) :: rest else (k', v') :: setItem k v rest
  end.

(* ------------------------------------------------------------------ *)
(** ** Remote data gateway, as its callers see it *)

Record select_options : Type := mkSelect {
  sel_eq : list (string * jsval);
  sel_is : list (string * string);
  sel_order : option (string * bool);      (* column, ascending *)
  sel_limit : option Z
}.

Inductive request : Type :=
| db_select (table : string) (opts : select_options)
| db_insert (table : string) (row : jsval) (returnData : bool)
| db_update (table : string) (updates : jsval) (eq : list (string * jsval))
| db_delete (table : string) (eq : list (string * jsval)).

(** A gateway call resolves to a [{ data, error }] pair, or is rejected
    when the transport fails (the pending [await] then throws). *)
Inductive outcome : Type :=
| Returned (data error : jsval)
| Thrown (err : jsval).

(** An asynchronous computation: finished, or suspended on a gateway call
    with the rest of the function waiting for the outcome. *)
Inductive Prog (A : Type) : Type :=
| Ret (a : A)
| Call (r : request) (k : outcome -> Prog A).
Arguments Ret {A} a.
Arguments Call {A} r k.

Fixpoint pbind {A B} (p : Prog A) (f : A -> Prog B) : Prog B :=
  match p with
  | Ret a => f a
  | Call r k => Call r (fun o => pbind (k o) f)
  end.

(** A backend is anything that answers requests, with a state of its own. *)
Definition handler (B : Type) : Type := request -> B -> outcome * B.

(** Running a computation against a backend: the result, the backend's
    final state and the log of requests with their outcomes, in the order
    issued.  Each request is answered before the next is issued. *)
Fixpoint serve {A B} (h : handler B) (p : Prog A) (b : B)
  : A * B * list (request * outcome) :=
  match p with
  | Ret a => (a, b, [])
  | Call r k =>
      let (o, b1) := h r b in
      let '(a, b2, log) := serve h (k o) b1 in
      (a, b2, (r, o) :: log)
  end.

Definition NetworkError : jsval := TypeError "Failed to fetch".

(** The backend that answers from a prepared list of outcomes, and is
    unreachable once the list is used up. *)
Definition scripted : handler (list outcome) :=
  fun _ script =>
    match script with
    | o :: rest => (o, rest)
    | [] => (Thrown NetworkError, [])
    end.

Definition result_of {A B} (x : A * B * list (request * outcome)) : A :=
  fst (fst x).
Definition log_of {A B} (x : A * B * list (request * outcome))
  : list (request * outcome) := snd x.
Definition requests_of {A B} (x : A * B * list (request * outcome))
  : list request := map fst (snd x).

(** Whatever the backend answers, every request the computation issues
    satisfies [P] and its result satisfies [Q]. *)
Inductive safe {A} (P : request -> Prop) (Q : A -> Prop) : Prog A -> Prop :=
| safe_ret a : Q a -> safe P Q (Ret a)
| safe_call r k :
    P r -> (forall o, safe P Q (k o)) -> safe P Q (Call r k).

(* ------------------------------------------------------------------ *)
(** ** The athlete/session/goal store: state *)

(** The [useState] cells of [PracticeTrackerApp] that the modelled
    handlers read or write, and the browser's [localStorage]. *)
Record Store : Type := mkStore {
  athlete : jsval;
  athletes : jsval;
  sessions : list jsval;
  goals : list (string * jsval);
  drillFrequency : jsval;
  loading : bool;
  error : jsval;
  showQuickLog : bool;
  showGoalEdit : jsval;
  showAddAthlete : bool;
  saving : bool;
  logDate : string;
  logDuration : Z;
  logFocus : list string;
  logNote : string;
  logReflection : string;
  logDrills : list string;
  editGoalText : string;
  localStorage : list (string * string)
}.

Definition with_athlete (v : jsval) (s : Store) : Store :=
  mkStore v (athletes s) (sessions s) (goals s) (drillFrequency s) (loading s)
    (error s) (showQuickLog s) (showGoalEdit s) (showAddAthlete s) (saving s)
    (logDate s) (logDuration s) (logFocus s) (logNote s) (logReflection s)
    (logDrills s) (editGoalText s) (localStorage s).
Definition with_athletes (v : jsval) (s : Store) : Store :=
  mkStore (athlete s) v (sessions s) (goals s) (drillFrequency s) (loading s)
    (error s) (showQuickLog s) (showGoalEdit s) (showAddAthlete s) (saving s)
    (logDate s) (logDuration s) (logFocus s) (logNote s) (logReflection s)
    (logDrills s) (editGoalText s) (localStorage s).
Definition with_sessions (v : list jsval) (s : Store) : Store :=
  mkStore (athlete s) (athletes s) v (goals s) (drillFrequency s) (loading s)
    (error s) (showQuickLog s) (showGoalEdit s) (showAddAthlete s) (saving s)
    (logDate s) (logDuration s) (logFocus s) (logNote s) (logReflection s)
    (logDrills s) (editGoalText s) (localStorage s).
Definition with_goals (v : list (string * jsval)) (s : Store) : Store :=
  mkStore (athlete s) (athletes s) (sessions s) v (drillFrequency s)
    (loading s) (error s) (showQuickLog s) (showGoalEdit s) (showAddAthlete s)
    (saving s) (logDate s) (logDuration s) (logFocus s) (logNote s)
    (logReflection s) (logDrills s) (editGoalText s) (localStorage s).
Definition with_drillFrequency (v : jsval) (s : Store) : Store :=
  mkStore (athlete s) (athletes s) (sessions s) (goals s) v (loading s)
    (error s) (showQuickLog s) (showGoalEdit s) (showAddAthlete s) (saving s)
    (logDate s) (logDuration s) (logFocus s) (logNote s) (logReflection s)
    (logDrills s) (editGoalText s) (localStorage s).
Definition with_loading (v : bool) (s : Store) : Store :=
  mkStore (athlete s) (athletes s) (sessions s) (goals s) (drillFrequency s) v
    (error s) (showQuickLog s) (showGoalEdit s) (showAddAthlete s) (saving s)
    (logDate s) (logDuration s) (logFocus s) (logNote s) (logReflection s)
    (logDrills s) (editGoalText s) (localStorage s).
Definition with_error (v : jsval) (s : Store) : Store :=
  mkStore (athlete s) (athletes s) (sessions s) (goals s) (drillFrequency s)
    (loading s) v (showQuickLog s) (showGoalEdit s) (showAddAthlete s)
    (saving s) (logDate s) (logDuration s) (logFocus s) (logNote s)
    (logReflection s) (logDrills s) (editGoalText s) (localStorage s).
Definition with_showQuickLog (v : bool) (s : Store) : Store :=
  mkStore (athlete s) (athletes s) (sessions s) (goals s) (drillFrequency s)
    (loading s) (error s) v (showGoalEdit s) (showAddAthlete s) (saving s)
    (logDate s) (logDuration s) (logFocus s) (logNote s) (logReflection s)
    (logDrills s) (editGoalText s) (localStorage s).
Definition with_showGoalEdit (v : jsval) (s : Store) : Store :=
  mkStore (athlete s) (athletes s) (sessions s) (goals s) (drillFrequency s)
    (loading s) (error s) (showQuickLog s) v (showAddAthlete s) (saving s)
    (logDate s) (logDuration s) (logFocus s) (logNote s) (logReflection s)
    (logDrills s) (editGoalText s) (localStorage s).
Definition with_showAddAthlete (v : bool) (s : Store) : Store :=
  mkStore (athlete s) (athletes s) (sessions s) (goals s) (drillFrequency s)
    (loading s) (error s) (showQuickLog s) (showGoalEdit s) v (saving s)
    (logDate s) (logDuration s) (logFocus s) (logNote s) (logReflection s)
    (logDrills s) (editGoalText s) (localStorage s).
Definition with_saving (v : bool) (s : Store) : Store :=
  mkStore (athlete s) (athletes s) (sessions s) (goals s) (drillFrequency s)
    (loading s) (error s) (showQuickLog s) (showGoalEdit s) (showAddAthlete s)
    v (logDate s) (logDuration s) (logFocus s) (logNote s) (logReflection s)
    (logDrills s) (editGoalText s) (localStorage s).
Definition with_logDate (v : string) (s : Store) : Store :=
  mkStore (athlete s) (athletes s) (sessions s) (goals s) (drillFrequency s)
    (loading s) (error s) (showQuickLog s) (showGoalEdit s) (showAddAthlete s)
    (saving s) v (logDuration s) (logFocus s) (logNote s) (logReflection s)
    (logDrills s) (editGoalText s) (localStorage s).
Definition with_logDuration (v : Z) (s : Store) : Store :=
  mkStore (athlete s) (athletes s) (sessions s) (goals s) (drillFrequency s)
    (loading s) (error s) (showQuickLog s) (showGoalEdit s) (showAddAthlete s)
    (saving s) (logDate s) v (logFocus s) (logNote s) (logReflection s)
    (logDrills s) (editGoalText s) (localStorage s).
Definition with_logFocus (v : list string) (s : Store) : Store :=
  mkStore (athlete s) (athletes s) (sessions s) (goals s) (drillFrequency s)
    (loading s) (error s) (showQuickLog s) (showGoalEdit s) (showAddAthlete s)
    (saving s) (logDate s) (logDuration s) v (logNote s) (logReflection s)
    (logDrills s) (editGoalText s) (localStorage s).
Definition with_logNote (v : string) (s : Store) : Store :=
  mkStore (athlete s) (athletes s) (sessions s) (goals s) (drillFrequency s)
    (loading s) (error s) (showQuickLog s) (showGoalEdit s) (showAddAthlete s)
    (saving s) (logDate s) (logDuration s) (logFocus s) v (logReflection s)
    (logDrills s) (editGoalText s) (localStorage s).
Definition with_logReflection (v : string) (s : Store) : Store :=
  mkStore (athlete s) (athletes s) (sessions s) (goals s) (drillFrequency s)
    (loading s) (error s) (showQuickLog s) (showGoalEdit s) (showAddAthlete s)
    (saving s) (logDate s) (logDuration s) (logFocus s) (logNote s) v
    (logDrills s) (editGoalText s) (localStorage s).
Definition with_logDrills (v : list string) (s : Store) : Store :=
  mkStore (athlete s) (athletes s) (sessions s) (goals s) (drillFrequency s)
    (loading s) (error s) (showQuickLog s) (showGoalEdit s) (showAddAthlete s)
    (saving s) (logDate s) (logDuration s) (logFocus s) (logNote s)
    (logReflection s) v (editGoalText s) (localStorage s).
Definition with_editGoalText (v : string) (s : Store) : Store :=
  mkStore (athlete s) (athletes s) (sessions s) (goals s) (drillFrequency s)
    (loading s) (error s) (showQuickLog s) (showGoalEdit s) (showAddAthlete s)
    (saving s) (logDate s) (logDuration s) (logFocus s) (logNote s)
    (logReflection s) (logDrills s) v (localStorage s).
Definition with_localStorage (v : list (string * string)) (s : Store) : Store :=
  mkStore (athlete s) (athletes s) (sessions s) (goals s) (drillFrequency s)
    (loading s) (error s) (showQuickLog s) (showGoalEdit s) (showAddAthlete s)
    (saving s) (logDate s) (logDuration s) (logFocus s) (logNote s)
    (logReflection s) (logDrills s) (editGoalText s) v.

(** The state right after mounting ([logDate] is the day of mounting). *)
Definition initialStore (mounted : string) : Store :=
  mkStore JNull (JArr []) [] [] (JArr []) true JNull false JNull false false
          mounted 30 [] "" "" [] "" [].

(** Handlers run with the state threaded through them; a thrown value
    leaves the state as it was when thrown. *)
Definition M (A : Type) : Type := Store -> Prog (completion A * Store).

Definition ret {A} (a : A) : M A := fun s => Ret (Normal a, s).
Definition throw {A} (err : jsval) : M A := fun s => Ret (Throw err, s).

Definition bind {A B} (m : M A) (f : A -> M B) : M B :=
  fun s =>
    pbind (m s) (fun x =>
      match x with
      | (Normal a, s1) => f a s1
      | (Throw err, s1) => Ret (Throw err, s1)
      end).

Notation "x <- m ;; k" := (bind m (fun x => k))
  (at level 61, m at next level, right associativity).
Notation "' pat <- m ;; k" := (bind m (fun x => match x with pat => k end))
  (at level 61, pat pattern, m at next level, right associativity).
Notation "m ;; k" := (bind m (fun _ => k))
  (at level 61, right associativity).

(** [try { body } catch (err) { handle err }] *)
Definition try_catch {A} (body : M A) (handle : jsval -> M A) : M A :=
  fun s =>
    pbind (body s) (fun x =>
      match x with
      | (Normal a, s1) => Ret (Normal a, s1)
      | (Throw err, s1) => handle err s1
      end).

(** [try { body } finally { fin }] *)
Definition finally {A} (body : M A) (fin : M unit) : M A :=
  fun s =>
    pbind (body s) (fun x =>
      pbind (fin (snd x)) (fun y =>
        match y with
        | (Normal _, s2) => Ret (fst x, s2)
        | (Throw err, s2) => Ret (Throw err, s2)
        end)).

(** [await db.op(...)], destructured into [data] and [error]. *)
Definition await (r : request) : M (jsval * jsval) :=
  fun s =>
    Call r (fun o =>
      match o with
      | Returned data err => Ret (Normal (data, err), s)
      | Thrown err => Ret (Throw err, s)
      end).

Definition lift {A} (c : completion A) : M A :=
  fun s => Ret (c, s).

Definition gets {A} (f : Store -> A) : M A := fun s => Ret (Normal (f s), s).
Definition modify (f : Store -> Store) : M unit := fun s => Ret (Normal tt, f s).

(** The handler [m] only issues requests satisfying [P] and keeps the
    property [I] of the state, however it completes. *)
Definition preserves {A} (P : request -> Prop) (I : Store -> Prop) (m : M A)
  : Prop :=
  forall s, I s -> safe P (fun x => I (snd x)) (m s).

(** [if (c) stmt;] *)
Definition when (c : bool) (m : M unit) : M unit := if c then m else ret tt.

(** [for (const x of xs) { body x }] *)
Fixpoint for_of {A} (xs : list A) (body : A -> M unit) : M unit :=
  match xs with
  | [] => ret tt
  | x :: rest => body x ;; for_of rest body
  end.

(** The setters returned by [useState]; [upd...] are the calls that pass a
    function of the previous value. *)
Definition setAthlete v := modify (with_athlete v).
Definition setAthletes v := modify (with_athletes v).
Definition setSessions v := modify (with_sessions v).
Definition updSessions (f : list jsval -> list jsval) :=
  modify (fun s => with_sessions (f (sessions s)) s).
Definition setGoals v := modify (with_goals v).
Definition updGoals (f : list (string * jsval) -> list (string * jsval)) :=
  modify (fun s => with_goals (f (goals s)) s).
Definition setDrillFrequency v := modify (with_drillFrequency v).
Definition setLoading v := modify (with_loading v).
Definition setError v := modify (with_error v).
Definition setShowQuickLog v := modify (with_showQuickLog v).
Definition setShowGoalEdit v := modify (with_showGoalEdit v).
Definition setShowAddAthlete v := modify (with_showAddAthlete v).
Definition setSaving v := modify (with_saving v).
Definition setLogDate v := modify (with_logDate v).
Definition setLogDuration v := modify (with_logDuration v).
Definition setLogFocus v := modify (with_logFocus v).
Definition setLogNote v := modify (with_logNote v).
Definition setLogReflection v := modify (with_logReflection v).
Definition setLogDrills v := modify (with_logDrills v).
Definition setEditGoalText v := modify (with_editGoalText v).
Definition localStorage_setItem (k v : string) :=
  modify (fun s => with_localStorage (setItem k v (localStorage s)) s).

(** The ids of [FOCUS_OPTIONS]. *)
Definition FOCUS_OPTIONS : list string :=
  ["hitting"; "pitching"; "fielding"; "conditioning"].

(** [o[k]] on an object held in state. *)
Definition lookup (o : list (string * jsval)) (k : string) : jsval :=
  match obj_get o k with Some v => v | None => JUndefined end.

(** The display shape of a session row, written twice in the source:
    [{ id: s.id, date: s.date, duration: s.duration_minutes, focus: s.focus,
       note: s.note || '', reflection: s.reflection || '' }]. *)
Definition displayed (s : jsval) : jsval :=
  JObj [("id", prop s "id");
        ("date", prop s "date");
        ("duration", prop s "duration_minutes");
        ("focus", prop s "focus");
        ("note", js_or (prop s "note") (JStr ""));
        ("reflection", js_or (prop s "reflection") (JStr ""))].

(** Evaluating that literal reads [s.id] first, which throws when the row
    is [null] or [undefined]. *)
Definition display_shape (s : jsval) : completion jsval :=
  match member s "id" with
  | Throw err => Throw err
  | Normal _ => Normal (displayed s)
  end.

(** [goalsMap[g.skill] = { id: g.id, text: g.text, isActive: true }] *)
Definition add_goal (goalsMap : list (string * jsval)) (g : jsval)
  : completion (list (string * jsval)) :=
  match member g "skill" with
  | Throw err => Throw err
  | Normal skill =>
      Normal (obj_set (ToString skill)
                      (JObj [("id", prop g "id"); ("text", prop g "text");
                             ("isActive", JBool true)])
                      goalsMap)
  end.

(** [Object.entries(goals).filter(([_, g]) => g?.isActive)] *)
Definition activeGoals (goals : list (string * jsval)) : list (string * jsval) :=
  filter (fun kg => truthy ((snd kg) ?. "isActive")) goals.

(** [Object.entries(goals).filter(([k, g]) => k !== skill && g?.isActive)] *)
Definition otherActiveGoals (skill : string) (goals : list (string * jsval))
  : list (string * jsval) :=
  filter (fun kg => negb (fst kg =? skill)%string && truthy ((snd kg) ?. "isActive"))
         goals.

(** [{ ...g, isActive: false }] *)
Definition deactivated (g : jsval) : jsval :=
  JObj (obj_set "isActive" (JBool false) (spread g)).

(** [Object.keys(updatedGoals).forEach(k => { if (k !== skill &&
      updatedGoals[k]) updatedGoals[k] = { ...updatedGoals[k], isActive: false } })] *)
Definition clear_others (skill : string) (updatedGoals : list (string * jsval))
  : list (string * jsval) :=
  fold_left
    (fun o k =>
       if negb (k =? skill)%string && truthy (lookup o k)
       then obj_set k (deactivated (lookup o k)) o
       else o)
    (map fst updatedGoals) updatedGoals.

(* ------------------------------------------------------------------ *)
(** ** The athlete/session/goal store: handlers *)

Section PracticeTrackerApp.
(** What a handler closes over besides the state cells: the runtime's
    [new Date(v)], the time of the render that created the handler, the
    profile handed down by [useAuth()], and the value of
    [new Date().toISOString().split('T')[0]] when the form is reset. *)
Variable new_Date : jsval -> option Z.
Variable now : Z.
Variable profile : jsval.
Variable today : string.

(** The state cells as of that render are the argument [c] of each
    handler; calls that pass a function of the previous value read the
    threaded state instead. *)

Definition catch_setError (err : jsval) : M unit :=
  msg <- lift (member err "message") ;;
  setError msg.

Definition loadAthleteData (athleteId : jsval) : M unit :=
  finally
    (try_catch
       (' (sessionData, sessionError) <-
          await (db_select "sessions"
                   (mkSelect [("athlete_id", athleteId)] []
                             (Some ("date", false)) (Some 50))) ;;
        when (truthy sessionError) (throw sessionError) ;;
        rows <- lift (array_of "map" (js_or sessionData (JArr []))) ;;
        shaped <- lift (map_throwing display_shape rows) ;;
        setSessions shaped ;;
        ' (goalData, goalError) <-
          await (db_select "goals"
                   (mkSelect [("athlete_id", athleteId); ("is_active", JBool true)]
                             [] None None)) ;;
        when (truthy goalError) (throw goalError) ;;
        let goalsMap := fold_left (fun m opt => obj_set opt JNull m) FOCUS_OPTIONS [] in
        grows <- lift (array_of "forEach" (js_or goalData (JArr []))) ;;
        goalsMap <- lift (fold_throwing add_goal goalsMap grows) ;;
        setGoals goalsMap ;;
        if truthy (isPro new_Date now profile) then
          ' (drillData, _) <-
            await (db_select "drill_frequency"
                     (mkSelect [("athlete_id", athleteId)] []
                               (Some ("times_used", false)) (Some 10))) ;;
          setDrillFrequency (js_or drillData (JArr []))
        else ret tt)
       catch_setError)
    (setLoading false).

Definition loadData : M unit :=
  setLoading true ;;
  setError JNull ;;
  try_catch
    (' (athleteData, athleteError) <-
       await (db_select "athletes"
                (mkSelect [] [("archived_at", "null")] None
                          (Some (if truthy (isPro new_Date now profile) then 10 else 1)))) ;;
     when (truthy athleteError) (throw athleteError) ;;
     if negb (truthy athleteData) || is_num (js_length athleteData) 0 then
       setShowAddAthlete true ;;
       setLoading false
     else
       setAthletes athleteData ;;
       savedAthleteId <- gets (fun s => getItem (localStorage s) "selectedAthleteId") ;;
       savedAthlete <-
         match savedAthleteId with
         | Some saved =>
             if truthy (JStr saved) then
               items <- lift (array_of "athleteData.find" athleteData) ;;
               lift (find_throwing
                       (fun a => match member a "id" with
                                 | Throw err => Throw err
                                 | Normal id => Normal (is_str id saved)
                                 end)
                       items)
             else ret JNull
         | None => ret JNull
         end ;;
       let currentAthlete := js_or savedAthlete (index0 athleteData) in
       setAthlete currentAthlete ;;
       id <- lift (member currentAthlete "id") ;;
       localStorage_setItem "selectedAthleteId" (ToString id) ;;
       id <- lift (member currentAthlete "id") ;;
       loadAthleteData id)
    (fun err =>
       catch_setError err ;;
       setLoading false).

Definition handleSelectAthlete (selectedAthlete : jsval) : M unit :=
  setAthlete selectedAthlete ;;
  id <- lift (member selectedAthlete "id") ;;
  localStorage_setItem "selectedAthleteId" (ToString id) ;;
  setLoading true ;;
  id <- lift (member selectedAthlete "id") ;;
  loadAthleteData id.

(** The body of the loop over [logDrills] in [handleQuickLog]. *)
Definition insertDrill (newSession : jsval) (drillId : string) : M unit :=
  session_id <- lift (member newSession "id") ;;
  ' (_, drillError) <-
    await (db_insert "session_drills"
             (JObj [("session_id", session_id); ("drill_id", JStr drillId)])
             false) ;;
  when (truthy drillError) (throw drillError).

Definition handleQuickLog (c : Store) : M unit :=
  if (List.length (logFocus c) =? 0)%nat || negb (truthy (athlete c)) then ret tt
  else
    setSaving true ;;
    setError JNull ;;
    finally
      (try_catch
         (athlete_id <- lift (member (athlete c) "id") ;;
          ' (newSession, sessionError) <-
            await (db_insert "sessions"
                     (JObj [("athlete_id", athlete_id);
                            ("date", JStr (logDate c));
                            ("duration_minutes", JNum (logDuration c));
                            ("focus", JArr (map JStr (logFocus c)));
                            ("note", js_or (JStr (logNote c)) JNull);
                            ("reflection", js_or (JStr (logReflection c)) JNull)])
                     true) ;;
          when (truthy sessionError) (throw sessionError) ;;
          when (truthy (isPro new_Date now profile)
                && (0 <? List.length (logDrills c))%nat)
            (for_of (logDrills c) (insertDrill newSession)) ;;
          entry <- lift (display_shape newSession) ;;
          updSessions (fun prev => entry :: prev) ;;
          setLogDate today ;;
          setLogDuration 30 ;;
          setLogFocus [] ;;
          setLogNote "" ;;
          setLogReflection "" ;;
          setLogDrills [] ;;
          setShowQuickLog false)
         catch_setError)
      (setSaving false).

(** The body of the loop over [otherActiveGoals] in [saveGoal]; the
    outcome of the update is not looked at. *)
Definition deactivate (kg : string * jsval) : M unit :=
  when (truthy ((snd kg) ?. "id"))
    (_ <- await (db_update "goals"
                   (JObj [("is_active", JBool false)])
                   [("id", prop (snd kg) "id")]) ;;
     ret tt).

Definition saveGoal (c : Store) (skill : string) : M unit :=
  if negb (truthy (athlete c)) then ret tt
  else
    setSaving true ;;
    setError JNull ;;
    finally
      (try_catch
         (let existingGoal := lookup (goals c) skill in
          (if negb (truthy (JStr (editGoalText c))) then
             when (truthy (existingGoal ?. "id"))
               (' (_, err) <-
                  await (db_delete "goals" [("id", prop existingGoal "id")]) ;;
                when (truthy err) (throw err)) ;;
             updGoals (fun prev => obj_set skill JNull prev)
           else if truthy (existingGoal ?. "id") then
             ' (_, err) <-
               await (db_update "goals"
                        (JObj [("text", JStr (editGoalText c))])
                        [("id", prop existingGoal "id")]) ;;
             when (truthy err) (throw err) ;;
             updGoals (fun prev =>
               obj_set skill
                 (JObj (obj_set "text" (JStr (editGoalText c)) (spread existingGoal)))
                 prev)
           else
             when (negb (truthy (isPro new_Date now profile)))
               (for_of (otherActiveGoals skill (goals c)) deactivate) ;;
             athlete_id <- lift (member (athlete c) "id") ;;
             ' (newGoal, err) <-
               await (db_insert "goals"
                        (JObj [("athlete_id", athlete_id);
                               ("skill", JStr skill);
                               ("text", JStr (editGoalText c));
                               ("is_active", JBool true)])
                        true) ;;
             when (truthy err) (throw err) ;;
             let updatedGoals := goals c in
             let updatedGoals :=
               if negb (truthy (isPro new_Date now profile))
               then clear_others skill updatedGoals
               else updatedGoals in
             new_id <- lift (member newGoal "id") ;;
             let new_text := prop newGoal "text" in
             setGoals (obj_set skill
                         (JObj [("id", new_id); ("text", new_text);
                                ("isActive", JBool true)])
                         updatedGoals)) ;;
          setShowGoalEdit JNull ;;
          setEditGoalText "")
         catch_setError)
      (setSaving false).
End PracticeTrackerApp.

(** The earlier copy of the component ([App.jsx]) loads everything in one
    function: one athlete, twenty sessions, no roster and no remembered
    selection. *)
Module Earlier.
Section PracticeTrackerApp.
Variable new_Date : jsval -> option Z.
Variable now : Z.
Variable profile : jsval.

Definition loadData : M unit :=
  setLoading true ;;
  setError JNull ;;
  finally
    (try_catch
       (' (athletes, athleteError) <-
          await (db_select "athletes"
                   (mkSelect [] [("archived_at", "null")] None (Some 1))) ;;
        when (truthy athleteError) (throw athleteError) ;;
        if negb (truthy athletes) || is_num (js_length athletes) 0 then
          setShowAddAthlete true ;;
          setLoading false
        else
          let currentAthlete := index0 athletes in
          setAthlete currentAthlete ;;
          id <- lift (member currentAthlete "id") ;;
          ' (sessionData, sessionError) <-
            await (db_select "sessions"
                     (mkSelect [("athlete_id", id)] []
                               (Some ("date", false)) (Some 20))) ;;
          when (truthy sessionError) (throw sessionError) ;;
          rows <- lift (array_of "map" (js_or sessionData (JArr []))) ;;
          shaped <- lift (map_throwing display_shape rows) ;;
          setSessions shaped ;;
          id <- lift (member currentAthlete "id") ;;
          ' (goalData, goalError) <-
            await (db_select "goals"
                     (mkSelect [("athlete_id", id); ("is_active", JBool true)]
                               [] None None)) ;;
          when (truthy goalError) (throw goalError) ;;
          let goalsMap := fold_left (fun m opt => obj_set opt JNull m) FOCUS_OPTIONS [] in
          grows <- lift (array_of "forEach" (js_or goalData (JArr []))) ;;
          goalsMap <- lift (fold_throwing add_goal goalsMap grows) ;;
          setGoals goalsMap ;;
          if truthy (isPro new_Date now profile) then
            id <- lift (member currentAthlete "id") ;;
            ' (drillData, _) <-
              await (db_select "drill_frequency"
                       (mkSelect [("athlete_id", id)] []
                                 (Some ("times_used", false)) (Some 10))) ;;
            setDrillFrequency (js_or drillData (JArr []))
          else ret tt)
       catch_setError)
    (setLoading false).
End PracticeTrackerApp.
End Earlier.

(** A handler started on the state [s] of the render that created it. *)
Definition dispatch (action : Store -> M unit) (s : Store)
  : Prog (completion unit * Store) := action s s.

(* ------------------------------------------------------------------ *)
(** ** Vocabulary for the statements *)

(** The call resolved without an error value. *)
Definition succeeded (o : outcome) : bool :=
  match o with
  | Returned _ err => negb (truthy err)
  | Thrown _ => false
  end.

(** The call resolved, whatever it carried. *)
Definition resolved (o : outcome) : bool :=
  match o with
  | Returned _ _ => true
  | Thrown _ => false
  end.

(** The call failed with [err]: an error value in the pair, or a fault of
    the transport. *)
Inductive failure : outcome -> jsval -> Prop :=
| failure_error data err : truthy err = true -> failure (Returned data err) err
| failure_fault err : nullish err = false -> failure (Thrown err) err.

(** The requests of a log that the backend accepted. *)
Definition accepted (log : list (request * outcome)) : list request :=
  map fst (filter (fun ro => succeeded (snd ro)) log).

Definition table_of (r : request) : string :=
  match r with
  | db_select t _ | db_insert t _ _ | db_update t _ _ | db_delete t _ => t
  end.

Definition is_select (r : request) : bool :=
  match r with db_select _ _ => true | _ => false end.
Definition is_insert (r : request) : bool :=
  match r with db_insert _ _ _ => true | _ => false end.
Definition is_delete (r : request) : bool :=
  match r with db_delete _ _ => true | _ => false end.

(** A request the free tier may issue: no [session_drills] insert, no
    [drill_frequency] fetch, and the athlete query capped at one row. *)
Definition free_tier_request (r : request) : bool :=
  match r with
  | db_insert t _ _ => negb (t =? "session_drills")%string
  | db_select t opts =>
      negb (t =? "drill_frequency")%string
      && (if (t =? "athletes")%string
          then match sel_limit opts with Some 1 => true | _ => false end
          else true)
  | _ => true
  end.

(** The requests as the handlers build them. *)
Definition insert_session_request (c : Store) : request :=
  db_insert "sessions"
    (JObj [("athlete_id", prop (athlete c) "id");
           ("date", JStr (logDate c));
           ("duration_minutes", JNum (logDuration c));
           ("focus", JArr (map JStr (logFocus c)));
           ("note", js_or (JStr (logNote c)) JNull);
           ("reflection", js_or (JStr (logReflection c)) JNull)])
    true.

Definition insert_drill_request (newSession : jsval) (drillId : string) : request :=
  db_insert "session_drills"
    (JObj [("session_id", prop newSession "id"); ("drill_id", JStr drillId)])
    false.

Definition deactivate_request (g : jsval) : request :=
  db_update "goals" (JObj [("is_active", JBool false)]) [("id", prop g "id")].

Definition insert_goal_request (c : Store) (skill : string) : request :=
  db_insert "goals"
    (JObj [("athlete_id", prop (athlete c) "id");
           ("skill", JStr skill);
           ("text", JStr (editGoalText c));
           ("is_active", JBool true)])
    true.

Definition select_athletes_request (limit : Z) : request :=
  db_select "athletes" (mkSelect [] [("archived_at", "null")] None (Some limit)).

(** The drills [handleQuickLog] sends: the selected ones under
    entitlement, none otherwise. *)
Definition drills_sent (entitlement : jsval) (c : Store) : list string :=
  if truthy entitlement then logDrills c else [].

(** What [clear_others] does to one entry of the goals object. *)
Definition cleared (skill : string) (kg : string * jsval) : string * jsval :=
  if negb (fst kg =? skill)%string && truthy (snd kg)
  then (fst kg, deactivated (snd kg))
  else kg.

(** The goal [saveGoal] puts into local state for a new row. *)
Definition new_goal (newGoal : jsval) : jsval :=
  JObj [("id", prop newGoal "id"); ("text", prop newGoal "text");
        ("isActive", JBool true)].

(** The goals object is an object (no key twice), and the goals in it
    carry the identifier the backend assigned to them. *)
Definition goals_object (goals : list (string * jsval)) : Prop :=
  NoDup (map fst goals).

Definition goals_identified (goals : list (string * jsval)) : Prop :=
  forall k g, In (k, g) goals -> truthy (g ?. "isActive") = true ->
              truthy (g ?. "id") = true.

(** An athlete row: an object whose [id] is a non-empty string. *)
Definition athlete_id (a : jsval) : option string :=
  match a with
  | JObj o => match obj_get o "id" with Some (JStr id) => Some id | _ => None end
  | _ => None
  end.

Definition athlete_row (a : jsval) : bool :=
  match athlete_id a with Some id => negb (id =? "")%string | None => false end.

(** The athlete [loadData] is to select, in the words of the
    specification: the remembered one if it is in the roster, else the
    first. *)
Definition remembered_or_first (remembered : option string) (first : jsval)
  (rest : list jsval) : jsval :=
  match remembered with
  | Some id =>
      match find (fun a => match athlete_id a with
                           | Some id' => (id' =? id)%string
                           | None => false
                           end) (first :: rest) with
      | Some a => a
      | None => first
      end
  | None => first
  end.

(* ------------------------------------------------------------------ *)
(** ** Sample data *)

Module Sample.
(** A clock that knows two timestamps; 1 January 2025 is "now". *)
Definition new_Date (v : jsval) : option Z :=
  match v with
  | JStr "2030-01-01T00:00:00Z" => Some 1893456000000
  | JStr "2020-01-01T00:00:00Z" => Some 1577836800000
  | _ => None
  end.
Definition now : Z := 1735689600000.
Definition today : string := "2025-01-01".

Definition free_profile : jsval := AuthProvider.defaultProfile "u1".
Definition pro_profile : jsval :=
  JObj [("id", JStr "u1"); ("is_pro", JBool true);
        ("pro_expires_at", JStr "2030-01-01T00:00:00Z")].
Definition lapsed_profile : jsval :=
  JObj [("id", JStr "u1"); ("is_pro", JBool true);
        ("pro_expires_at", JStr "2020-01-01T00:00:00Z")].

Definition ava : jsval := JObj [("id", JStr "a1"); ("name", JStr "Ava")].
Definition bea : jsval := JObj [("id", JStr "a2"); ("name", JStr "Bea")].

Definition goal (id text : string) : jsval :=
  JObj [("id", JStr id); ("text", JStr text); ("isActive", JBool true)].

(** Ava's page with two goals active, the form filled in for a hitting
    practice with two drills, and a new fielding goal typed in. *)
Definition store : Store :=
  mkStore ava (JArr [ava; bea]) []
          [("hitting", goal "g1" "Level swing");
           ("pitching", goal "g2" "Hit the spots");
           ("fielding", JNull);
           ("conditioning", JNull)]
          (JArr []) false JNull true (JStr "fielding") false false
          "2024-12-31" 45 ["hitting"] "Good session" ""
          ["tee-work"; "soft-toss"] "Clean backhands"
          [("selectedAthleteId", "a2")].

Definition session_row : jsval :=
  JObj [("id", JStr "s1"); ("athlete_id", JStr "a1");
        ("date", JStr "2024-12-31"); ("duration_minutes", JNum 45);
        ("focus", JArr [JStr "hitting"]); ("note", JStr "Good session");
        ("reflection", JNull)].

Definition goal_row : jsval :=
  JObj [("id", JStr "g3"); ("athlete_id", JStr "a1");
        ("skill", JStr "fielding"); ("text", JStr "Clean backhands");
        ("is_active", JBool true)].

Definition rejected : jsval :=
  JObj [("code", JStr "23503"); ("message", JStr "violates foreign key constraint")].

Definition auth : AuthProvider.AuthState :=
  AuthProvider.mkAuth (JObj [("id", JStr "u1")]) JNull true.
End Sample.

(* ------------------------------------------------------------------ *)
(** ** More of the store: form toggles, new athletes, the goal editor *)

(** [prev.includes(id) ? prev.filter(f => f !== id) : [...prev, id]] *)
Definition toggle (id : string) (prev : list string) : list string :=
  if existsb (fun f => (f =? id)%string) prev
  then filter (fun f => negb (f =? id)%string) prev
  else (prev ++ [id])%list.

Definition toggleFocus (id : string) : M unit :=
  modify (fun s => with_logFocus (toggle id (logFocus s)) s).

Definition toggleDrill (drillId : string) : M unit :=
  modify (fun s => with_logDrills (toggle drillId (logDrills s)) s).

(** [[...prev, newAthlete]].  The roster cell holds the array the gateway
    fetched; on a value that cannot be iterated the spread throws while
    React applies the update, the component is torn down, and the cell is
    left as it is here. *)
Definition append_athlete (newAthlete prev : jsval) : jsval :=
  match prev with
  | JArr items => JArr (items ++ [newAthlete])
  | JStr s => JArr (chars s ++ [newAthlete])
  | _ => prev
  end.

Definition updAthletes (f : jsval -> jsval) : M unit :=
  modify (fun s => with_athletes (f (athletes s)) s).

Section CreateAthlete.
(** [user] comes from [useAuth()]; [trim] is [String.prototype.trim].
    The name typed into the form is a state cell of its own: it is the
    argument here, and the result is what the cell holds afterwards. *)
Variable user : jsval.
Variable trim : string -> string.

Definition createAthlete (newAthleteName : string) : M string :=
  if negb (truthy (JStr (trim newAthleteName))) then ret newAthleteName
  else
    setSaving true ;;
    setError JNull ;;
    finally
      (try_catch
         (profile_id <- lift (member user "id") ;;
          ' (newAthlete, err) <-
            await (db_insert "athletes"
                     (JObj [("profile_id", profile_id);
                            ("name", JStr (trim newAthleteName))])
                     true) ;;
          when (truthy err) (throw err) ;;
          updAthletes (append_athlete newAthlete) ;;
          setAthlete newAthlete ;;
          setShowAddAthlete false ;;
          ret "")
         (fun err => catch_setError err ;; ret newAthleteName))
      (setSaving false).
End CreateAthlete.

(** The "Edit"/"Add" button of the goal card:
    [const skill = Object.entries(goals).find(([_, g]) => g?.isActive)?.[0] || 'hitting';
     setShowGoalEdit(skill); setEditGoalText(goals[skill]?.text || '')].
    The pair is what the two cells are set to. *)
Definition goalText (goals : list (string * jsval)) (skill : string) : jsval :=
  js_or ((lookup goals skill) ?. "text") (JStr "").

Definition goalToEdit (goals : list (string * jsval)) : string :=
  match find (fun kg => truthy ((snd kg) ?. "isActive")) goals with
  | Some (k, _) => if truthy (JStr k) then k else "hitting"
  | None => "hitting"
  end.

Definition openGoalEdit (goals : list (string * jsval)) : string * jsval :=
  let skill := goalToEdit goals in (skill, goalText goals skill).

(** "Add another goal":
    [FOCUS_OPTIONS.find(f => !goals[f.id]?.isActive)?.id || 'hitting'],
    shown while [activeGoals.length < 3]. *)
Definition unusedSkill (goals : list (string * jsval)) : string :=
  match find (fun f => negb (truthy ((lookup goals f) ?. "isActive"))) FOCUS_OPTIONS with
  | Some f => if truthy (JStr f) then f else "hitting"
  | None => "hitting"
  end.

(** The list of recent practices:
    [sessions.slice(0, showMorePractices ? 15 : 5)], the button under it
    ([sessions.length > 5]) and the number in its label
    ([Math.min(sessions.length, 15) - 5]). *)
Definition recentPractices (showMorePractices : bool) (sessions : list jsval)
  : list jsval :=
  firstn (if showMorePractices then 15 else 5)%nat sessions.

Definition showMoreButton (sessions : list jsval) : bool :=
  5 <? Z.of_nat (List.length sessions).

Definition showMoreCount (sessions : list jsval) : Z :=
  Z.min (Z.of_nat (List.length sessions)) 15 - 5.

(* ------------------------------------------------------------------ *)
(** ** Vocabulary for the loaded state *)

(** [data || []] is the list [rows]. *)
Definition rows_of (data : jsval) (rows : list jsval) : Prop :=
  data = JArr rows \/ (truthy data = false /\ rows = []).

(** The key under which [loadAthleteData] files a goal row, and the row
    that ends up under a key: the last one fetched for it. *)
Definition skill_of (g : jsval) : string := ToString (prop g "skill").

Definition last_goal_row (k : string) (rows : list jsval) : option jsval :=
  find (fun g => (skill_of g =? k)%string) (rev rows).

(** Requests that only read or add rows, except on the goals table. *)
Definition keeps_history (r : request) : bool :=
  match r with
  | db_update t _ _ | db_delete t _ => (t =? "goals")%string
  | _ => true
  end.

(** From a state satisfying [Pre], the handler only issues requests
    satisfying [P] and ends, normally or by throwing, in [Post]. *)
Definition triple {A} (P : request -> Prop) (Pre : Store -> Prop) (m : M A)
  (Post : completion A -> Store -> Prop) : Prop :=
  forall s, Pre s -> safe P (fun x => Post (fst x) (snd x)) (m s).

(** The goals in local state are those of [c]; at most one of the goals
    in local state is active. *)
Definition goals_untouched (c s : Store) : Prop := goals s = goals c.

Definition at_most_one_active (s : Store) : Prop :=
  (List.length (activeGoals (goals s)) <= 1)%nat.

(** [DRILL_CATALOG], and the drill chips the logging form offers: those of
    the focus areas currently selected
    ([logFocus.map(focusId => DRILL_CATALOG[focusId]?.map(...))]). *)
Record drill : Type := mkDrill {
  drill_id : string;
  drill_name : string;
  difficulty : string
}.

Definition DRILL_CATALOG : list (string * list drill) :=
  [("hitting",
    [mkDrill "tee-work" "Tee Work" "beginner";
     mkDrill "soft-toss" "Soft Toss" "beginner";
     mkDrill "front-toss" "Front Toss" "intermediate";
     mkDrill "live-bp" "Live BP" "intermediate";
     mkDrill "machine-bp" "Machine BP" "intermediate";
     mkDrill "bunting" "Bunting" "beginner"]);
   ("pitching",
    [mkDrill "warmup-throws" "Warmup Throws" "beginner";
     mkDrill "fastball-spots" "Fastball Spots" "intermediate";
     mkDrill "changeup-work" "Changeup Work" "intermediate";
     mkDrill "rise-ball" "Rise Ball" "advanced";
     mkDrill "drop-ball" "Drop Ball" "advanced";
     mkDrill "full-bullpen" "Full Bullpen" "intermediate"]);
   ("fielding",
    [mkDrill "ground-balls" "Ground Balls" "beginner";
     mkDrill "fly-balls" "Fly Balls" "beginner";
     mkDrill "throwing" "Throwing Accuracy" "beginner";
     mkDrill "double-plays" "Double Plays" "intermediate";
     mkDrill "backhand" "Backhand Plays" "intermediate";
     mkDrill "first-base" "First Base Footwork" "intermediate"]);
   ("conditioning",
    [mkDrill "warmup" "Dynamic Warmup" "beginner";
     mkDrill "sprints" "Sprint Work" "beginner";
     mkDrill "agility" "Agility Drills" "intermediate";
     mkDrill "base-running" "Base Running" "beginner";
     mkDrill "cooldown" "Cooldown Stretch" "beginner"])].

Fixpoint catalog_get (catalog : list (string * list drill)) (k : string)
  : option (list drill) :=
  match catalog with
  | [] => None
  | (k', ds) :: rest => if (k' =? k)%string then Some ds else catalog_get rest k
  end.

Definition offeredDrills (logFocus : list string) : list string :=
  flat_map (fun focusId =>
              match catalog_get DRILL_CATALOG focusId with
              | Some ds => map drill_id ds
              | None => []
              end) logFocus.

(* ------------------------------------------------------------------ *)
(** ** The remote data gateway over HTTP *)

(** What [db.select], [db.insert], [db.update] and [db.delete] hand to
    [fetch]; the body is the value given to [JSON.stringify]. *)
Record http_request : Type := mkRequest {
  http_method : string;
  http_url : string;
  http_headers : list (string * string);
  http_body : option jsval
}.

(** What the gateway stands on: the session held by the auth client
    ([supabase.auth.getSession()], which may reject) and [fetch] followed
    by [response.json()]. *)
Record network (B : Type) : Type := mkNetwork {
  getSession : B -> completion jsval * B;
  fetch : http_request -> B -> AuthProvider.fetch_result * B
}.
Arguments getSession {B} n b.
Arguments fetch {B} n r b.

Section Gateway.
(** [import.meta.env.VITE_SUPABASE_URL] and [..._ANON_KEY]. *)
Variable supabaseUrl : string.
Variable supabaseAnonKey : string.

(** [session?.access_token || supabaseAnonKey] *)
Definition getAuthToken (session : jsval) : jsval :=
  js_or (session ?. "access_token") (JStr supabaseAnonKey).

Definition auth_headers (token : jsval) : list (string * string) :=
  [("apikey", supabaseAnonKey); ("Authorization", "Bearer " ++ ToString token)].

(** The URL of [db.select]: the filters, then the order, then the limit
    unless it is missing or zero ([if (limit)]). *)
Definition select_url (table : string) (opts : select_options) : string :=
  supabaseUrl ++ "/rest/v1/" ++ table ++ "?select=*"
  ++ String.concat ""
       (map (fun cv => "&" ++ fst cv ++ "=eq." ++ ToString (snd cv)) (sel_eq opts))
  ++ String.concat ""
       (map (fun cv => "&" ++ fst cv ++ "=is." ++ snd cv) (sel_is opts))
  ++ match sel_order opts with
     | Some (column, ascending) =>
         "&order=" ++ column ++ "." ++ (if ascending then "asc" else "desc")
     | None => ""
     end
  ++ match sel_limit opts with
     | Some n => if n =? 0 then "" else "&limit=" ++ decimal n
     | None => ""
     end.

(** The URL of [db.update] and [db.delete]. *)
Definition filter_url (table : string) (eq : list (string * jsval)) : string :=
  supabaseUrl ++ "/rest/v1/" ++ table ++ "?"
  ++ String.concat ""
       (map (fun cv => fst cv ++ "=eq." ++ ToString (snd cv) ++ "&") eq).

Definition db_request (r : request) (token : jsval) : http_request :=
  match r with
  | db_select table opts =>
      mkRequest "GET" (select_url table opts) (auth_headers token) None
  | db_insert table row returnData =>
      mkRequest "POST" (supabaseUrl ++ "/rest/v1/" ++ table)
                (auth_headers token
                 ++ [("Content-Type", "application/json");
                     ("Prefer", if returnData then "return=representation"
                                else "return=minimal")])
                (Some row)
  | db_update table updates eq =>
      mkRequest "PATCH" (filter_url table eq)
                (auth_headers token
                 ++ [("Content-Type", "application/json");
                     ("Prefer", "return=representation")])
                (Some updates)
  | db_delete table eq =>
      mkRequest "DELETE" (filter_url table eq) (auth_headers token) None
  end.

(** What each operation makes of the response.  A body is parsed when
    the response is not [ok], and on success by every operation except
    the insert without representation and the delete; [data[0] || data]
    throws on [null]. *)
Definition db_result (r : request) (resp : AuthProvider.fetch_result) : outcome :=
  match resp with
  | AuthProvider.Rejected err => Thrown err
  | AuthProvider.Response status body =>
      if negb (AuthProvider.is_2xx status) then
        match body with
        | None => Thrown AuthProvider.SyntaxError
        | Some error =>
            Returned (match r with db_delete _ _ => JUndefined | _ => JNull end) error
        end
      else
        match r with
        | db_select _ _ | db_update _ _ _ =>
            match body with
            | None => Thrown AuthProvider.SyntaxError
            | Some data => Returned data JNull
            end
        | db_insert _ _ true =>
            match body with
            | None => Thrown AuthProvider.SyntaxError
            | Some data =>
                if nullish data
                then Thrown (TypeError "Cannot read properties of null or undefined: 0")
                else Returned (js_or (index0 data) data) JNull
            end
        | db_insert _ _ false => Returned JNull JNull
        | db_delete _ _ => Returned JUndefined JNull
        end
  end.

(** The gateway as a backend of the handlers: the token is read first,
    then one request goes out. *)
Definition gateway {B} (net : network B) : handler B :=
  fun r b =>
    match getSession net b with
    | (Throw err, b1) => (Thrown err, b1)
    | (Normal session, b1) =>
        let (resp, b2) := fetch net (db_request r (getAuthToken session)) b1 in
        (db_result r resp, b2)
    end.
End Gateway.

(** A network that holds one session, answers from a prepared list of
    responses (and is unreachable when the list is used up), and records
    what was sent. *)
Record wire_state : Type := mkWire {
  pending : list AuthProvider.fetch_result;
  sent : list http_request
}.

Definition wire (session : jsval) : network wire_state :=
  mkNetwork wire_state
    (fun w => (Normal session, w))
    (fun req w =>
       match pending w with
       | resp :: rest => (resp, mkWire rest (sent w ++ [req]))
       | [] => (AuthProvider.Rejected NetworkError, mkWire [] (sent w ++ [req]))
       end).

(** The header [k] of a request. *)
Fixpoint header (k : string) (hs : list (string * string)) : option string :=
  match hs with
  | [] => None
  | (k', v) :: rest => if (k' =? k)%string then Some v else header k rest
  end.

(** An update or delete that names the row it is for. *)
Definition addressed (r : request) : Prop :=
  match r with
  | db_update _ _ eq | db_delete _ eq =>
      exists id, eq = [("id", id)] /\ truthy id = true
  | _ => True
  end.

(* ------------------------------------------------------------------ *)
(** ** Session/identity manager: auth events and [refreshProfile] *)

(** [a ?? b] *)
Definition coalesce (a b : jsval) : jsval := if nullish a then b else a.

Module AuthSession.

Definition setUser (u : jsval) (s : AuthProvider.AuthState) : AuthProvider.AuthState :=
  AuthProvider.mkAuth u (AuthProvider.profile s) (AuthProvider.loading s).

(** [{ id: userId, is_pro: false }] for whatever [session.user.id] holds. *)
Definition fallbackProfile (userId : jsval) : jsval :=
  JObj [("id", userId); ("is_pro", JBool false)].

(** [fetchProfile(userId, accessToken)] from the response on: nothing
    escapes its [try]/[catch], and the loading flag is cleared last. *)
Definition fetchProfile (userId : jsval) (r : AuthProvider.fetch_result)
  (s : AuthProvider.AuthState) : AuthProvider.AuthState :=
  AuthProvider.setLoading false
    (match r with
     | AuthProvider.Response _ (Some (JArr (first :: _))) =>
         AuthProvider.setProfile first s
     | _ => AuthProvider.setProfile (fallbackProfile userId) s
     end).

Section Session.
Variable supabaseUrl : string.
Variable supabaseAnonKey : string.

(** The request of [fetchProfile]: [token = accessToken || supabaseAnonKey]. *)
Definition profile_request (userId accessToken : jsval) : http_request :=
  mkRequest "GET"
    (supabaseUrl ++ "/rest/v1/profiles?select=*&id=eq." ++ ToString userId)
    [("apikey", supabaseAnonKey);
     ("Authorization",
      "Bearer " ++ ToString (js_or accessToken (JStr supabaseAnonKey)))]
    None.

(** The callback given to [onAuthStateChange]; [r] is what the profile
    fetch comes back with, if one is made.  The result is the request
    made, if any, and the state afterwards. *)
Definition onAuthStateChange (session : jsval) (r : AuthProvider.fetch_result)
  (s : AuthProvider.AuthState) : option http_request * AuthProvider.AuthState :=
  let s1 := setUser (coalesce (session ?. "user") JNull) s in
  if truthy (session ?. "user") then
    (Some (profile_request (prop (prop session "user") "id")
                           (prop session "access_token")),
     fetchProfile (prop (prop session "user") "id") r s1)
  else
    (None, AuthProvider.setLoading false (AuthProvider.setProfile JNull s1)).

(** The callback on the session found at start-up. *)
Definition onInitialSession (session : jsval) (r : AuthProvider.fetch_result)
  (s : AuthProvider.AuthState) : option http_request * AuthProvider.AuthState :=
  let s1 := setUser (coalesce (session ?. "user") JNull) s in
  if truthy (session ?. "user") then
    (Some (profile_request (prop (prop session "user") "id")
                           (prop session "access_token")),
     fetchProfile (prop (prop session "user") "id") r s1)
  else
    (None, AuthProvider.setLoading false s1).

(** [if (user) fetchProfile(user.id)]: no token is passed. *)
Definition refreshProfile (r : AuthProvider.fetch_result)
  (s : AuthProvider.AuthState) : option http_request * AuthProvider.AuthState :=
  if truthy (AuthProvider.user s) then
    (Some (profile_request (prop (AuthProvider.user s) "id") JUndefined),
     fetchProfile (prop (AuthProvider.user s) "id") r s)
  else (None, s).
End Session.

End AuthSession.

(** [AppContent]: the spinner while the session is being looked up, the
    sign-in screen without a user, the tracker otherwise. *)
Inductive screen : Type := Spinner | SignInScreen | TrackerApp.

Definition AppContent (s : AuthProvider.AuthState) : screen :=
  if AuthProvider.loading s then Spinner
  else if negb (truthy (AuthProvider.user s)) then SignInScreen
  else TrackerApp.

(* ------------------------------------------------------------------ *)
(** ** Sign-in screen: [handleSubmit] *)

Module AuthScreen.

(** The state cells of the screen, and the messages passed to [alert]. *)
Record Form : Type := mkForm {
  mode : string;
  email : string;
  password : string;
  loading : bool;
  error : jsval;
  alerts : list string
}.

Definition setLoading (v : bool) (f : Form) : Form :=
  mkForm (mode f) (email f) (password f) v (error f) (alerts f).
Definition setError (v : jsval) (f : Form) : Form :=
  mkForm (mode f) (email f) (password f) (loading f) v (alerts f).
Definition alert (msg : string) (f : Form) : Form :=
  mkForm (mode f) (email f) (password f) (loading f) (error f) (alerts f ++ [msg]).

(** The call to the auth client that [handleSubmit] makes. *)
Inductive auth_call : Type :=
| signInWithPassword (email password : string)
| signUp (email password : string).

(** [v?.length] *)
Definition opt_length (v : jsval) : jsval :=
  if nullish v then JUndefined else js_length v.

(** [handleSubmit], after [e.preventDefault()]: the call made, and how
    the screen is left when the call resolves to [{ data, error }] or
    rejects.  There is no [try] around the call: a rejection leaves
    through the handler. *)
Definition handleSubmit (f : Form) (answer : outcome)
  : auth_call * (completion unit * Form) :=
  let f1 := setError JNull (setLoading true f) in
  if (mode f =? "signin")%string then
    (signInWithPassword (email f) (password f),
     match answer with
     | Thrown err => (Throw err, f1)
     | Returned _ error =>
         let f2 := if truthy error then setError (prop error "message") f1 else f1 in
         (Normal tt, setLoading false f2)
     end)
  else
    (signUp (email f) (password f),
     match answer with
     | Thrown err => (Throw err, f1)
     | Returned data error =>
         let f2 :=
           if truthy error then setError (prop error "message") f1
           else if is_num (opt_length ((data ?. "user") ?. "identities")) 0 then
             setError
               (JStr "An account with this email already exists. Try signing in instead.")
               f1
           else if truthy (data ?. "user") && negb (truthy (prop data "session")) then
             alert "Check your email for a confirmation link!" (setError JNull f1)
           else f1 in
         (Normal tt, setLoading false f2)
     end).

End AuthScreen.

(* ------------------------------------------------------------------ *)
(** ** Pro charts: [FocusDistributionChart] *)

(** The local object [counts]: every value stored in it is a number, so
    it is kept as a map to integers; [counts[k] || 0] is [tally_get].
    (Tags are skill names, never names of [Object.prototype].) *)
Fixpoint tally_get (counts : list (string * Z)) (k : string) : Z :=
  match counts with
  | [] => 0
  | (k', n) :: rest => if (k' =? k)%string then n else tally_get rest k
  end.

Fixpoint tally_set (k : string) (n : Z) (counts : list (string * Z))
  : list (string * Z) :=
  match counts with
  | [] => [(k, n)]
  | (k', n') :: rest =>
      if (k' =? k)%string then (k, n) :: rest else (k', n') :: tally_set k n rest
  end.

Definition CHART_COLORS : list (string * jsval) :=
  [("hitting", JStr "#d4a418"); ("pitching", JStr "#60a5fa");
   ("fielding", JStr "#34d399"); ("conditioning", JStr "#f472b6")].

(** [(s.focus || []).forEach(f => { counts[f] = (counts[f] || 0) + 1 })] *)
Definition count_session (counts : list (string * Z)) (s : jsval)
  : completion (list (string * Z)) :=
  match member s "focus" with
  | Throw err => Throw err
  | Normal focus =>
      match array_of "forEach" (js_or focus (JArr [])) with
      | Throw err => Throw err
      | Normal tags =>
          Normal (fold_left
                    (fun counts f =>
                       tally_set (ToString f) (tally_get counts (ToString f) + 1) counts)
                    tags counts)
      end
  end.

(** One entry of the chart:
    [{ id: f.id, name: f.label, emoji: f.emoji, value: counts[f.id] || 0,
       color: CHART_COLORS[f.id] || '#78716c' }]. *)
Definition chart_entry (counts : list (string * Z)) (f : jsval) : completion jsval :=
  match member f "id" with
  | Throw err => Throw err
  | Normal id =>
      Normal (JObj [("id", id); ("name", prop f "label"); ("emoji", prop f "emoji");
                    ("value", JNum (tally_get counts (ToString id)));
                    ("color", js_or (lookup CHART_COLORS (ToString id))
                                    (JStr "#78716c"))])
  end.

(** [d.value > 0] on the entries built above. *)
Definition has_value (d : jsval) : bool :=
  match prop d "value" with JNum n => 0 <? n | _ => false end.

Definition focusData (sessions focusOptions : list jsval) : completion (list jsval) :=
  match fold_throwing count_session [] sessions with
  | Throw err => Throw err
  | Normal counts =>
      match map_throwing (chart_entry counts) focusOptions with
      | Throw err => Throw err
      | Normal entries => Normal (filter has_value entries)
      end
  end.

(** The focus tags of a list of sessions, as keys, in order. *)
Definition focus_tags (sessions : list jsval) : list string :=
  flat_map (fun s => match js_or (prop s "focus") (JArr []) with
                     | JArr tags => map ToString tags
                     | _ => []
                     end) sessions.

(** A session as the chart and the export can read it: not [null], its
    focus an array or missing. *)
Definition tagged_session (s : jsval) : Prop :=
  nullish s = false
  /\ (truthy (prop s "focus") = false \/ exists tags, prop s "focus" = JArr tags).

(* ------------------------------------------------------------------ *)
(** ** Export: [exportCSV] *)

Definition dquote : ascii := "034"%char.
Definition newline : string := String "010"%char EmptyString.

(** [text.replace] with the pattern for every double quote and two
    double quotes as the replacement, on a string. *)
Fixpoint double_quotes (text : string) : string :=
  match text with
  | EmptyString => EmptyString
  | String ch rest =>
      if (ch =? dquote)%char
      then String dquote (String dquote (double_quotes rest))
      else String ch (double_quotes rest)
  end.

(** [(v || '').replace(...)]: only strings have [replace]. *)
Definition replace_quotes (v : jsval) : completion jsval :=
  match js_or v (JStr "") with
  | JStr text => Normal (JStr (double_quotes text))
  | _ => Throw (TypeError "replace is not a function")
  end.

(** [arr.join(sep)] *)
Definition js_join (sep : string) (items : list jsval) : string :=
  join sep (map (fun x => if nullish x then "" else ToString x) items).

(** The cells of one session:
    [[s.date, s.duration, (s.focus || []).join('; '),
      (s.note || '').replace(...), (s.reflection || '').replace(...)]]. *)
Definition csv_cells (s : jsval) : completion (list jsval) :=
  match member s "date" with
  | Throw err => Throw err
  | Normal date =>
      match array_of "join" (js_or (prop s "focus") (JArr [])) with
      | Throw err => Throw err
      | Normal tags =>
          match replace_quotes (prop s "note") with
          | Throw err => Throw err
          | Normal note =>
              match replace_quotes (prop s "reflection") with
              | Throw err => Throw err
              | Normal reflection =>
                  Normal [date; prop s "duration"; JStr (js_join "; " tags);
                          note; reflection]
              end
          end
      end
  end.

(** The template that puts [cell] between double quotes, and
    [row.map(...).join(',')]. *)
Definition csv_cell (cell : jsval) : string :=
  String dquote (ToString cell ++ String dquote EmptyString).

Definition csv_line (cells : list jsval) : string :=
  join "," (map csv_cell cells).

Definition csv_headers : list string :=
  ["Date"; "Duration (min)"; "Focus Areas"; "Note"; "Reflection"].

(** What [exportCSV] hands to [downloadFile]: the content, the file name
    and the MIME type (the menu is closed afterwards). *)
Definition exportCSV (sessions : list jsval) (athlete : jsval)
  : completion (string * string * string) :=
  match map_throwing csv_cells sessions with
  | Throw err => Throw err
  | Normal rows =>
      let csv := join newline (join "," csv_headers :: map csv_line rows) in
      match member athlete "name" with
      | Throw err => Throw err
      | Normal name => Normal (csv, ToString name ++ "-practices.csv", "text/csv")
      end
  end.

(** How a reader of the file takes a quoted field back: the surrounding
    quotes go, a doubled quote inside stands for one, a single one inside
    is an error. *)
Fixpoint unquote_rest (field : string) : option string :=
  match field with
  | EmptyString => None
  | String ch rest =>
      if (ch =? dquote)%char then
        match rest with
        | EmptyString => Some EmptyString
        | String ch2 rest2 =>
            if (ch2 =? dquote)%char
            then option_map (String dquote) (unquote_rest rest2)
            else None
        end
      else option_map (String ch) (unquote_rest rest)
  end.

Definition csv_unquote (field : string) : option string :=
  match field with
  | String ch rest => if (ch =? dquote)%char then unquote_rest rest else None
  | EmptyString => None
  end.

(* ================================================================== *)
(** * Properties *)

(* ------------------------------------------------------------------ *)
(** ** Running handlers *)

Lemma serve_pbind {A B C} (h : handler C) (p : Prog A) (f : A -> Prog B) (b : C) :
  serve h (pbind p f) b =
  let '(a, b1, l1) := serve h p b in
  let '(r, b2, l2) := serve h (f a) b1 in
  (r, b2, (l1 ++ l2)%list).
Proof.
  revert b. induction p as [a | r k IH]; intros b; simpl.
  - destruct (serve h (f a) b) as [[x y] z]. reflexivity.
  - destruct (h r b) as [o b1]. rewrite IH.
    destruct (serve h (k o) b1) as [[a b2] l1].
    destruct (serve h (f a) b2) as [[x y] z]. reflexivity.
Qed.

Lemma serve_bind {A B C} (h : handler C) (m : M A) (f : A -> M B) s b :
  serve h (bind m f s) b =
  match serve h (m s) b with
  | (Normal a, s1, b1, l1) =>
      let '(y, b2, l2) := serve h (f a s1) b1 in (y, b2, (l1 ++ l2)%list)
  | (Throw e, s1, b1, l1) => (Throw e, s1, b1, l1)
  end.
Proof.
  unfold bind. rewrite serve_pbind.
  destruct (serve h (m s) b) as [[[c s1] b1] l1].
  destruct c; simpl.
  - destruct (serve h (f a s1) b1) as [[x y] z]. reflexivity.
  - rewrite app_nil_r. reflexivity.
Qed.

Lemma serve_try_catch {A C} (h : handler C) (body : M A) handle s b :
  serve h (try_catch body handle s) b =
  match serve h (body s) b with
  | (Normal a, s1, b1, l1) => (Normal a, s1, b1, l1)
  | (Throw e, s1, b1, l1) =>
      let '(y, b2, l2) := serve h (handle e s1) b1 in (y, b2, (l1 ++ l2)%list)
  end.
Proof.
  unfold try_catch. rewrite serve_pbind.
  destruct (serve h (body s) b) as [[[c s1] b1] l1].
  destruct c; simpl.
  - rewrite app_nil_r. reflexivity.
  - destruct (serve h (handle err s1) b1) as [[x y] z]. reflexivity.
Qed.

Lemma serve_finally {A C} (h : handler C) (body : M A) fin s b :
  serve h (finally body fin s) b =
  let '(c, s1, b1, l1) := serve h (body s) b in
  match serve h (fin s1) b1 with
  | (Normal _, s2, b2, l2) => (c, s2, b2, (l1 ++ l2)%list)
  | (Throw e, s2, b2, l2) => (Throw e, s2, b2, (l1 ++ l2)%list)
  end.
Proof.
  unfold finally. rewrite serve_pbind.
  destruct (serve h (body s) b) as [[[c s1] b1] l1]. simpl.
  rewrite serve_pbind.
  destruct (serve h (fin s1) b1) as [[[c2 s2] b2] l2].
  destruct c2; simpl; rewrite app_nil_r; reflexivity.
Qed.

Lemma truthy_not_nullish v : truthy v = true -> nullish v = false.
Proof. destruct v; simpl; congruence. Qed.

(** Runs a handler forward as far as its text is known: through the
    sequencing constructs, the state updates and the scripted backend. *)
Ltac mrun :=
  cbn [serve pbind bind try_catch finally await lift modify ret throw when gets
       scripted fst snd for_of
       setAthlete setAthletes setSessions updSessions setGoals
       updGoals setDrillFrequency setLoading setError setShowQuickLog
       setShowGoalEdit setShowAddAthlete setSaving setLogDate setLogDuration
       setLogFocus setLogNote setLogReflection setLogDrills setEditGoalText
       localStorage_setItem catch_setError].

Lemma insertDrill_run newSession d s o rest :
  nullish newSession = false ->
  serve scripted (insertDrill newSession d s) (o :: rest) =
  (match o with
   | Returned _ e => if truthy e then Throw e else Normal tt
   | Thrown e => Throw e
   end, s, rest, [(insert_drill_request newSession d, o)]).
Proof.
  intros Hn. unfold insertDrill, member. rewrite Hn. mrun.
  destruct o as [data e | e]; mrun; [destruct (truthy e) |]; reflexivity.
Qed.

Lemma drills_all_inserted newSession ds : forall outs rest s,
  nullish newSession = false ->
  List.length outs = List.length ds ->
  forallb succeeded outs = true ->
  serve scripted (for_of ds (insertDrill newSession) s) (outs ++ rest)%list =
  (Normal tt, s, rest, combine (map (insert_drill_request newSession) ds) outs).
Proof.
  intros outs rest s Hn. revert outs.
  induction ds as [| d ds IH]; intros [| o outs] Hlen Hok; simpl in *; try discriminate.
  - reflexivity.
  - apply andb_prop in Hok. destruct Hok as [Ho Hok].
    destruct o as [data e | e]; simpl in Ho; try discriminate.
    apply negb_true_iff in Ho.
    rewrite serve_bind, insertDrill_run by assumption. rewrite Ho.
    rewrite IH by (auto; lia). reflexivity.
Qed.

Lemma drills_fail_at newSession ds1 d ds2 : forall outs rest s bad e,
  nullish newSession = false ->
  List.length outs = List.length ds1 ->
  forallb succeeded outs = true ->
  failure bad e ->
  serve scripted (for_of (ds1 ++ d :: ds2) (insertDrill newSession) s)
        (outs ++ bad :: rest)%list =
  (Throw e, s, rest,
   combine (map (insert_drill_request newSession) (ds1 ++ [d])) (outs ++ [bad]))%list.
Proof.
  intros outs rest s bad e Hn. revert outs.
  induction ds1 as [| d1 ds1 IH]; intros [| o outs] Hlen Hok Hbad; simpl in *; try discriminate.
  - rewrite serve_bind, insertDrill_run by assumption.
    destruct Hbad as [data e He | e He]; [rewrite He |]; reflexivity.
  - apply andb_prop in Hok. destruct Hok as [Ho Hok].
    destruct o as [data0 e0 | e0]; simpl in Ho; try discriminate.
    apply negb_true_iff in Ho.
    rewrite serve_bind, insertDrill_run by assumption. rewrite Ho.
    rewrite IH by (auto; lia). reflexivity.
Qed.

Section QuickLog.
Variable new_Date : jsval -> option Z.
Variable now : Z.
Variable profile : jsval.
Variable today : string.

Lemma handleQuickLog_guard_passes c :
  logFocus c <> [] -> truthy (athlete c) = true ->
  ((List.length (logFocus c) =? 0)%nat || negb (truthy (athlete c))) = false.
Proof.
  intros Hf Ha. rewrite Ha. destruct (logFocus c); [congruence | reflexivity].
Qed.


Lemma drills_loop_gated c newSession :
  when (truthy (isPro new_Date now profile)
        && (0 <? List.length (logDrills c))%nat)
       (for_of (logDrills c) (insertDrill newSession))
  = for_of (drills_sent (isPro new_Date now profile) c) (insertDrill newSession).
Proof.
  unfold drills_sent.
  destruct (truthy (isPro new_Date now profile)); [| reflexivity].
  destruct (logDrills c); reflexivity.
Qed.

Lemma handleQuickLog_runs_through c newSession e0 outs rest :
  logFocus c <> [] -> truthy (athlete c) = true ->
  nullish newSession = false -> truthy e0 = false ->
  List.length outs = List.length (drills_sent (isPro new_Date now profile) c) ->
  forallb succeeded outs = true ->
  exists s',
    serve scripted (dispatch (handleQuickLog new_Date now profile today) c)
          (Returned newSession e0 :: outs ++ rest)%list =
    (Normal tt, s', rest,
     (insert_session_request c, Returned newSession e0)
     :: combine (map (insert_drill_request newSession) (drills_sent (isPro new_Date now profile) c)) outs)
    /\ sessions s' =
displayed newSession :: sessions c
    /\ logDate s' = today /\ logDuration s' = 30 /\ logFocus s' = []
    /\ logNote s' = "" /\ logReflection s' = "" /\ logDrills s' = []
    /\ showQuickLog s' = false /\ error s' = JNull /\ saving s' = false
    /\ goals s' = goals c /\ drillFrequency s' = drillFrequency c
    /\ athlete s' = athlete c.
Proof.
  intros Hf Ha Hn He0 Hlen Hok.
  unfold dispatch, handleQuickLog.
  rewrite (handleQuickLog_guard_passes c Hf Ha).
  unfold member. rewrite (truthy_not_nullish _ Ha).
  mrun. rewrite He0. mrun.
  rewrite drills_loop_gated.
  rewrite !serve_pbind, serve_bind.
  rewrite drills_all_inserted by assumption.
  unfold display_shape, member. rewrite Hn. mrun.
  rewrite !app_nil_r.
  eexists. split; [reflexivity |]. simpl. repeat split; reflexivity.
Qed.

Lemma handleQuickLog_stops_at_failure c newSession e0 ds1 d ds2 outs bad e rest :
  logFocus c <> [] -> truthy (athlete c) = true ->
  truthy (isPro new_Date now profile) = true ->
  logDrills c = (ds1 ++ d :: ds2)%list ->
  nullish newSession = false -> truthy e0 = false ->
  List.length outs = List.length ds1 ->
  forallb succeeded outs = true ->
  failure bad e ->
  serve scripted (dispatch (handleQuickLog new_Date now profile today) c)
        (Returned newSession e0 :: outs ++ bad :: rest)%list =
  (Normal tt,
   with_saving false (with_error (prop e "message") (with_error JNull (with_saving true c))),
   rest,
   (insert_session_request c, Returned newSession e0)
   :: combine (map (insert_drill_request newSession) (ds1 ++ [d])) (outs ++ [bad]))%list.
Proof.
  intros Hf Ha Hpro Hds Hn He0 Hlen Hok Hbad.
  unfold dispatch, handleQuickLog.
  rewrite (handleQuickLog_guard_passes c Hf Ha).
  unfold member at 1. rewrite (truthy_not_nullish _ Ha).
  mrun. rewrite He0. mrun.
  rewrite drills_loop_gated. unfold drills_sent. rewrite Hpro, Hds.
  rewrite !serve_pbind, serve_bind.
  rewrite (drills_fail_at newSession ds1 d ds2 outs rest _ bad e) by assumption.
  assert (He : nullish e = false).
  { destruct Hbad as [data e He | e He]; [apply truthy_not_nullish |]; assumption. }
  unfold member. rewrite He. mrun.
  rewrite !app_nil_r. reflexivity.
Qed.
End QuickLog.

(** *** Objects as association lists *)

Lemma obj_get_set_same k v o : obj_get (obj_set k v o) k = Some v.
Proof.
  induction o as [| [k' v'] o IH]; simpl.
  - rewrite String.eqb_refl. reflexivity.
  - destruct (k' =? k)%string eqn:E; simpl.
    + rewrite String.eqb_refl. reflexivity.
    + rewrite E. exact IH.
Qed.

Lemma obj_get_set_other k k' v o :
  k' <> k -> obj_get (obj_set k v o) k' = obj_get o k'.
Proof.
  intros Hne. induction o as [| [k0 v0] o IH]; simpl.
  - apply String.eqb_neq in Hne. rewrite String.eqb_sym, Hne. reflexivity.
  - destruct (k0 =? k)%string eqn:E; simpl.
    + apply String.eqb_eq in E. subst k0.
      apply String.eqb_neq in Hne. rewrite String.eqb_sym, Hne. reflexivity.
    + destruct (k0 =? k')%string; [reflexivity | exact IH].
Qed.

Lemma obj_set_same_value k v o :
  obj_get o k = Some v -> obj_set k v o = o.
Proof.
  induction o as [| [k' v'] o IH]; simpl; intros H.
  - discriminate.
  - destruct (k' =? k)%string eqn:E.
    + apply String.eqb_eq in E. congruence.
    + rewrite IH by assumption. reflexivity.
Qed.

Lemma obj_get_app_fresh k pre l :
  ~ In k (map fst pre) -> obj_get (pre ++ l) k = obj_get l k.
Proof.
  induction pre as [| [k' v'] pre IH]; simpl; intros H.
  - reflexivity.
  - destruct (k' =? k)%string eqn:E.
    + apply String.eqb_eq in E. tauto.
    + apply IH. tauto.
Qed.

Lemma obj_set_app_fresh k v pre l :
  ~ In k (map fst pre) -> obj_set k v (pre ++ l) = (pre ++ obj_set k v l)%list.
Proof.
  induction pre as [| [k' v'] pre IH]; simpl; intros H.
  - reflexivity.
  - destruct (k' =? k)%string eqn:E.
    + apply String.eqb_eq in E. tauto.
    + rewrite IH by tauto. reflexivity.
Qed.

Lemma obj_set_keys k v o k' :
  In k' (map fst (obj_set k v o)) -> k' = k \/ In k' (map fst o).
Proof.
  induction o as [| [k0 v0] o IH]; simpl.
  - intros [H | []]. left. symmetry. exact H.
  - destruct (k0 =? k)%string eqn:E; simpl.
    + apply String.eqb_eq in E. subst k0. tauto.
    + intros [H | H]; [tauto | destruct (IH H); tauto].
Qed.

Lemma obj_set_keeps_object k v o :
  NoDup (map fst o) -> NoDup (map fst (obj_set k v o)).
Proof.
  induction o as [| [k' v'] o IH]; simpl; intros H.
  - constructor; [intros [] | constructor].
  - inversion H as [| ? ? Hnotin Hnd]; subst.
    destruct (k' =? k)%string eqn:E; simpl.
    + apply String.eqb_eq in E. subst k'. constructor; assumption.
    + constructor; [| apply IH; assumption].
      intros Hin. apply obj_set_keys in Hin. destruct Hin as [Hin | Hin].
      * subst k'. rewrite String.eqb_refl in E. discriminate.
      * contradiction.
Qed.

(** *** Deactivating the other goals *)

Lemma cleared_key skill kg : fst (cleared skill kg) = fst kg.
Proof. unfold cleared. destruct (_ && _); reflexivity. Qed.

Lemma clear_others_from skill suf : forall pre,
  NoDup (map fst (pre ++ suf)) ->
  fold_left
    (fun o k =>
       if negb (k =? skill)%string && truthy (lookup o k)
       then obj_set k (deactivated (lookup o k)) o
       else o)
    (map fst suf) (pre ++ suf)%list
  = (pre ++ map (cleared skill) suf)%list.
Proof.
  induction suf as [| [k g] suf IH]; intros pre Hnd; simpl.
  - reflexivity.
  - assert (Hfresh : ~ In k (map fst pre)).
    { rewrite map_app in Hnd. simpl in Hnd.
      apply NoDup_remove_2 in Hnd. intros Hin. apply Hnd.
      apply in_or_app. left. exact Hin. }
    assert (Hlook : lookup (pre ++ (k, g) :: suf) k = g).
    { unfold lookup. rewrite obj_get_app_fresh by assumption.
      simpl. rewrite String.eqb_refl. reflexivity. }
    rewrite Hlook.
    assert (Hstep :
      (if negb (k =? skill)%string && truthy g
       then obj_set k (deactivated g) (pre ++ (k, g) :: suf)
       else (pre ++ (k, g) :: suf)%list)
      = ((pre ++ [cleared skill (k, g)]) ++ suf)%list).
    { unfold cleared. simpl fst. simpl snd.
      destruct (negb (k =? skill)%string && truthy g).
      - rewrite obj_set_app_fresh by assumption. simpl.
        rewrite String.eqb_refl. rewrite <- app_assoc. reflexivity.
      - rewrite <- app_assoc. reflexivity. }
    rewrite Hstep. rewrite IH.
    + rewrite <- app_assoc. reflexivity.
    + rewrite <- app_assoc. simpl.
      rewrite map_app in *. simpl in *. rewrite cleared_key. exact Hnd.
Qed.

Lemma clear_others_map skill o :
  goals_object o -> clear_others skill o = map (cleared skill) o.
Proof.
  intros Hnd. unfold clear_others.
  apply (clear_others_from skill o []). exact Hnd.
Qed.

Lemma falsy_inactive g : truthy g = false -> truthy (g ?. "isActive") = false.
Proof.
  destruct g; simpl; try reflexivity; try discriminate.
Qed.

Lemma deactivated_inactive g : truthy ((deactivated g) ?. "isActive") = false.
Proof.
  unfold deactivated, opt_prop, prop. simpl.
  rewrite obj_get_set_same. reflexivity.
Qed.

Lemma cleared_inactive skill kg :
  fst kg <> skill -> truthy ((snd (cleared skill kg)) ?. "isActive") = false.
Proof.
  intros Hne. unfold cleared. apply String.eqb_neq in Hne. rewrite Hne. simpl.
  destruct (truthy (snd kg)) eqn:E; simpl.
  - apply deactivated_inactive.
  - apply falsy_inactive. exact E.
Qed.

Lemma others_cleared_inactive skill o :
  ~ In skill (map fst o) -> activeGoals (map (cleared skill) o) = [].
Proof.
  induction o as [| kg o IH]; simpl; intros H.
  - reflexivity.
  - rewrite cleared_inactive by tauto. apply IH. tauto.
Qed.

Lemma only_new_goal_active skill new o :
  goals_object o ->
  truthy (new ?. "isActive") = true ->
  activeGoals (obj_set skill new (map (cleared skill) o)) = [(skill, new)].
Proof.
  unfold goals_object.
  induction o as [| [k g] o IH]; simpl; intros Hnd Hact.
  - rewrite Hact. reflexivity.
  - inversion Hnd as [| ? ? Hnotin Hnd']; subst.
    destruct (cleared skill (k, g)) as [k' g'] eqn:Ec.
    assert (Hk : k' = k).
    { change k' with (fst (k', g')). rewrite <- Ec. apply cleared_key. }
    subst k'. simpl.
    destruct (k =? skill)%string eqn:E; simpl.
    + apply String.eqb_eq in E. subst k. rewrite Hact.
      rewrite others_cleared_inactive by assumption. reflexivity.
    + assert (Hin : truthy (g' ?. "isActive") = false).
      { change g' with (snd (k, g')). rewrite <- Ec. apply cleared_inactive.
        simpl. apply String.eqb_neq. exact E. }
      rewrite Hin. apply IH; assumption.
Qed.

(** *** [saveGoal] *)

Lemma nonempty_truthy s : s <> "" -> truthy (JStr s) = true.
Proof.
  intros H. simpl. apply negb_true_iff. apply String.eqb_neq. exact H.
Qed.

Lemma member_defined v k : nullish v = false -> member v k = Normal (prop v k).
Proof. intros H. unfold member. rewrite H. reflexivity. Qed.

Lemma deactivate_run kg s o rest :
  truthy ((snd kg) ?. "id") = true -> resolved o = true ->
  serve scripted (deactivate kg s) (o :: rest) =
  (Normal tt, s, rest, [(deactivate_request (snd kg), o)]).
Proof.
  intros Hid Ho. unfold deactivate. rewrite Hid.
  destruct o; [| discriminate]. reflexivity.
Qed.

Lemma deactivations_run others : forall outs rest s,
  (forall kg, In kg others -> truthy ((snd kg) ?. "id") = true) ->
  List.length outs = List.length others ->
  forallb resolved outs = true ->
  serve scripted (for_of others deactivate s) (outs ++ rest)%list =
  (Normal tt, s, rest,
   combine (map (fun kg => deactivate_request (snd kg)) others) outs).
Proof.
  induction others as [| kg others IH]; intros [| o outs] rest s Hid Hlen Hok;
    simpl in *; try discriminate.
  - reflexivity.
  - apply andb_prop in Hok. destruct Hok as [Ho Hok].
    rewrite serve_bind, deactivate_run by auto.
    rewrite IH by (auto; lia). reflexivity.
Qed.

Lemma others_identified skill goals :
  goals_identified goals ->
  forall kg, In kg (otherActiveGoals skill goals) -> truthy ((snd kg) ?. "id") = true.
Proof.
  intros Hid [k g] Hin. unfold otherActiveGoals in Hin.
  apply filter_In in Hin. destruct Hin as [Hin Hc].
  apply andb_prop in Hc. destruct Hc as [_ Hact]. simpl in *.
  exact (Hid k g Hin Hact).
Qed.

Section SaveGoal.
Variable new_Date : jsval -> option Z.
Variable now : Z.
Variable profile : jsval.


(** When the insert is rejected after the deactivations went out, the
    error is shown and the goals in local state stay as they were. *)
Lemma saveGoal_insert_rejected c skill outs bad failed rest :
  truthy (athlete c) = true ->
  editGoalText c <> "" ->
  truthy ((lookup (goals c) skill) ?. "id") = false ->
  truthy (isPro new_Date now profile) = false ->
  goals_identified (goals c) ->
  List.length outs = List.length (otherActiveGoals skill (goals c)) ->
  forallb resolved outs = true ->
  failure bad failed ->
  serve scripted
        (dispatch (fun c => saveGoal new_Date now profile c skill) c)
        (outs ++ bad :: rest)%list =
  (Normal tt,
   with_saving false
     (with_error (prop failed "message")
                 (with_error JNull (with_saving true c))),
   rest,
   (combine (map (fun kg => deactivate_request (snd kg))
                 (otherActiveGoals skill (goals c))) outs
    ++ [(insert_goal_request c skill, bad)])%list).
Proof.
  intros Ha Htext Hnew Hfree Hid Hlen Hok Hbad.
  unfold dispatch, saveGoal.
  rewrite Ha, Hfree, Hnew, (nonempty_truthy _ Htext).
  rewrite (member_defined (athlete c)) by (apply truthy_not_nullish; exact Ha).
  cbn [negb]. mrun.
  rewrite !serve_pbind.
  rewrite (deactivations_run _ outs _ _ (others_identified skill _ Hid) Hlen Hok).
  assert (He : nullish failed = false).
  { destruct Hbad as [data e He | e He]; [apply truthy_not_nullish |]; assumption. }
  destruct Hbad as [data e Ht | e Hn]; mrun; rewrite ?Ht; mrun;
    rewrite (member_defined _ "message" He); mrun;
    rewrite !app_nil_r; reflexivity.
Qed.

(** Under entitlement nothing is deactivated: the insert is the only
    request and the other entries of the goals object are kept. *)
Lemma saveGoal_creates_on_pro_tier c skill newGoal e1 rest :
  truthy (athlete c) = true ->
  editGoalText c <> "" ->
  truthy ((lookup (goals c) skill) ?. "id") = false ->
  truthy (isPro new_Date now profile) = true ->
  nullish newGoal = false -> truthy e1 = false ->
  serve scripted
        (dispatch (fun c => saveGoal new_Date now profile c skill) c)
        (Returned newGoal e1 :: rest) =
  (Normal tt,
   with_saving false
     (with_editGoalText ""
        (with_showGoalEdit JNull
           (with_goals (obj_set skill (new_goal newGoal) (goals c))
                       (with_error JNull (with_saving true c))))),
   rest,
   [(insert_goal_request c skill, Returned newGoal e1)]).
Proof.
  intros Ha Htext Hnew Hpro Hn He1.
  unfold dispatch, saveGoal.
  rewrite Ha, Hpro, Hnew, (nonempty_truthy _ Htext).
  rewrite (member_defined (athlete c)) by (apply truthy_not_nullish; exact Ha).
  cbn [negb]. mrun. rewrite He1. mrun.
  rewrite (member_defined newGoal) by exact Hn. mrun. reflexivity.
Qed.

Lemma saveGoal_clears_without_request {C} (h : handler C) b c skill :
  truthy (athlete c) = true ->
  editGoalText c = "" ->
  truthy ((lookup (goals c) skill) ?. "id") = false ->
  serve h (dispatch (fun c => saveGoal new_Date now profile c skill) c) b =
  (Normal tt,
   with_saving false
     (with_editGoalText ""
        (with_showGoalEdit JNull
           (with_goals (obj_set skill JNull (goals c))
                       (with_error JNull (with_saving true c))))),
   b, []).
Proof.
  intros Ha Htext Hnew.
  unfold dispatch, saveGoal. rewrite Ha, Htext, Hnew. reflexivity.
Qed.

Lemma saveGoal_without_athlete {C} (h : handler C) b c skill :
  truthy (athlete c) = false ->
  serve h (dispatch (fun c => saveGoal new_Date now profile c skill) c) b =
  (Normal tt, c, b, []).
Proof.
  intros Ha. unfold dispatch, saveGoal. rewrite Ha. reflexivity.
Qed.
End SaveGoal.

(** *** What a handler can issue and what it keeps *)

Lemma safe_weaken {A} (P P' : request -> Prop) (Q Q' : A -> Prop) p :
  (forall r, P r -> P' r) -> (forall a, Q a -> Q' a) ->
  safe P Q p -> safe P' Q' p.
Proof.
  intros HP HQ H. induction H as [a Ha | r k Hr Hk IH].
  - apply safe_ret. auto.
  - apply safe_call; auto.
Qed.

Lemma safe_pbind {A B} (P : request -> Prop) (Q' : A -> Prop) (Q : B -> Prop)
      (p : Prog A) (f : A -> Prog B) :
  safe P Q' p -> (forall a, Q' a -> safe P Q (f a)) -> safe P Q (pbind p f).
Proof.
  intros H Hf. induction H as [a Ha | r k Hr Hk IH]; simpl.
  - auto.
  - apply safe_call; auto.
Qed.

Lemma safe_serve {A C} (P : request -> Prop) (Q : A -> Prop) (h : handler C) p :
  safe P Q p ->
  forall b, Q (result_of (serve h p b)) /\ Forall P (requests_of (serve h p b)).
Proof.
  intros H. induction H as [a Ha | r k Hr Hk IH]; intros b; simpl.
  - split; [exact Ha | constructor].
  - destruct (h r b) as [o b1]. specialize (IH o b1).
    destruct (serve h (k o) b1) as [[a b2] log].
    unfold result_of, requests_of in *. simpl in *.
    destruct IH as [HQ HP]. split; [exact HQ | constructor; assumption].
Qed.

Section Preserves.
Variable P : request -> Prop.
Variable I : Store -> Prop.

Lemma preserves_ret {A} (a : A) : preserves P I (ret a).
Proof. intros s Hs. apply safe_ret. exact Hs. Qed.

Lemma preserves_throw {A} err : preserves P I (@throw A err).
Proof. intros s Hs. apply safe_ret. exact Hs. Qed.

Lemma preserves_lift {A} (c : completion A) : preserves P I (lift c).
Proof. intros s Hs. apply safe_ret. exact Hs. Qed.

Lemma preserves_gets {A} (f : Store -> A) : preserves P I (gets f).
Proof. intros s Hs. apply safe_ret. exact Hs. Qed.

Lemma preserves_modify f :
  (forall s, I s -> I (f s)) -> preserves P I (modify f).
Proof. intros Hf s Hs. apply safe_ret. simpl. auto. Qed.

Lemma preserves_await r : P r -> preserves P I (await r).
Proof.
  intros Hr s Hs. apply safe_call; [exact Hr |].
  intros [data err | err]; apply safe_ret; exact Hs.
Qed.

Lemma preserves_bind {A B} (m : M A) (f : A -> M B) :
  preserves P I m -> (forall a, preserves P I (f a)) ->
  preserves P I (bind m f).
Proof.
  intros Hm Hf s Hs. unfold bind.
  apply safe_pbind with (Q' := fun x => I (snd x)); [apply Hm; exact Hs |].
  intros [[a | err] s1] H1; simpl in H1.
  - apply Hf. exact H1.
  - apply safe_ret. exact H1.
Qed.

Lemma preserves_try_catch {A} (body : M A) handle :
  preserves P I body -> (forall err, preserves P I (handle err)) ->
  preserves P I (try_catch body handle).
Proof.
  intros Hm Hf s Hs. unfold try_catch.
  apply safe_pbind with (Q' := fun x => I (snd x)); [apply Hm; exact Hs |].
  intros [[a | err] s1] H1; simpl in H1.
  - apply safe_ret. exact H1.
  - apply Hf. exact H1.
Qed.

Lemma preserves_finally {A} (body : M A) fin :
  preserves P I body -> preserves P I fin ->
  preserves P I (finally body fin).
Proof.
  intros Hm Hf s Hs. unfold finally.
  apply safe_pbind with (Q' := fun x => I (snd x)); [apply Hm; exact Hs |].
  intros [c s1] H1; simpl in H1.
  apply safe_pbind with (Q' := fun x => I (snd x)); [apply Hf; exact H1 |].
  intros [[a | err] s2] H2; simpl in H2; apply safe_ret; exact H2.
Qed.

Lemma preserves_when c m : preserves P I m -> preserves P I (when c m).
Proof. intros Hm. destruct c; simpl; [exact Hm | apply preserves_ret]. Qed.

Lemma preserves_for_of {A} (xs : list A) body :
  (forall x, preserves P I (body x)) -> preserves P I (for_of xs body).
Proof.
  intros Hb. induction xs as [| x xs IH]; simpl.
  - apply preserves_ret.
  - apply preserves_bind; [apply Hb | intros _; exact IH].
Qed.

Lemma preserves_serve {A C} (h : handler C) (m : M A) s b :
  preserves P I m -> I s ->
  I (snd (result_of (serve h (m s) b)))
  /\ Forall P (requests_of (serve h (m s) b)).
Proof.
  intros Hm Hs.
  exact (safe_serve P (fun x => I (snd x)) h (m s) (Hm s Hs) b).
Qed.
End Preserves.

(** Takes a handler apart along its sequencing; leaves the requests and
    the state updates to the caller. *)
Ltac preserve_step :=
  match goal with
  | |- preserves _ _ (bind _ _) => apply preserves_bind; [| intros ?]
  | |- preserves _ _ (try_catch _ _) => apply preserves_try_catch; [| intros ?]
  | |- preserves _ _ (finally _ _) => apply preserves_finally
  | |- preserves _ _ (when _ _) => apply preserves_when
  | |- preserves _ _ (for_of _ _) => apply preserves_for_of; intros ?
  | |- preserves _ _ (ret _) => apply preserves_ret
  | |- preserves _ _ (throw _) => apply preserves_throw
  | |- preserves _ _ (lift _) => apply preserves_lift
  | |- preserves _ _ (gets _) => apply preserves_gets
  | |- preserves _ _ (catch_setError _) => unfold catch_setError
  | |- preserves _ _ (match ?x with (_, _) => _ end) => destruct x
  | |- preserves _ _ (if ?c then _ else _) => destruct c
  | |- preserves _ _ (match ?x with Some _ => _ | None => _ end) => destruct x
  end.

Section Frames.
Variable new_Date : jsval -> option Z.
Variable now : Z.
Variable profile : jsval.
Variable today : string.

Hypothesis free : truthy (isPro new_Date now profile) = false.

Variable d0 : jsval.

Lemma free_loadAthleteData id :
  preserves (fun r => free_tier_request r = true)
            (fun s => drillFrequency s = d0)
            (loadAthleteData new_Date now profile id).
Proof.
  unfold loadAthleteData. rewrite free.
  repeat preserve_step;
    try (apply preserves_await; reflexivity);
    try (apply preserves_modify; intros s Hs; exact Hs).
Qed.

Lemma free_loadData :
  preserves (fun r => free_tier_request r = true)
            (fun s => drillFrequency s = d0)
            (loadData new_Date now profile).
Proof.
  unfold loadData. rewrite free.
  repeat preserve_step;
    try (apply preserves_await; reflexivity);
    try (apply preserves_modify; intros s Hs; exact Hs);
    try apply free_loadAthleteData.
Qed.

Lemma free_handleQuickLog c :
  preserves (fun r => free_tier_request r = true)
            (fun s => drillFrequency s = d0)
            (handleQuickLog new_Date now profile today c).
Proof.
  unfold handleQuickLog. rewrite free. cbn [andb when].
  repeat preserve_step;
    try (apply preserves_await; reflexivity);
    try (apply preserves_modify; intros s Hs; exact Hs).
Qed.

Lemma free_handleSelectAthlete a :
  preserves (fun r => free_tier_request r = true)
            (fun s => drillFrequency s = d0)
            (handleSelectAthlete new_Date now profile a).
Proof.
  unfold handleSelectAthlete.
  repeat preserve_step;
    try (apply preserves_modify; intros s Hs; exact Hs);
    try apply free_loadAthleteData.
Qed.

(** The single load function of the earlier copy is gated the same way. *)
Lemma free_earlier_loadData :
  preserves (fun r => free_tier_request r = true)
            (fun s => drillFrequency s = d0)
            (Earlier.loadData new_Date now profile).
Proof.
  unfold Earlier.loadData. rewrite free.
  repeat preserve_step;
    try (apply preserves_await; reflexivity);
    try (apply preserves_modify; intros s Hs; exact Hs).
Qed.
End Frames.

(** *** [loadData]: choosing and remembering the current athlete *)

Lemma athlete_row_id a :
  athlete_row a = true ->
  exists id, athlete_id a = Some id /\ id <> "" /\ member a "id" = Normal (JStr id).
Proof.
  unfold athlete_row, athlete_id, member, prop.
  destruct a as [| | | | | |o]; try discriminate.
  destruct (obj_get o "id") as [[| | | | id | |] |]; try discriminate.
  intros H. exists id. repeat split.
  apply negb_true_iff in H. apply String.eqb_neq. exact H.
Qed.

Lemma find_in_roster saved roster :
  forallb athlete_row roster = true ->
  find_throwing
    (fun a => match member a "id" with
              | Throw err => Throw err
              | Normal id => Normal (is_str id saved)
              end) roster
  = Normal (match find (fun a => match athlete_id a with
                                 | Some id' => (id' =? saved)%string
                                 | None => false
                                 end) roster with
            | Some a => a
            | None => JUndefined
            end).
Proof.
  induction roster as [| a roster IH]; simpl; intros H.
  - reflexivity.
  - apply andb_prop in H. destruct H as [Ha H].
    destruct (athlete_row_id a Ha) as [id [Hid [_ Hm]]].
    rewrite Hm, Hid. simpl.
    destruct (id =? saved)%string; [reflexivity | apply IH; exact H].
Qed.

Lemma find_gives_row (f : jsval -> bool) roster a :
  forallb athlete_row roster = true -> find f roster = Some a ->
  athlete_row a = true.
Proof.
  intros Hall Hf. apply find_some in Hf. destruct Hf as [Hin _].
  rewrite forallb_forall in Hall. auto.
Qed.

Lemma chosen_is_row remembered first rest :
  forallb athlete_row (first :: rest) = true ->
  athlete_row (remembered_or_first remembered first rest) = true.
Proof.
  intros Hall. unfold remembered_or_first.
  assert (Hfirst : athlete_row first = true)
    by (simpl in Hall; apply andb_prop in Hall; tauto).
  destruct remembered as [id |]; [| exact Hfirst].
  destruct (find _ (first :: rest)) as [a |] eqn:E; [| exact Hfirst].
  eapply find_gives_row; eassumption.
Qed.

Lemma getItem_setItem k v st : getItem (setItem k v st) k = Some v.
Proof.
  induction st as [| [k' v'] st IH]; simpl.
  - rewrite String.eqb_refl. reflexivity.
  - destruct (k' =? k)%string eqn:E; simpl.
    + rewrite String.eqb_refl. reflexivity.
    + rewrite E. exact IH.
Qed.

(** Selecting by the identifier of the athlete chosen before chooses the
    same athlete. *)
Lemma remembered_again remembered first rest id :
  forallb athlete_row (first :: rest) = true ->
  athlete_id (remembered_or_first remembered first rest) = Some id ->
  remembered_or_first (Some id) first rest
  = remembered_or_first remembered first rest.
Proof.
  intros Hall Hid.
  assert (Hfirst : forall id0, athlete_id first = Some id0 ->
            remembered_or_first (Some id0) first rest = first).
  { intros id0 H0. unfold remembered_or_first. simpl. rewrite H0.
    rewrite String.eqb_refl. reflexivity. }
  unfold remembered_or_first at 2. unfold remembered_or_first in Hid.
  destruct remembered as [saved |]; [| apply Hfirst; exact Hid].
  destruct (find _ (first :: rest)) as [a |] eqn:E; [| apply Hfirst; exact Hid].
  assert (Hsaved : id = saved).
  { pose proof (find_some _ _ E) as [_ Hp]. rewrite Hid in Hp.
    apply String.eqb_eq in Hp. exact Hp. }
  subst id. unfold remembered_or_first. rewrite E. reflexivity.
Qed.

Lemma nonempty_length x l : is_num (js_length (JArr (x :: l))) 0 = false.
Proof. reflexivity. Qed.

Section LoadData.
Variable new_Date : jsval -> option Z.
Variable now : Z.
Variable profile : jsval.

Lemma loadAthleteData_keeps {C} (h : handler C) b id s :
  let s' := snd (result_of (serve h (loadAthleteData new_Date now profile id s) b)) in
  athlete s' = athlete s /\ localStorage s' = localStorage s.
Proof.
  pose (I := fun s' => athlete s' = athlete s /\ localStorage s' = localStorage s).
  assert (H : preserves (fun _ => True) I (loadAthleteData new_Date now profile id)).
  { unfold loadAthleteData.
    repeat preserve_step;
      try (apply preserves_await; exact Logic.I);
      try (apply preserves_modify; intros s0 Hs; exact Hs). }
  apply (preserves_serve _ I h _ s b H). split; reflexivity.
Qed.

Lemma loadData_selects {C} (h : handler C) b s first rest err :
  fst (h (select_athletes_request
            (if truthy (isPro new_Date now profile) then 10 else 1)) b)
    = Returned (JArr (first :: rest)) err ->
  truthy err = false ->
  forallb athlete_row (first :: rest) = true ->
  let chosen :=
    remembered_or_first (getItem (localStorage s) "selectedAthleteId") first rest in
  let s' := snd (result_of (serve h (loadData new_Date now profile s) b)) in
  athlete s' = chosen
  /\ exists id, athlete_id chosen = Some id
                /\ localStorage s' = setItem "selectedAthleteId" id (localStorage s).
Proof.
  intros Hh Herr Hall chosen.
  assert (Hrow : athlete_row chosen = true) by (apply chosen_is_row; exact Hall).
  destruct (athlete_row_id chosen Hrow) as [id [Hid [Hne Hm]]].
  assert (Hsel :
    js_or (match getItem (localStorage s) "selectedAthleteId" with
           | Some saved =>
               if truthy (JStr saved)
               then match find (fun a => match athlete_id a with
                                         | Some id' => (id' =? saved)%string
                                         | None => false
                                         end) (first :: rest) with
                    | Some a => a
                    | None => JUndefined
                    end
               else JNull
           | None => JNull
           end) first = chosen).
  { subst chosen. unfold remembered_or_first.
    destruct (getItem (localStorage s) "selectedAthleteId") as [saved |]; [| reflexivity].
    destruct (truthy (JStr saved)) eqn:Et.
    - destruct (find _ (first :: rest)) as [a |] eqn:E; [| reflexivity].
      unfold js_or.
      pose proof (find_gives_row _ _ _ Hall E) as Ha.
      destruct a; try discriminate. reflexivity.
    - simpl in Et. apply negb_false_iff in Et. apply String.eqb_eq in Et. subst saved.
      destruct (find _ (first :: rest)) as [a |] eqn:E; [| reflexivity].
      exfalso. pose proof (find_gives_row _ _ _ Hall E) as Ha.
      destruct (athlete_row_id a Ha) as [ida [Hida [Hnea _]]].
      apply find_some in E. destruct E as [_ E]. rewrite Hida in E.
      apply String.eqb_eq in E. contradiction. }
  unfold select_athletes_request in Hh.
  unfold loadData. mrun.
  destruct (h _ b) as [o b1] eqn:Eh. simpl in Hh. subst o.
  mrun. rewrite Herr. mrun.
  cbn [truthy negb orb]. rewrite nonempty_length. mrun.
  cbn [localStorage with_athletes with_error with_loading].
  cbn [truthy] in Hsel.
  destruct (getItem (localStorage s) "selectedAthleteId") as [saved |];
    [destruct (saved =? "")%string |];
    cbn [negb] in Hsel |- *;
    mrun; cbn [array_of]; mrun; rewrite ?find_in_roster by exact Hall; mrun;
    cbn [index0]; rewrite Hsel, Hm; mrun; cbn [ToString];
    rewrite !serve_pbind;
    match goal with
    | |- context [serve h (loadAthleteData ?a ?b0 ?c ?d ?e) ?f] =>
        pose proof (loadAthleteData_keeps h f d e) as Hk;
        cbv zeta in Hk; unfold result_of in Hk |- *;
        destruct (serve h (loadAthleteData a b0 c d e) f) as [[[c3 s3] b3] l3]
    end;
    simpl in Hk; destruct Hk as [Hk1 Hk2];
    (destruct c3 as [[] | e3];
     [| unfold member; destruct (nullish e3)]);
    simpl; (split; [exact Hk1 | exists id; split; [exact Hid | exact Hk2]]).
Qed.
End LoadData.

Section SelectAthlete.
Variable new_Date : jsval -> option Z.
Variable now : Z.
Variable profile : jsval.

Lemma athlete_id_member a id :
  athlete_id a = Some id -> member a "id" = Normal (JStr id).
Proof.
  unfold athlete_id, member, prop.
  destruct a as [| | | | | |o]; try discriminate.
  destruct (obj_get o "id") as [[| | | | id' | |] |]; try discriminate.
  intros H. inversion H. reflexivity.
Qed.

(** Switching athletes remembers the new one. *)
Lemma handleSelectAthlete_remembers {C} (h : handler C) b s a id :
  athlete_id a = Some id ->
  let s' :=
    snd (result_of (serve h (handleSelectAthlete new_Date now profile a s) b)) in
  athlete s' = a
  /\ getItem (localStorage s') "selectedAthleteId" = Some id.
Proof.
  intros Hid. unfold handleSelectAthlete.
  rewrite (athlete_id_member a id Hid). mrun. cbn [ToString].
  match goal with
  | |- context [serve h (loadAthleteData ?x ?y ?z ?d ?e) ?f] =>
      pose proof (loadAthleteData_keeps x y z h f d e) as Hk
  end.
  cbv zeta in Hk |- *. destruct Hk as [Hk1 Hk2].
  rewrite Hk1, Hk2. simpl. split; [reflexivity | apply getItem_setItem].
Qed.

(** After a switch to an athlete the roster finds by its identifier, a
    reload that fetches that roster selects the same athlete. *)
Lemma switch_survives_reload {C D} (h : handler C) (h' : handler D) b b' s
      reloaded a id first rest err :
  athlete_id a = Some id ->
  find (fun x => match athlete_id x with
                 | Some id' => (id' =? id)%string
                 | None => false
                 end) (first :: rest) = Some a ->
  forallb athlete_row (first :: rest) = true ->
  localStorage reloaded
  = localStorage
      (snd (result_of (serve h (handleSelectAthlete new_Date now profile a s) b))) ->
  fst (h' (select_athletes_request
             (if truthy (isPro new_Date now profile) then 10 else 1)) b')
    = Returned (JArr (first :: rest)) err ->
  truthy err = false ->
  athlete (snd (result_of (serve h' (loadData new_Date now profile reloaded) b')))
  = a.
Proof.
  intros Hid Hfind Hall Hls Hh Herr.
  destruct (handleSelectAthlete_remembers h b s a id Hid) as [_ Hst].
  destruct (loadData_selects new_Date now profile h' b' reloaded first rest err
              Hh Herr Hall) as [Hath _].
  rewrite Hath, Hls, Hst. unfold remembered_or_first. rewrite Hfind. reflexivity.
Qed.
End SelectAthlete.

(** The comparison [a.id === savedAthleteId] is strict and the remembered
    value is text: rows whose [id] is a number are never found. *)
Lemma numeric_ids_never_match saved roster :
  (forall a, In a roster -> exists n, member a "id" = Normal (JNum n)) ->
  find_throwing
    (fun a => match member a "id" with
              | Throw err => Throw err
              | Normal id => Normal (is_str id saved)
              end) roster
  = Normal JUndefined.
Proof.
  induction roster as [| a roster IH]; simpl; intros H.
  - reflexivity.
  - destruct (H a (or_introl eq_refl)) as [n Hn]. rewrite Hn. simpl.
    apply IH. intros a' Ha'. apply H. right. exact Ha'.
Qed.

(** *** The goals stay an object *)

Lemma cleared_keys skill o : map fst (map (cleared skill) o) = map fst o.
Proof.
  induction o as [| kg o IH]; simpl; [reflexivity |].
  rewrite cleared_key, IH. reflexivity.
Qed.

Lemma saved_goals_object skill new o :
  goals_object o -> goals_object (obj_set skill new (clear_others skill o)).
Proof.
  intros H. rewrite clear_others_map by exact H.
  apply obj_set_keeps_object. unfold goals_object.
  rewrite cleared_keys. exact H.
Qed.

(* ------------------------------------------------------------------ *)
(** ** Tier policy *)

(** On any value whatever, [isPro] is truthy exactly when [is_pro] is
    truthy and the expiry is falsy or a date after now. *)
Lemma isPro_by_truthiness new_Date now profile :
  truthy (isPro new_Date now profile)
  = truthy (profile ?. "is_pro")
    && (negb (truthy (profile ?. "pro_expires_at"))
        || date_after_now now (new_Date (prop profile "pro_expires_at"))).
Proof.
  unfold isPro, js_and, js_or, js_not.
  destruct (truthy (profile ?. "is_pro")) eqn:E; [| exact E].
  simpl. destruct (truthy (profile ?. "pro_expires_at")); reflexivity.
Qed.

(** C1. The entitlement computed by the component is the specification's
    pure function: on every profile shaped as the data model says (a
    boolean or missing [is_pro], a missing or textual [pro_expires_at]),
    [isPro] is [true] exactly when [is_pro] is true and the expiry is
    absent or strictly later than now, and is falsy in every other case. *)
Theorem isPro_refines_isEntitled new_Date now profile :
  profile_typed profile ->
  truthy (isPro new_Date now profile) = isEntitled new_Date now profile
  /\ (isPro new_Date now profile = JBool true
      <-> isEntitled new_Date now profile = true)
  /\ (truthy (isPro new_Date now profile) = true
      <-> profile ?. "is_pro" = JBool true
          /\ (nullish (profile ?. "pro_expires_at") = true
              \/ exists t, new_Date (profile ?. "pro_expires_at") = Some t
                           /\ now < t)).
Proof.
  intros [Hflag Hexp].
  assert (Hoff : forall v, profile ?. "is_pro" = v -> v <> JBool true ->
                 truthy v = false ->
                 truthy (js_and v (js_or (js_not (profile ?. "pro_expires_at"))
                   (JBool (date_after_now now
                             (new_Date (prop profile "pro_expires_at")))))) = false
                 /\ js_and v (js_or (js_not (profile ?. "pro_expires_at"))
                   (JBool (date_after_now now
                             (new_Date (prop profile "pro_expires_at"))))) <> JBool true).
  { intros v _ Hv Ht. unfold js_and. rewrite Ht. split; [exact Ht | exact Hv]. }
  unfold isPro, isEntitled.
  destruct Hflag as [Hf | [Hf | [[|] Hf]]].
  - (* is_pro undefined *)
    destruct (Hoff JUndefined Hf) as [H1 H2]; [discriminate | reflexivity |].
    rewrite Hf in *. rewrite H1. simpl.
    split; [reflexivity |].
    split; [split; intros H; [contradiction | discriminate H] |].
    split; [intros H; discriminate H | intros [H _]; discriminate H].
  - (* is_pro null *)
    destruct (Hoff JNull Hf) as [H1 H2]; [discriminate | reflexivity |].
    rewrite Hf in *. rewrite H1. simpl.
    split; [reflexivity |].
    split; [split; intros H; [contradiction | discriminate H] |].
    split; [intros H; discriminate H | intros [H _]; discriminate H].
  - (* is_pro true *)
    assert (Hobj : nullish profile = false).
    { unfold opt_prop in Hf. destruct (nullish profile); [discriminate | reflexivity]. }
    assert (Hprop : prop profile "pro_expires_at" = profile ?. "pro_expires_at").
    { unfold opt_prop. rewrite Hobj. reflexivity. }
    rewrite Hprop, Hf. unfold js_and, js_or, js_not. simpl.
    destruct Hexp as [He | [He | [s [He Hs]]]]; rewrite He; simpl.
    + split; [reflexivity |]. split; [tauto |]. split; auto.
    + split; [reflexivity |]. split; [tauto |]. split; auto.
    + apply String.eqb_neq in Hs. rewrite Hs. simpl.
      destruct (new_Date (JStr s)) as [t |]; simpl.
      * destruct (now <? t) eqn:E.
        -- apply Z.ltb_lt in E. split; [reflexivity |]. split; [tauto |].
           split; [| reflexivity]. intros _. split; [reflexivity |].
           right. exists t. split; [reflexivity | exact E].
        -- apply Z.ltb_ge in E. split; [reflexivity |].
           split; [split; intros H; discriminate H |].
           split; [intros H; discriminate H |].
           intros [_ [H | [t' [Ht' Hlt]]]]; [discriminate H |].
           inversion Ht'. subst t'. lia.
      * split; [reflexivity |].
        split; [split; intros H; discriminate H |].
        split; [intros H; discriminate H |].
        intros [_ [H | [t' [Ht' _]]]]; discriminate.
  - (* is_pro false *)
    destruct (Hoff (JBool false) Hf) as [H1 H2]; [discriminate | reflexivity |].
    rewrite Hf in *. rewrite H1. simpl.
    split; [reflexivity |].
    split; [split; intros H; [contradiction | discriminate H] |].
    split; [intros H; discriminate H | intros [H _]; discriminate H].
Qed.

Lemma isPro_refines_isEntitled_witness :
  profile_typed Sample.pro_profile
  /\ truthy (isPro Sample.new_Date Sample.now Sample.pro_profile)
     = isEntitled Sample.new_Date Sample.now Sample.pro_profile
  /\ isPro Sample.new_Date Sample.now Sample.pro_profile = JBool true
  /\ isPro Sample.new_Date Sample.now Sample.lapsed_profile = JBool false.
Proof.
  assert (Ht : profile_typed Sample.pro_profile).
  { split.
    - right. right. exists true. reflexivity.
    - right. right. exists "2030-01-01T00:00:00Z". split; [reflexivity | discriminate]. }
  split; [exact Ht |].
  split; [exact (proj1 (isPro_refines_isEntitled _ _ _ Ht)) |].
  split; reflexivity.
Defined.

(* ------------------------------------------------------------------ *)
(** ** Profile fetch *)

(** [fetchProfile] completes normally on every outcome of the request. *)
Lemma fetchProfile_never_throws userId r s :
  exists s', AuthProvider.fetchProfile userId r s = Normal s'
             /\ AuthProvider.loading s' = false
             /\ AuthProvider.user s' = AuthProvider.user s.
Proof.
  unfold AuthProvider.fetchProfile, AuthProvider.fetchProfile_try.
  eexists. split; [reflexivity |].
  destruct r as [err | status [[| | | | | [| first others] |] |]];
    split; reflexivity.
Qed.

(** The status of the response plays no part. *)
Lemma fetchProfile_ignores_status userId status status' body s :
  AuthProvider.fetchProfile userId (AuthProvider.Response status body) s
  = AuthProvider.fetchProfile userId (AuthProvider.Response status' body) s.
Proof. reflexivity. Qed.

(** A row that comes in an array is taken as the profile as it is. *)
Lemma fetchProfile_takes_first_row userId status first others s :
  AuthProvider.fetchProfile userId
    (AuthProvider.Response status (Some (JArr (first :: others)))) s
  = Normal (AuthProvider.setLoading false (AuthProvider.setProfile first s)).
Proof. reflexivity. Qed.

(** C3, as stated, fails: a non-2xx response whose body is a non-empty
    array counts as a failed fetch, yet its first element becomes
    the profile, here one with [is_pro] true. *)
Lemma fetchProfile_non_2xx_array_body :
  ~ (forall userId r s,
       AuthProvider.failed_fetch r = true ->
       exists s', AuthProvider.fetchProfile userId r s = Normal s'
                  /\ AuthProvider.profile s' = AuthProvider.defaultProfile userId).
Proof.
  intros H.
  destruct (H "u1" (AuthProvider.Response 500 (Some (JArr [Sample.pro_profile])))
              Sample.auth eq_refl) as [s' [Hrun Hp]].
  inversion Hrun. subst s'. discriminate Hp.
Qed.

(** C3, amended. Whenever no parsed, non-empty array arrives (the request
    is rejected by a transport fault or by the 5 second abort, the body is
    not JSON, or it is an error object, another non-array value or an
    empty array), [fetchProfile] propagates no error and sets the profile
    to [{ id: userId, is_pro: false }], under which the account is on the
    free tier.  The HTTP status is not consulted. *)
Theorem fetchProfile_fail_safe userId r s :
  AuthProvider.carries_row r = false ->
  AuthProvider.fetchProfile userId r s
  = Normal (AuthProvider.setLoading false
              (AuthProvider.setProfile (AuthProvider.defaultProfile userId) s))
  /\ forall new_Date now,
       truthy (isPro new_Date now (AuthProvider.defaultProfile userId)) = false.
Proof.
  intros H. split; [| reflexivity].
  unfold AuthProvider.fetchProfile, AuthProvider.fetchProfile_try.
  destruct r as [err | status [body |]]; try reflexivity.
  destruct body as [| | | | | [| first others] |]; try reflexivity.
  discriminate H.
Qed.

Lemma fetchProfile_fail_safe_witness :
  AuthProvider.carries_row
    (AuthProvider.Response 500 (Some Sample.rejected)) = false
  /\ AuthProvider.profile
       (AuthProvider.setLoading false
          (AuthProvider.setProfile (AuthProvider.defaultProfile "u1") Sample.auth))
     = Sample.free_profile
  /\ AuthProvider.fetchProfile "u1"
       (AuthProvider.Response 500 (Some Sample.rejected)) Sample.auth
     = Normal (AuthProvider.setLoading false
                 (AuthProvider.setProfile (AuthProvider.defaultProfile "u1")
                                          Sample.auth)).
Proof.
  split; [reflexivity |]. split; [reflexivity |].
  exact (proj1 (fetchProfile_fail_safe "u1"
                  (AuthProvider.Response 500 (Some Sample.rejected))
                  Sample.auth eq_refl)).
Defined.

(* ------------------------------------------------------------------ *)
(** ** Reading logs *)

Lemma requests_of_combine {A} (reqs : list request) (outs : list A) :
  List.length outs = List.length reqs -> map fst (combine reqs outs) = reqs.
Proof.
  revert outs. induction reqs as [| r reqs IH]; intros [| o outs] H;
    simpl in *; try discriminate; [reflexivity |].
  rewrite IH by lia. reflexivity.
Qed.

Lemma combine_snoc {A B} (l : list A) (l' : list B) x y :
  List.length l' = List.length l ->
  combine (l ++ [x]) (l' ++ [y]) = (combine l l' ++ [(x, y)])%list.
Proof.
  revert l'. induction l as [| a l IH]; intros [| b l'] H;
    simpl in *; try discriminate; [reflexivity |].
  rewrite IH by lia. reflexivity.
Qed.

Lemma accepted_all reqs outs :
  List.length outs = List.length reqs -> forallb succeeded outs = true ->
  accepted (combine reqs outs) = reqs.
Proof.
  unfold accepted.
  revert outs. induction reqs as [| r reqs IH]; intros [| o outs] H Hok;
    simpl in *; try discriminate; [reflexivity |].
  apply andb_prop in Hok. destruct Hok as [Ho Hok].
  rewrite Ho. simpl. f_equal. apply IH; [lia | exact Hok].
Qed.

Lemma accepted_app l1 l2 : accepted (l1 ++ l2) = (accepted l1 ++ accepted l2)%list.
Proof. unfold accepted. rewrite filter_app, map_app. reflexivity. Qed.

Lemma failure_not_succeeded o err : failure o err -> succeeded o = false.
Proof.
  intros [data e He | e He]; simpl; [rewrite He |]; reflexivity.
Qed.

Lemma Forall_built {A} (P : request -> Prop) (f : A -> request) l :
  (forall x, P (f x)) -> Forall P (map f l).
Proof.
  intros Hf. induction l; simpl; constructor; auto.
Qed.

(* ------------------------------------------------------------------ *)
(** ** Logging a practice *)



(** C4. Under entitlement, drills are inserted one at a time after the
    session; when the k-th insert fails, its error message becomes the
    visible error, the requests issued are exactly the session insert and
    the first k drill inserts (nothing follows, in particular no delete),
    and what the backend accepted is the session and the first k-1
    drills. *)
Theorem quick_log_partial_failure new_Date now profile today c newSession err
        before d after outs bad failed rest :
  logFocus c <> [] ->
  truthy (athlete c) = true ->
  truthy (isPro new_Date now profile) = true ->
  logDrills c = (before ++ d :: after)%list ->
  nullish newSession = false ->
  truthy err = false ->
  List.length outs = List.length before ->
  forallb succeeded outs = true ->
  failure bad failed ->
  let run :=
    serve scripted (dispatch (handleQuickLog new_Date now profile today) c)
          (Returned newSession err :: outs ++ bad :: rest)%list in
  let s' := snd (result_of run) in
  fst (result_of run) = Normal tt
  /\ error s' = prop failed "message"
  /\ requests_of run
     = (insert_session_request c
        :: map (insert_drill_request newSession) (before ++ [d]))%list
  /\ Forall (fun r => is_delete r = false) (requests_of run)
  /\ accepted (log_of run)
     = insert_session_request c :: map (insert_drill_request newSession) before
  /\ snd (fst run) = rest.
Proof.
  intros Hf Ha Hpro Hds Hn He Hlen Hok Hbad run s'.
  pose proof (handleQuickLog_stops_at_failure new_Date now profile today c newSession err
                before d after outs bad failed rest
                Hf Ha Hpro Hds Hn He Hlen Hok Hbad) as Hrun.
  fold run in Hrun.
  assert (Hreq : requests_of run
     = (insert_session_request c
        :: map (insert_drill_request newSession) (before ++ [d]))%list).
  { rewrite Hrun. unfold requests_of. simpl.
    rewrite requests_of_combine; [reflexivity |].
    rewrite length_map, !length_app. simpl. lia. }
  subst s'. rewrite Hreq. rewrite Hrun. unfold result_of, log_of. simpl fst. simpl snd.
  repeat split.
  - constructor; [reflexivity |].
    apply Forall_built. reflexivity.
  - rewrite map_app. simpl map.
    rewrite combine_snoc by (rewrite length_map; exact Hlen).
    change ((insert_session_request c, Returned newSession err)
            :: (combine (map (insert_drill_request newSession) before) outs
                ++ [(insert_drill_request newSession d, bad)])%list)
      with ([(insert_session_request c, Returned newSession err)]
            ++ (combine (map (insert_drill_request newSession) before) outs
                ++ [(insert_drill_request newSession d, bad)]))%list.
    rewrite !accepted_app.
    rewrite accepted_all by (rewrite ?length_map; assumption).
    unfold accepted. simpl. rewrite He, (failure_not_succeeded _ _ Hbad). simpl.
    rewrite app_nil_r. reflexivity.
Qed.

Lemma quick_log_partial_failure_witness :
  let run :=
    serve scripted
      (dispatch (handleQuickLog Sample.new_Date Sample.now Sample.pro_profile
                                Sample.today) Sample.store)
      [Returned Sample.session_row JNull; Returned JNull JNull;
       Returned JNull Sample.rejected] in
  logDrills Sample.store = ["tee-work"; "soft-toss"]
  /\ error (snd (result_of run)) = JStr "violates foreign key constraint"
  /\ accepted (log_of run)
     = [insert_session_request Sample.store;
        insert_drill_request Sample.session_row "tee-work"].
Proof.
  pose proof (quick_log_partial_failure Sample.new_Date Sample.now
                Sample.pro_profile Sample.today Sample.store Sample.session_row
                JNull ["tee-work"] "soft-toss" [] [Returned JNull JNull]
                (Returned JNull Sample.rejected) Sample.rejected []) as H.
  cbv zeta in H. cbn [app] in H.
  destruct H as [_ [He [_ [_ [Hacc _]]]]];
    try reflexivity; try discriminate.
  - apply failure_error. reflexivity.
  - cbv zeta. split; [reflexivity |]. split; [exact He | exact Hacc].
Defined.

(** C10. If a drill insert fails after the session insert succeeded, the
    sessions list and the logging form are left as they were, although the
    backend has accepted the session. *)
Theorem quick_log_failure_keeps_local_state new_Date now profile today c
        newSession err before d after outs bad failed rest :
  logFocus c <> [] ->
  truthy (athlete c) = true ->
  truthy (isPro new_Date now profile) = true ->
  logDrills c = (before ++ d :: after)%list ->
  nullish newSession = false ->
  truthy err = false ->
  List.length outs = List.length before ->
  forallb succeeded outs = true ->
  failure bad failed ->
  let run :=
    serve scripted (dispatch (handleQuickLog new_Date now profile today) c)
          (Returned newSession err :: outs ++ bad :: rest)%list in
  let s' := snd (result_of run) in
  sessions s' = sessions c
  /\ logDate s' = logDate c /\ logDuration s' = logDuration c
  /\ logFocus s' = logFocus c /\ logNote s' = logNote c
  /\ logReflection s' = logReflection c /\ logDrills s' = logDrills c
  /\ showQuickLog s' = showQuickLog c
  /\ In (insert_session_request c, Returned newSession err) (log_of run)
  /\ succeeded (Returned newSession err) = true.
Proof.
  intros Hf Ha Hpro Hds Hn He Hlen Hok Hbad run s'.
  pose proof (handleQuickLog_stops_at_failure new_Date now profile today c newSession err
                before d after outs bad failed rest
                Hf Ha Hpro Hds Hn He Hlen Hok Hbad) as Hrun.
  fold run in Hrun. subst s'. rewrite Hrun. unfold result_of, log_of. simpl.
  rewrite He. repeat split; auto.
Qed.

Lemma quick_log_failure_keeps_local_state_witness :
  let run :=
    serve scripted
      (dispatch (handleQuickLog Sample.new_Date Sample.now Sample.pro_profile
                                Sample.today) Sample.store)
      [Returned Sample.session_row JNull; Returned JNull JNull;
       Returned JNull Sample.rejected] in
  failure (Returned JNull Sample.rejected) Sample.rejected
  /\ sessions (snd (result_of run)) = []
  /\ logDrills (snd (result_of run)) = ["tee-work"; "soft-toss"].
Proof.
  assert (Hbad : failure (Returned JNull Sample.rejected) Sample.rejected)
    by (apply failure_error; reflexivity).
  pose proof (quick_log_failure_keeps_local_state Sample.new_Date Sample.now
                Sample.pro_profile Sample.today Sample.store Sample.session_row
                JNull ["tee-work"] "soft-toss" [] [Returned JNull JNull]
                (Returned JNull Sample.rejected) Sample.rejected []) as H.
  cbv zeta in H. cbn [app] in H.
  destruct H as [Hs [_ [_ [_ [_ [_ [Hd _]]]]]]];
    try reflexivity; try discriminate; try exact Hbad.
  cbv zeta. split; [exact Hbad |]. split; [exact Hs | exact Hd].
Defined.

(* ------------------------------------------------------------------ *)
(** ** Saving a goal *)


Lemma sample_goals_object : goals_object (goals Sample.store).
Proof.
  unfold goals_object. simpl.
  repeat (constructor; [simpl; intros H; repeat destruct H as [H | H];
                        try discriminate H; try contradiction |]).
  constructor.
Qed.





(** C8. Saving empty text for a skill whose entry is null issues no
    request at all, whatever the tier, and leaves the goals as they
    were, the entry still null. *)
Theorem save_empty_goal_is_noop new_Date now profile {C} (h : handler C) b c skill :
  editGoalText c = "" ->
  obj_get (goals c) skill = Some JNull ->
  let run := serve h (dispatch (fun c => saveGoal new_Date now profile c skill) c) b in
  let s' := snd (result_of run) in
  requests_of run = []
  /\ fst (result_of run) = Normal tt
  /\ goals s' = goals c
  /\ lookup (goals s') skill = JNull
  /\ snd (fst run) = b.
Proof.
  intros Htext Hnull run s'.
  assert (Hlook : lookup (goals c) skill = JNull)
    by (unfold lookup; rewrite Hnull; reflexivity).
  destruct (truthy (athlete c)) eqn:Ha.
  - pose proof (saveGoal_clears_without_request new_Date now profile h b c skill Ha Htext)
      as Hrun.
    rewrite Hlook in Hrun. specialize (Hrun eq_refl). fold run in Hrun.
    subst s'. rewrite Hrun. unfold requests_of, result_of. simpl.
    rewrite (obj_set_same_value _ _ _ Hnull).
    repeat split; auto.
  - pose proof (saveGoal_without_athlete new_Date now profile h b c skill Ha)
      as Hrun.
    fold run in Hrun. subst s'. rewrite Hrun. unfold requests_of, result_of. simpl.
    repeat split; auto.
Qed.

Lemma save_empty_goal_is_noop_witness :
  let c := with_editGoalText "" Sample.store in
  let run :=
    serve scripted
      (dispatch (fun c => saveGoal Sample.new_Date Sample.now Sample.free_profile
                                   c "conditioning") c)
      [Returned JNull JNull] in
  obj_get (goals c) "conditioning" = Some JNull
  /\ requests_of run = []
  /\ goals (snd (result_of run)) = goals Sample.store.
Proof.
  pose proof (save_empty_goal_is_noop Sample.new_Date Sample.now
                Sample.free_profile scripted [Returned JNull JNull]
                (with_editGoalText "" Sample.store) "conditioning"
                eq_refl eq_refl) as H.
  cbv zeta in H. destruct H as [Hreq [_ [Hg _]]].
  cbv zeta. split; [reflexivity |]. split; [exact Hreq | exact Hg].
Defined.

(** When the skill has no entry at all (the goals were never loaded), the
    same call issues no request either and adds a null entry for it. *)
Lemma saveGoal_adds_null_entry new_Date now profile {C} (h : handler C) b c skill :
  truthy (athlete c) = true ->
  editGoalText c = "" ->
  obj_get (goals c) skill = None ->
  let run := serve h (dispatch (fun c => saveGoal new_Date now profile c skill) c) b in
  requests_of run = []
  /\ goals (snd (result_of run)) = obj_set skill JNull (goals c)
  /\ forall k, js_or (lookup (goals (snd (result_of run))) k) JNull
               = js_or (lookup (goals c) k) JNull.
Proof.
  intros Ha Htext Hnone run.
  assert (Hlook : lookup (goals c) skill = JUndefined)
    by (unfold lookup; rewrite Hnone; reflexivity).
  pose proof (saveGoal_clears_without_request new_Date now profile h b c skill Ha Htext)
    as Hrun.
  rewrite Hlook in Hrun. specialize (Hrun eq_refl). fold run in Hrun.
  rewrite Hrun. unfold requests_of, result_of. simpl.
  split; [reflexivity |]. split; [reflexivity |].
  intros k. unfold lookup.
  destruct (String.eqb_spec k skill) as [-> | Hne].
  - rewrite obj_get_set_same, Hnone. reflexivity.
  - rewrite obj_get_set_other by exact Hne. reflexivity.
Qed.

(* ------------------------------------------------------------------ *)
(** ** Tier gating *)

(** What [free_tier_request] rules out. *)
Lemma free_tier_request_spec r :
  free_tier_request r = true ->
  (is_insert r = true -> table_of r <> "session_drills")
  /\ (is_select r = true -> table_of r <> "drill_frequency")
  /\ (forall opts, r = db_select "athletes" opts -> sel_limit opts = Some 1).
Proof.
  destruct r as [t opts | t row ret | t upd eq | t eq]; simpl; intros H;
    repeat split; try discriminate; intros.
  - apply andb_prop in H. destruct H as [H _].
    apply negb_true_iff in H. apply String.eqb_neq. exact H.
  - match goal with Hr : db_select _ _ = db_select _ _ |- _ =>
      inversion Hr; subst end.
    simpl in H. destruct (sel_limit opts0) as [[| [| |] |] |]; try discriminate H.
    reflexivity.
  - apply negb_true_iff in H. apply String.eqb_neq. exact H.
Qed.

(** C5. With entitlement false when the handler is created,
    [handleQuickLog] issues no [session_drills] insert, the per-athlete
    load issues no [drill_frequency] fetch, the athlete query of
    [loadData] is limited to one row, and none of them touches the
    drill-frequency cell: empty before, it is empty after. *)
Theorem free_tier_gating new_Date now profile today {C} (h : handler C) b c
        athleteId :
  truthy (isPro new_Date now profile) = false ->
  let quick := serve h (dispatch (handleQuickLog new_Date now profile today) c) b in
  let per_athlete := serve h (loadAthleteData new_Date now profile athleteId c) b in
  let load := serve h (loadData new_Date now profile c) b in
  Forall (fun r => free_tier_request r = true) (requests_of quick)
  /\ Forall (fun r => free_tier_request r = true) (requests_of per_athlete)
  /\ Forall (fun r => free_tier_request r = true) (requests_of load)
  /\ hd_error (requests_of load) = Some (select_athletes_request 1)
  /\ drillFrequency (snd (result_of quick)) = drillFrequency c
  /\ drillFrequency (snd (result_of per_athlete)) = drillFrequency c
  /\ drillFrequency (snd (result_of load)) = drillFrequency c
  /\ (drillFrequency c = JArr [] ->
      drillFrequency (snd (result_of quick)) = JArr []
      /\ drillFrequency (snd (result_of per_athlete)) = JArr []
      /\ drillFrequency (snd (result_of load)) = JArr []).
Proof.
  intros Hfree quick per_athlete load.
  pose (I := fun s : Store => drillFrequency s = drillFrequency c).
  destruct (preserves_serve _ I h _ c b
              (free_handleQuickLog new_Date now profile today Hfree
                 (drillFrequency c) c) eq_refl) as [Hq1 Hq2].
  destruct (preserves_serve _ I h _ c b
              (free_loadAthleteData new_Date now profile Hfree
                 (drillFrequency c) athleteId) eq_refl) as [Ha1 Ha2].
  destruct (preserves_serve _ I h _ c b
              (free_loadData new_Date now profile Hfree (drillFrequency c))
              eq_refl) as [Hl1 Hl2].
  assert (Hfirst : hd_error (requests_of load) = Some (select_athletes_request 1)).
  { subst load. unfold loadData, select_athletes_request. rewrite Hfree. mrun.
    destruct (h _ b) as [o b1].
    match goal with
    | |- context [serve h ?p b1] => destruct (serve h p b1) as [[x y] z]
    end.
    reflexivity. }
  subst I quick per_athlete load. cbv beta in Hq1, Ha1, Hl1.
  split; [exact Hq2 |]. split; [exact Ha2 |]. split; [exact Hl2 |].
  split; [exact Hfirst |]. split; [exact Hq1 |]. split; [exact Ha1 |].
  split; [exact Hl1 |]. intros Hempty.
  split; [| split]; rewrite <- Hempty; [exact Hq1 | exact Ha1 | exact Hl1].
Qed.

Lemma free_tier_gating_witness :
  let quick :=
    serve scripted
      (dispatch (handleQuickLog Sample.new_Date Sample.now Sample.lapsed_profile
                                Sample.today) Sample.store)
      [Returned Sample.session_row JNull] in
  truthy (isPro Sample.new_Date Sample.now Sample.lapsed_profile) = false
  /\ logDrills Sample.store = ["tee-work"; "soft-toss"]
  /\ requests_of quick = [insert_session_request Sample.store]
  /\ Forall (fun r => free_tier_request r = true) (requests_of quick).
Proof.
  pose proof (free_tier_gating Sample.new_Date Sample.now Sample.lapsed_profile
                Sample.today scripted [Returned Sample.session_row JNull]
                Sample.store (JStr "a1") eq_refl) as H.
  cbv zeta in H. destruct H as [Hq _].
  cbv zeta. split; [reflexivity |]. split; [reflexivity |].
  split; [reflexivity | exact Hq].
Defined.

(* ------------------------------------------------------------------ *)
(** ** Current athlete *)

(** C7. For a non-empty roster of athlete rows, [loadData] makes current
    the athlete whose identifier was remembered in [localStorage] if the
    roster has it, else the first one; it writes the chosen identifier
    back, so that a reload (any state with that [localStorage]) which
    fetches the same roster selects the same athlete, found by its
    remembered identifier. *)
Theorem current_athlete_persists new_Date now profile {C} (h : handler C) b s
        first rest err :
  fst (h (select_athletes_request
            (if truthy (isPro new_Date now profile) then 10 else 1)) b)
    = Returned (JArr (first :: rest)) err ->
  truthy err = false ->
  forallb athlete_row (first :: rest) = true ->
  let chosen :=
    remembered_or_first (getItem (localStorage s) "selectedAthleteId") first rest in
  let s' := snd (result_of (serve h (loadData new_Date now profile s) b)) in
  athlete s' = chosen
  /\ (exists id, athlete_id chosen = Some id
                 /\ getItem (localStorage s') "selectedAthleteId" = Some id
                 /\ find (fun a => match athlete_id a with
                                   | Some id' => (id' =? id)%string
                                   | None => false
                                   end) (first :: rest) = Some chosen)
  /\ (forall new_Date' now' profile' D (h' : handler D) b' reloaded err',
        localStorage reloaded = localStorage s' ->
        fst (h' (select_athletes_request
                   (if truthy (isPro new_Date' now' profile') then 10 else 1)) b')
          = Returned (JArr (first :: rest)) err' ->
        truthy err' = false ->
        athlete (snd (result_of
                        (serve h' (loadData new_Date' now' profile' reloaded) b')))
        = chosen).
Proof.
  intros Hh Herr Hall chosen s'.
  destruct (loadData_selects new_Date now profile h b s first rest err Hh Herr Hall)
    as [Hath [id [Hid Hst]]].
  fold chosen in Hath, Hid. fold s' in Hath, Hst.
  assert (Hagain : remembered_or_first (Some id) first rest = chosen)
    by (apply remembered_again; assumption).
  split; [exact Hath |]. split.
  - exists id. split; [exact Hid |]. split.
    + rewrite Hst. apply getItem_setItem.
    + unfold remembered_or_first in Hagain.
      destruct (find _ (first :: rest)) as [a |] eqn:E.
      * rewrite Hagain. reflexivity.
      * exfalso. simpl in E. subst chosen.
        rewrite <- Hagain in Hid. rewrite Hid in E.
        rewrite String.eqb_refl in E. discriminate E.
  - intros new_Date' now' profile' D h' b' reloaded err' Hls Hh' Herr'.
    destruct (loadData_selects new_Date' now' profile' h' b' reloaded first rest
                err' Hh' Herr' Hall) as [Hath' _].
    rewrite Hath', Hls, Hst, getItem_setItem. exact Hagain.
Qed.

Lemma current_athlete_persists_witness :
  let roster := Returned (JArr [Sample.ava; Sample.bea]) JNull in
  let s' :=
    snd (result_of (serve scripted
                      (loadData Sample.new_Date Sample.now Sample.pro_profile
                                Sample.store) [roster])) in
  let reloaded := with_localStorage (localStorage s') (initialStore Sample.today) in
  getItem (localStorage Sample.store) "selectedAthleteId" = Some "a2"
  /\ athlete s' = Sample.bea
  /\ athlete (snd (result_of (serve scripted
                                (loadData Sample.new_Date Sample.now
                                          Sample.pro_profile reloaded) [roster])))
     = Sample.bea.
Proof.
  pose proof (current_athlete_persists Sample.new_Date Sample.now
                Sample.pro_profile scripted
                [Returned (JArr [Sample.ava; Sample.bea]) JNull]
                Sample.store Sample.ava [Sample.bea] JNull
                eq_refl eq_refl eq_refl) as H.
  cbv zeta in H. destruct H as [Hath [_ Hre]].
  cbv zeta. split; [reflexivity |]. split; [exact Hath |].
  exact (Hre Sample.new_Date Sample.now Sample.pro_profile _ scripted
             [Returned (JArr [Sample.ava; Sample.bea]) JNull] _ JNull
             eq_refl eq_refl eq_refl).
Defined.

(* ------------------------------------------------------------------ *)
(** ** Scripts are general *)

(** Whatever a backend does, the handler behaves as it does against the
    script of the outcomes that backend produced. *)
Lemma scripted_replays {A C} (h : handler C) (p : Prog A) (b : C) :
  serve scripted p (map snd (log_of (serve h p b)))
  = (result_of (serve h p b), [], log_of (serve h p b)).
Proof.
  revert b. induction p as [a | r k IH]; intros b; simpl.
  - reflexivity.
  - destruct (h r b) as [o b1]. specialize (IH o b1).
    destruct (serve h (k o) b1) as [[a b2] l1].
    unfold result_of, log_of in *. simpl in *.
    rewrite IH. reflexivity.
Qed.

(* ================================================================== *)
(** * More of the code *)

(* ------------------------------------------------------------------ *)
(** ** [saveGoal] on a goal that exists *)

Lemma lookup_set_same k v o : lookup (obj_set k v o) k = v.
Proof. unfold lookup. rewrite obj_get_set_same. reflexivity. Qed.

Lemma lookup_set_other k k' v o :
  k' <> k -> lookup (obj_set k v o) k' = lookup o k'.
Proof. intros H. unfold lookup. rewrite obj_get_set_other by exact H. reflexivity. Qed.

Lemma identified_is_object g :
  truthy (g ?. "id") = true -> exists o, g = JObj o.
Proof.
  destruct g; simpl; try discriminate. intros _. eexists. reflexivity.
Qed.

Lemma reworded_keeps k text g :
  k <> "text" ->
  truthy (g ?. "id") = true ->
  prop (JObj (obj_set "text" text (spread g))) k = prop g k.
Proof.
  intros Hk Hid. destruct (identified_is_object g Hid) as [o ->].
  simpl. rewrite obj_get_set_other by exact Hk. reflexivity.
Qed.

Lemma inactive_without_key skill o :
  ~ In skill (map fst o) ->
  filter (fun kg => negb (fst kg =? skill)%string) (activeGoals o) = activeGoals o.
Proof.
  induction o as [| [k g] o IH]; simpl; intros H.
  - reflexivity.
  - destruct (truthy (g ?. "isActive")); simpl.
    + assert (E : (k =? skill)%string = false) by (apply String.eqb_neq; tauto).
      rewrite E. simpl. rewrite IH by tauto. reflexivity.
    + apply IH. tauto.
Qed.

Lemma activeGoals_app o1 o2 :
  activeGoals (o1 ++ o2) = (activeGoals o1 ++ activeGoals o2)%list.
Proof. unfold activeGoals. apply filter_app. Qed.

Lemma obj_set_fresh k v o :
  ~ In k (map fst o) -> obj_set k v o = (o ++ [(k, v)])%list.
Proof.
  induction o as [| [k' v'] o IH]; simpl; intros H.
  - reflexivity.
  - destruct (k' =? k)%string eqn:E.
    + apply String.eqb_eq in E. tauto.
    + rewrite IH by tauto. reflexivity.
Qed.

Lemma activeGoals_without skill o :
  goals_object o ->
  activeGoals (obj_set skill JNull o)
  = filter (fun kg => negb (fst kg =? skill)%string) (activeGoals o).
Proof.
  unfold goals_object.
  induction o as [| [k g] o IH]; simpl; intros Hnd.
  - reflexivity.
  - inversion Hnd as [| ? ? Hnotin Hnd']; subst.
    destruct (k =? skill)%string eqn:E.
    + apply String.eqb_eq in E. subst k. simpl.
      destruct (truthy (g ?. "isActive")); simpl;
        rewrite ?String.eqb_refl; simpl;
        rewrite inactive_without_key by assumption; reflexivity.
    + simpl. destruct (truthy (g ?. "isActive")); simpl.
      * rewrite E. simpl. rewrite IH by assumption. reflexivity.
      * apply IH. assumption.
Qed.

Section EditGoal.
Variable new_Date : jsval -> option Z.
Variable now : Z.
Variable profile : jsval.

(** Text saved for a skill whose goal carries an identifier: one update
    of the text column, whatever the tier. *)
Lemma saveGoal_update_run c skill data e rest :
  truthy (athlete c) = true ->
  editGoalText c <> "" ->
  truthy ((lookup (goals c) skill) ?. "id") = true ->
  truthy e = false ->
  serve scripted
        (dispatch (fun c => saveGoal new_Date now profile c skill) c)
        (Returned data e :: rest) =
  (Normal tt,
   with_saving false
     (with_editGoalText ""
        (with_showGoalEdit JNull
           (with_goals
              (obj_set skill
                 (JObj (obj_set "text" (JStr (editGoalText c))
                                (spread (lookup (goals c) skill))))
                 (goals c))
              (with_error JNull (with_saving true c))))),
   rest,
   [(db_update "goals" (JObj [("text", JStr (editGoalText c))])
               [("id", prop (lookup (goals c) skill) "id")],
     Returned data e)]).
Proof.
  intros Ha Htext Hid He.
  unfold dispatch, saveGoal.
  rewrite Ha, Hid, (nonempty_truthy _ Htext). cbn [negb]. mrun.
  rewrite He. mrun. reflexivity.
Qed.

Lemma saveGoal_delete_run c skill data e rest :
  truthy (athlete c) = true ->
  editGoalText c = "" ->
  truthy ((lookup (goals c) skill) ?. "id") = true ->
  truthy e = false ->
  serve scripted
        (dispatch (fun c => saveGoal new_Date now profile c skill) c)
        (Returned data e :: rest) =
  (Normal tt,
   with_saving false
     (with_editGoalText ""
        (with_showGoalEdit JNull
           (with_goals (obj_set skill JNull (goals c))
                       (with_error JNull (with_saving true c))))),
   rest,
   [(db_delete "goals" [("id", prop (lookup (goals c) skill) "id")],
     Returned data e)]).
Proof.
  intros Ha Htext Hid He.
  unfold dispatch, saveGoal.
  rewrite Ha, Hid, Htext. cbn [negb truthy String.eqb]. mrun.
  rewrite He. mrun. reflexivity.
Qed.

Lemma saveGoal_write_rejected c skill bad failed rest :
  truthy (athlete c) = true ->
  truthy ((lookup (goals c) skill) ?. "id") = true ->
  failure bad failed ->
  serve scripted
        (dispatch (fun c => saveGoal new_Date now profile c skill) c)
        (bad :: rest) =
  (Normal tt,
   with_saving false
     (with_error (prop failed "message")
                 (with_error JNull (with_saving true c))),
   rest,
   [(if truthy (JStr (editGoalText c))
     then db_update "goals" (JObj [("text", JStr (editGoalText c))])
                    [("id", prop (lookup (goals c) skill) "id")]
     else db_delete "goals" [("id", prop (lookup (goals c) skill) "id")],
     bad)]).
Proof.
  intros Ha Hid Hbad.
  unfold dispatch, saveGoal.
  rewrite Ha, Hid.
  assert (He : nullish failed = false).
  { destruct Hbad as [data e He | e He]; [apply truthy_not_nullish |]; assumption. }
  destruct (truthy (JStr (editGoalText c))); cbn [negb]; mrun;
    destruct Hbad as [data e Ht | e Hn]; mrun; rewrite ?Ht; mrun;
    rewrite (member_defined _ "message" He); mrun; reflexivity.
Qed.
End EditGoal.

(** X1.  Saving a new text for a skill whose goal already carries an
    identifier sends exactly one update of the text column, addressed to
    that identifier, on either tier; in local state only the text of that
    goal changes: its identifier and its active flag are kept, every other
    entry of the goals object is untouched, and the editor is closed. *)
Theorem saveGoal_rewords_existing_goal new_Date now profile c skill out rest :
  truthy (athlete c) = true ->
  editGoalText c <> "" ->
  truthy ((lookup (goals c) skill) ?. "id") = true ->
  succeeded out = true ->
  let existingGoal := lookup (goals c) skill in
  let run := serve scripted
               (dispatch (fun c => saveGoal new_Date now profile c skill) c)
               (out :: rest) in
  let s' := snd (result_of run) in
  fst (result_of run) = Normal tt
  /\ requests_of run =
       [db_update "goals" (JObj [("text", JStr (editGoalText c))])
                  [("id", prop existingGoal "id")]]
  /\ prop (lookup (goals s') skill) "text" = JStr (editGoalText c)
  /\ prop (lookup (goals s') skill) "id" = prop existingGoal "id"
  /\ prop (lookup (goals s') skill) "isActive" = prop existingGoal "isActive"
  /\ (forall k, k <> skill -> lookup (goals s') k = lookup (goals c) k)
  /\ error s' = JNull /\ showGoalEdit s' = JNull /\ editGoalText s' = ""
  /\ saving s' = false.
Proof.
  intros Ha Htext Hid Hout existingGoal run s'.
  destruct out as [data e | e]; simpl in Hout; [| discriminate].
  apply negb_true_iff in Hout.
  subst run s'. rewrite (saveGoal_update_run _ _ _ c skill data e rest Ha Htext Hid Hout).
  unfold result_of, requests_of. cbn [fst snd map].
  cbn [goals with_saving with_editGoalText with_showGoalEdit with_goals
       error showGoalEdit editGoalText saving].
  rewrite lookup_set_same.
  repeat split.
  - destruct (identified_is_object _ Hid) as [o Ho]. fold existingGoal in Ho |- *.
    rewrite Ho. simpl. rewrite obj_get_set_same. reflexivity.
  - apply reworded_keeps; [discriminate | exact Hid].
  - apply reworded_keeps; [discriminate | exact Hid].
  - intros k Hk. apply lookup_set_other. exact Hk.
Qed.

Lemma saveGoal_rewords_existing_goal_witness :
  let c := with_editGoalText "Stay through the ball"
             (with_showGoalEdit (JStr "hitting") Sample.store) in
  let run := serve scripted
               (dispatch (fun c => saveGoal Sample.new_Date Sample.now
                                            Sample.free_profile c "hitting") c)
               [Returned (JArr []) JNull] in
  requests_of run =
    [db_update "goals" (JObj [("text", JStr "Stay through the ball")])
               [("id", JStr "g1")]]
  /\ lookup (goals (snd (result_of run))) "hitting"
     = Sample.goal "g1" "Stay through the ball"
  /\ lookup (goals (snd (result_of run))) "pitching"
     = Sample.goal "g2" "Hit the spots".
Proof.
  pose proof (saveGoal_rewords_existing_goal Sample.new_Date Sample.now
                Sample.free_profile
                (with_editGoalText "Stay through the ball"
                   (with_showGoalEdit (JStr "hitting") Sample.store))
                "hitting" (Returned (JArr []) JNull) []) as H.
  cbv zeta in H.
  destruct H as [_ [Hreq _]];
    [reflexivity | discriminate | reflexivity | reflexivity |].
  split; [exact Hreq | split; reflexivity].
Defined.

(** X2.  Saving an empty text for a skill whose goal carries an identifier
    sends exactly one delete addressed to that identifier; when it is
    accepted the entry of the skill becomes [null], the skill leaves the
    active goals, and every other entry is untouched. *)
Theorem saveGoal_empty_text_deletes new_Date now profile c skill out rest :
  truthy (athlete c) = true ->
  editGoalText c = "" ->
  truthy ((lookup (goals c) skill) ?. "id") = true ->
  goals_object (goals c) ->
  succeeded out = true ->
  let run := serve scripted
               (dispatch (fun c => saveGoal new_Date now profile c skill) c)
               (out :: rest) in
  let s' := snd (result_of run) in
  requests_of run = [db_delete "goals" [("id", prop (lookup (goals c) skill) "id")]]
  /\ lookup (goals s') skill = JNull
  /\ (forall k, k <> skill -> lookup (goals s') k = lookup (goals c) k)
  /\ activeGoals (goals s')
     = filter (fun kg => negb (fst kg =? skill)%string) (activeGoals (goals c))
  /\ error s' = JNull /\ showGoalEdit s' = JNull.
Proof.
  intros Ha Htext Hid Hobj Hout run s'.
  destruct out as [data e | e]; simpl in Hout; [| discriminate].
  apply negb_true_iff in Hout.
  subst run s'. rewrite (saveGoal_delete_run _ _ _ c skill data e rest Ha Htext Hid Hout).
  unfold result_of, requests_of. cbn [fst snd map].
  cbn [goals with_saving with_editGoalText with_showGoalEdit with_goals
       error showGoalEdit].
  rewrite lookup_set_same.
  repeat split.
  - intros k Hk. apply lookup_set_other. exact Hk.
  - apply activeGoals_without. exact Hobj.
Qed.

Lemma saveGoal_empty_text_deletes_witness :
  let c := with_editGoalText "" (with_showGoalEdit (JStr "hitting") Sample.store) in
  let run := serve scripted
               (dispatch (fun c => saveGoal Sample.new_Date Sample.now
                                            Sample.pro_profile c "hitting") c)
               [Returned JUndefined JNull] in
  requests_of run = [db_delete "goals" [("id", JStr "g1")]]
  /\ activeGoals (goals (snd (result_of run)))
     = [("pitching", Sample.goal "g2" "Hit the spots")].
Proof.
  pose proof (saveGoal_empty_text_deletes Sample.new_Date Sample.now
                Sample.pro_profile
                (with_editGoalText "" (with_showGoalEdit (JStr "hitting") Sample.store))
                "hitting" (Returned JUndefined JNull) []) as H.
  cbv zeta in H.
  destruct H as [Hreq [_ [_ [Hact _]]]];
    [reflexivity | reflexivity | reflexivity | apply sample_goals_object | reflexivity |].
  split; [exact Hreq | exact Hact].
Defined.

(** X3.  When the update or the delete of an existing goal fails (an error
    value in the result, or a fault of the transport), nothing but that one
    request was issued, the goals in local state are exactly as before, the
    message of the failure is shown, and the editor stays open with the
    text the user typed. *)
Theorem saveGoal_failed_write_keeps_goal new_Date now profile c skill bad failed rest :
  truthy (athlete c) = true ->
  truthy ((lookup (goals c) skill) ?. "id") = true ->
  failure bad failed ->
  let run := serve scripted
               (dispatch (fun c => saveGoal new_Date now profile c skill) c)
               (bad :: rest) in
  let s' := snd (result_of run) in
  List.length (requests_of run) = 1%nat
  /\ Forall (fun r => table_of r = "goals" /\ is_insert r = false) (requests_of run)
  /\ goals s' = goals c
  /\ error s' = prop failed "message"
  /\ showGoalEdit s' = showGoalEdit c
  /\ editGoalText s' = editGoalText c
  /\ saving s' = false.
Proof.
  intros Ha Hid Hbad run s'.
  subst run s'. rewrite (saveGoal_write_rejected _ _ _ c skill bad failed rest Ha Hid Hbad).
  unfold result_of, requests_of. cbn [fst snd map List.length].
  repeat split.
  constructor; [| constructor].
  destruct (truthy (JStr (editGoalText c))); split; reflexivity.
Qed.

Lemma saveGoal_failed_write_keeps_goal_witness :
  let c := with_editGoalText "Stay through the ball"
             (with_showGoalEdit (JStr "hitting") Sample.store) in
  let run := serve scripted
               (dispatch (fun c => saveGoal Sample.new_Date Sample.now
                                            Sample.free_profile c "hitting") c)
               [Returned JNull Sample.rejected] in
  goals (snd (result_of run)) = goals c
  /\ error (snd (result_of run)) = JStr "violates foreign key constraint"
  /\ editGoalText (snd (result_of run)) = "Stay through the ball".
Proof.
  pose proof (saveGoal_failed_write_keeps_goal Sample.new_Date Sample.now
                Sample.free_profile
                (with_editGoalText "Stay through the ball"
                   (with_showGoalEdit (JStr "hitting") Sample.store))
                "hitting" (Returned JNull Sample.rejected) Sample.rejected []) as H.
  cbv zeta in H.
  destruct H as [_ [_ [Hg [He [_ [Ht _]]]]]];
    [reflexivity | reflexivity | constructor; reflexivity |].
  split; [exact Hg | split; [exact He | exact Ht]].
Defined.

(** X4.  [saveGoal] cannot bring back a goal that local state holds as
    inactive: for a skill whose entry carries an identifier but is not
    active, whatever the text and whatever the backend answers, the only
    request is an update of the text or a delete, never one that touches
    [is_active], and the entry is still not active afterwards. *)
Theorem saveGoal_never_reactivates new_Date now profile {C} (h : handler C) b c skill :
  truthy ((lookup (goals c) skill) ?. "id") = true ->
  truthy ((lookup (goals c) skill) ?. "isActive") = false ->
  let run := serve h (dispatch (fun c => saveGoal new_Date now profile c skill) c) b in
  let s' := snd (result_of run) in
  truthy ((lookup (goals s') skill) ?. "isActive") = false
  /\ Forall (fun r =>
       r = db_update "goals" (JObj [("text", JStr (editGoalText c))])
                     [("id", prop (lookup (goals c) skill) "id")]
       \/ r = db_delete "goals" [("id", prop (lookup (goals c) skill) "id")])
     (requests_of run).
Proof.
  intros Hid Hact run s'. subst run s'.
  assert (Hkept : truthy ((JObj (obj_set "text" (JStr (editGoalText c))
                                   (spread (lookup (goals c) skill)))) ?. "isActive")
                  = false).
  { destruct (identified_is_object _ Hid) as [o Ho]. rewrite Ho in Hact |- *.
    unfold opt_prop in *. simpl in *.
    rewrite obj_get_set_other by discriminate. exact Hact. }
  unfold dispatch, saveGoal.
  destruct (truthy (athlete c)); cbn [negb].
  2:{ unfold result_of, requests_of. simpl. split; [exact Hact | constructor]. }
  rewrite Hid.
  destruct (truthy (JStr (editGoalText c))); cbn [negb]; mrun;
    destruct (h _ b) as [[data e | e] b1]; mrun;
    try (destruct (truthy e); mrun);
    unfold member; try (destruct (nullish e); mrun);
    unfold result_of, requests_of; cbn [fst snd map goals with_saving with_editGoalText
      with_showGoalEdit with_goals with_error];
    rewrite ?lookup_set_same;
    (split; [first [exact Hact | exact Hkept | reflexivity]
            | constructor; [tauto | constructor]]).
Qed.

Lemma saveGoal_never_reactivates_witness :
  let c := with_editGoalText "Level swing again"
             (with_goals (clear_others "fielding" (goals Sample.store)) Sample.store) in
  let run := serve scripted
               (dispatch (fun c => saveGoal Sample.new_Date Sample.now
                                            Sample.free_profile c "hitting") c)
               [Returned (JArr []) JNull] in
  truthy ((lookup (goals c) "hitting") ?. "isActive") = false
  /\ truthy ((lookup (goals (snd (result_of run))) "hitting") ?. "isActive") = false
  /\ prop (lookup (goals (snd (result_of run))) "hitting") "text"
     = JStr "Level swing again".
Proof.
  pose proof (saveGoal_never_reactivates Sample.new_Date Sample.now
                Sample.free_profile scripted [Returned (JArr []) JNull]
                (with_editGoalText "Level swing again"
                   (with_goals (clear_others "fielding" (goals Sample.store))
                               Sample.store))
                "hitting") as H.
  cbv zeta in H.
  destruct H as [Hact _]; [reflexivity | reflexivity |].
  split; [reflexivity | split; [exact Hact | reflexivity]].
Defined.

(* ------------------------------------------------------------------ *)
(** ** Loading: what ends up in local state *)

Lemma rows_of_array method data rows :
  rows_of data rows -> array_of method (js_or data (JArr [])) = Normal rows.
Proof.
  intros [-> | [Hf ->]]; [reflexivity |].
  unfold js_or. rewrite Hf. reflexivity.
Qed.

Lemma map_displayed rows :
  Forall (fun r => nullish r = false) rows ->
  map_throwing display_shape rows = Normal (map displayed rows).
Proof.
  induction 1 as [| r rows Hr _ IH]; simpl.
  - reflexivity.
  - rewrite IH. unfold display_shape, member. rewrite Hr. reflexivity.
Qed.

Lemma fold_add_goal rows : forall m,
  Forall (fun r => nullish r = false) rows ->
  fold_throwing add_goal m rows
  = Normal (fold_left (fun m g => obj_set (skill_of g) (new_goal g) m) rows m).
Proof.
  induction rows as [| g rows IH]; intros m H; simpl.
  - reflexivity.
  - inversion H as [| ? ? Hg Hrest]; subst.
    unfold add_goal at 1, member. rewrite Hg. apply IH. exact Hrest.
Qed.

Lemma fold_goals_object rows : forall m,
  goals_object m ->
  goals_object (fold_left (fun m g => obj_set (skill_of g) (new_goal g) m) rows m).
Proof.
  induction rows as [| g rows IH]; intros m H; simpl.
  - exact H.
  - apply IH. apply obj_set_keeps_object. exact H.
Qed.

Lemma find_snoc {A} (f : A -> bool) l x :
  find f (l ++ [x]) = match find f l with
                      | Some y => Some y
                      | None => if f x then Some x else None
                      end.
Proof.
  induction l as [| y l IH]; simpl.
  - reflexivity.
  - destruct (f y); [reflexivity | exact IH].
Qed.

Lemma fold_goals_lookup k rows : forall m,
  lookup (fold_left (fun m g => obj_set (skill_of g) (new_goal g) m) rows m) k
  = match last_goal_row k rows with
    | Some g => new_goal g
    | None => lookup m k
    end.
Proof.
  unfold last_goal_row.
  induction rows as [| g rows IH]; intros m; simpl.
  - reflexivity.
  - rewrite IH. rewrite find_snoc.
    destruct (find _ (rev rows)) as [g' |]; [reflexivity |].
    simpl. destruct (skill_of g =? k)%string eqn:E.
    + apply String.eqb_eq in E. subst k. apply lookup_set_same.
    + apply lookup_set_other. intros ->. rewrite String.eqb_refl in E. discriminate.
Qed.

Lemma empty_goals :
  fold_left (fun m opt => obj_set opt JNull m) FOCUS_OPTIONS []
  = [("hitting", JNull); ("pitching", JNull); ("fielding", JNull);
     ("conditioning", JNull)].
Proof. reflexivity. Qed.

Lemma empty_goals_lookup k :
  lookup (fold_left (fun m opt => obj_set opt JNull m) FOCUS_OPTIONS []) k
  = if existsb (String.eqb k) FOCUS_OPTIONS then JNull else JUndefined.
Proof.
  rewrite empty_goals. unfold lookup, FOCUS_OPTIONS. cbn [obj_get existsb].
  rewrite (String.eqb_sym k "hitting"), (String.eqb_sym k "pitching"),
    (String.eqb_sym k "fielding"), (String.eqb_sym k "conditioning").
  destruct ("hitting" =? k)%string; [reflexivity |].
  destruct ("pitching" =? k)%string; [reflexivity |].
  destruct ("fielding" =? k)%string; [reflexivity |].
  destruct ("conditioning" =? k)%string; reflexivity.
Qed.

Lemma empty_goals_object :
  goals_object (fold_left (fun m opt => obj_set opt JNull m) FOCUS_OPTIONS []).
Proof.
  unfold goals_object. simpl.
  repeat constructor; simpl; intuition discriminate.
Qed.

Lemma failure_defined bad failed : failure bad failed -> nullish failed = false.
Proof.
  intros [data e He | e He]; [apply truthy_not_nullish |]; assumption.
Qed.

(** X5.  When both fetches of [loadAthleteData] succeed, the sessions in
    local state are the fetched rows in display shape, in the order the
    backend returned them; the goals object has no key twice, holds under
    every skill tag the last goal row fetched for it (marked active), and
    [null] under each of the four skills without a row; and the loading
    flag is cleared. *)
Theorem loadAthleteData_builds_state new_Date now profile id s
        sdata e1 gdata e2 rows grows rest :
  rows_of sdata rows -> rows_of gdata grows ->
  truthy e1 = false -> truthy e2 = false ->
  Forall (fun r => nullish r = false) rows ->
  Forall (fun r => nullish r = false) grows ->
  let run := serve scripted (loadAthleteData new_Date now profile id s)
                   (Returned sdata e1 :: Returned gdata e2 :: rest) in
  let s' := snd (result_of run) in
  sessions s' = map displayed rows
  /\ goals_object (goals s')
  /\ (forall k,
        lookup (goals s') k
        = match last_goal_row k grows with
          | Some g => new_goal g
          | None => if existsb (String.eqb k) FOCUS_OPTIONS then JNull else JUndefined
          end)
  /\ loading s' = false.
Proof.
  intros Hs Hg He1 He2 Hrows Hgrows run s'. subst run s'.
  assert (Hgoals : forall k,
    lookup (fold_left (fun m g => obj_set (skill_of g) (new_goal g) m) grows
              (fold_left (fun m opt => obj_set opt JNull m) FOCUS_OPTIONS [])) k
    = match last_goal_row k grows with
      | Some g => new_goal g
      | None => if existsb (String.eqb k) FOCUS_OPTIONS then JNull else JUndefined
      end).
  { intros k. rewrite fold_goals_lookup, empty_goals_lookup. reflexivity. }
  pose proof (fold_goals_object grows _ empty_goals_object) as Hobj.
  unfold loadAthleteData. mrun. rewrite He1. mrun.
  rewrite (rows_of_array _ _ _ Hs). mrun.
  rewrite (map_displayed _ Hrows). mrun.
  rewrite He2. mrun.
  rewrite (rows_of_array _ _ _ Hg). mrun.
  rewrite (fold_add_goal _ _ Hgrows). mrun.
  destruct (truthy (isPro new_Date now profile)).
  - destruct rest as [| [d e | e] rest]; mrun;
      unfold member; try (destruct (nullish _)); mrun;
      unfold result_of; cbn [fst snd]; repeat split; try exact Hobj; exact Hgoals.
  - mrun. unfold result_of; cbn [fst snd]. repeat split; try exact Hobj; exact Hgoals.
Qed.

Lemma loadAthleteData_builds_state_witness :
  let run := serve scripted
               (loadAthleteData Sample.new_Date Sample.now Sample.free_profile
                                (JStr "a1") Sample.store)
               [Returned (JArr [Sample.session_row]) JNull;
                Returned (JArr [Sample.goal_row]) JNull] in
  sessions (snd (result_of run)) = [displayed Sample.session_row]
  /\ lookup (goals (snd (result_of run))) "fielding" = new_goal Sample.goal_row
  /\ lookup (goals (snd (result_of run))) "hitting" = JNull.
Proof.
  pose proof (loadAthleteData_builds_state Sample.new_Date Sample.now
                Sample.free_profile (JStr "a1") Sample.store
                (JArr [Sample.session_row]) JNull (JArr [Sample.goal_row]) JNull
                [Sample.session_row] [Sample.goal_row] []) as H.
  cbv zeta in H.
  destruct H as [Hs [_ [Hg _]]];
    [left; reflexivity | left; reflexivity | reflexivity | reflexivity
     | repeat constructor | repeat constructor |].
  split; [exact Hs | split; [exact (Hg "fielding") | exact (Hg "hitting")]].
Defined.

(** X6.  When the sessions arrive but the fetch of the goals fails,
    [loadAthleteData] has already replaced the sessions and leaves the
    goals object as it was before the load; the message of the failure is
    shown, the loading flag is cleared, and no third request is made. *)
Theorem loadAthleteData_goal_fetch_fails new_Date now profile id s
        sdata e1 rows bad failed rest :
  rows_of sdata rows -> truthy e1 = false ->
  Forall (fun r => nullish r = false) rows ->
  failure bad failed ->
  let run := serve scripted (loadAthleteData new_Date now profile id s)
                   (Returned sdata e1 :: bad :: rest) in
  let s' := snd (result_of run) in
  fst (result_of run) = Normal tt
  /\ List.length (requests_of run) = 2%nat
  /\ sessions s' = map displayed rows
  /\ goals s' = goals s
  /\ drillFrequency s' = drillFrequency s
  /\ error s' = prop failed "message"
  /\ loading s' = false.
Proof.
  intros Hs He1 Hrows Hbad run s'. subst run s'.
  pose proof (failure_defined _ _ Hbad) as Hdef.
  unfold loadAthleteData. mrun. rewrite He1. mrun.
  rewrite (rows_of_array _ _ _ Hs). mrun.
  rewrite (map_displayed _ Hrows). mrun.
  destruct Hbad as [data e Ht | e Hn]; mrun; rewrite ?Ht; mrun;
    rewrite (member_defined _ "message" Hdef); mrun;
    unfold result_of, requests_of; cbn [fst snd map List.length];
    repeat split.
Qed.

Lemma loadAthleteData_goal_fetch_fails_witness :
  let run := serve scripted
               (loadAthleteData Sample.new_Date Sample.now Sample.pro_profile
                                (JStr "a2") Sample.store)
               [Returned (JArr [Sample.session_row]) JNull;
                Returned JNull Sample.rejected] in
  sessions (snd (result_of run)) = [displayed Sample.session_row]
  /\ goals (snd (result_of run)) = goals Sample.store
  /\ error (snd (result_of run)) = JStr "violates foreign key constraint".
Proof.
  pose proof (loadAthleteData_goal_fetch_fails Sample.new_Date Sample.now
                Sample.pro_profile (JStr "a2") Sample.store
                (JArr [Sample.session_row]) JNull [Sample.session_row]
                (Returned JNull Sample.rejected) Sample.rejected []) as H.
  cbv zeta in H.
  destruct H as [_ [_ [Hs [Hg [_ [He _]]]]]];
    [left; reflexivity | reflexivity | repeat constructor
     | constructor; reflexivity |].
  split; [exact Hs | split; [exact Hg | exact He]].
Defined.

(** X7.  Switching to another athlete when the fetch of the sessions
    fails: the current athlete and the remembered identifier are already
    those of the athlete switched to, while the sessions, the goals and the
    drill frequency in local state are still the ones loaded before; the
    message is shown and the loading flag is cleared. *)
Theorem handleSelectAthlete_fetch_fails new_Date now profile s a id bad failed rest :
  athlete_id a = Some id ->
  failure bad failed ->
  let run := serve scripted (handleSelectAthlete new_Date now profile a s)
                   (bad :: rest) in
  let s' := snd (result_of run) in
  fst (result_of run) = Normal tt
  /\ List.length (requests_of run) = 1%nat
  /\ athlete s' = a
  /\ getItem (localStorage s') "selectedAthleteId" = Some id
  /\ sessions s' = sessions s
  /\ goals s' = goals s
  /\ drillFrequency s' = drillFrequency s
  /\ error s' = prop failed "message"
  /\ loading s' = false.
Proof.
  intros Hid Hbad run s'. subst run s'.
  pose proof (failure_defined _ _ Hbad) as Hdef.
  assert (Hm : member a "id" = Normal (JStr id)).
  { unfold athlete_id in Hid. destruct a as [| | | | | | o]; try discriminate.
    unfold member, prop. simpl.
    destruct (obj_get o "id") as [[| | | | x | |] |]; try discriminate.
    congruence. }
  unfold handleSelectAthlete, loadAthleteData. rewrite Hm. mrun.
  destruct Hbad as [data e Ht | e Hn]; mrun; rewrite ?Ht; mrun;
    rewrite (member_defined _ "message" Hdef); mrun;
    unfold result_of, requests_of; cbn [fst snd map List.length ToString];
    cbn [localStorage with_loading with_error with_localStorage with_athlete];
    rewrite getItem_setItem; repeat split.
Qed.

Lemma handleSelectAthlete_fetch_fails_witness :
  let run := serve scripted
               (handleSelectAthlete Sample.new_Date Sample.now Sample.pro_profile
                                    Sample.bea Sample.store)
               [Thrown NetworkError] in
  athlete (snd (result_of run)) = Sample.bea
  /\ goals (snd (result_of run)) = goals Sample.store
  /\ error (snd (result_of run)) = JStr "Failed to fetch".
Proof.
  pose proof (handleSelectAthlete_fetch_fails Sample.new_Date Sample.now
                Sample.pro_profile Sample.store Sample.bea "a2"
                (Thrown NetworkError) NetworkError []) as H.
  cbv zeta in H.
  destruct H as [_ [_ [Ha [_ [_ [Hg [_ [He _]]]]]]]];
    [reflexivity | constructor; reflexivity |].
  split; [exact Ha | split; [exact Hg | exact He]].
Defined.

Section EarlyExit.
Variable new_Date : jsval -> option Z.
Variable now : Z.
Variable profile : jsval.

Lemma loadData_empty_run s data err rest :
  data = JNull \/ data = JArr [] ->
  truthy err = false ->
  serve scripted (loadData new_Date now profile s) (Returned data err :: rest) =
  (Normal tt,
   with_loading false (with_showAddAthlete true (with_error JNull s)),
   rest,
   [(select_athletes_request (if truthy (isPro new_Date now profile) then 10 else 1),
     Returned data err)]).
Proof.
  intros Hdata Herr.
  unfold loadData. mrun. rewrite Herr. mrun.
  destruct Hdata as [-> | ->]; cbn [truthy negb orb js_length is_num List.length
                                     Z.of_nat Z.eqb]; mrun; reflexivity.
Qed.

Lemma loadData_rejected_run s bad failed rest :
  failure bad failed ->
  serve scripted (loadData new_Date now profile s) (bad :: rest) =
  (Normal tt,
   with_loading false (with_error (prop failed "message") s),
   rest,
   [(select_athletes_request (if truthy (isPro new_Date now profile) then 10 else 1),
     bad)]).
Proof.
  intros Hbad.
  pose proof (failure_defined _ _ Hbad) as Hdef.
  unfold loadData. mrun.
  destruct Hbad as [data e Ht | e Hn]; mrun; rewrite ?Ht; mrun;
    rewrite (member_defined _ "message" Hdef); mrun; reflexivity.
Qed.
End EarlyExit.

(** X8.  [loadData] stops after the athlete query when there is nothing to
    select.  On an account without athletes (the fetch gives [null] or an
    empty array) the query is the only request, the add-athlete prompt is
    opened and the loading flag cleared.  When the query fails, it is the
    only request as well, the message of the failure is shown and the
    loading flag cleared.  In both cases everything else in local state,
    the current athlete, the roster, the sessions, the goals and the
    remembered identifier, is as before. *)
Theorem loadData_stops_after_athlete_query new_Date now profile s rest :
  let query :=
    select_athletes_request (if truthy (isPro new_Date now profile) then 10 else 1) in
  (forall data err,
     data = JNull \/ data = JArr [] -> truthy err = false ->
     let run := serve scripted (loadData new_Date now profile s)
                      (Returned data err :: rest) in
     fst (result_of run) = Normal tt
     /\ requests_of run = [query]
     /\ snd (result_of run)
        = with_loading false (with_showAddAthlete true (with_error JNull s)))
  /\ (forall bad failed,
        failure bad failed ->
        let run := serve scripted (loadData new_Date now profile s) (bad :: rest) in
        fst (result_of run) = Normal tt
        /\ requests_of run = [query]
        /\ snd (result_of run)
           = with_loading false (with_error (prop failed "message") s)).
Proof.
  cbv zeta. split.
  - intros data err Hdata Herr.
    rewrite (loadData_empty_run new_Date now profile s data err rest Hdata Herr).
    repeat split.
  - intros bad failed Hbad.
    rewrite (loadData_rejected_run new_Date now profile s bad failed rest Hbad).
    repeat split.
Qed.

Lemma loadData_stops_after_athlete_query_witness :
  snd (result_of
         (serve scripted
                (loadData Sample.new_Date Sample.now Sample.free_profile
                          (initialStore "2025-01-01"))
                [Returned (JArr []) JNull]))
  = with_loading false
      (with_showAddAthlete true (with_error JNull (initialStore "2025-01-01")))
  /\ snd (result_of
            (serve scripted
                   (loadData Sample.new_Date Sample.now Sample.free_profile Sample.store)
                   [Returned JNull Sample.rejected]))
     = with_loading false
         (with_error (JStr "violates foreign key constraint") Sample.store).
Proof.
  split.
  - pose proof (loadData_stops_after_athlete_query Sample.new_Date Sample.now
                  Sample.free_profile (initialStore "2025-01-01") []) as H.
    cbv zeta in H. destruct H as [H _].
    destruct (H (JArr []) JNull) as [_ [_ Hs]]; [right; reflexivity | reflexivity |].
    exact Hs.
  - pose proof (loadData_stops_after_athlete_query Sample.new_Date Sample.now
                  Sample.free_profile Sample.store []) as H.
    cbv zeta in H. destruct H as [_ H].
    destruct (H (Returned JNull Sample.rejected) Sample.rejected) as [_ [_ Hs]];
      [constructor; reflexivity |].
    exact Hs.
Defined.

(* ------------------------------------------------------------------ *)
(** ** Properties that hold against every backend *)

Lemma safe_always {A} (p : Prog A) : safe (fun _ => True) (fun _ => True) p.
Proof.
  induction p as [a | r k IH]; [apply safe_ret | apply safe_call]; auto.
Qed.

Section Triples.
Variable P : request -> Prop.

Lemma triple_weaken {A} (Pre Pre' : Store -> Prop) (m : M A)
      (Post Post' : completion A -> Store -> Prop) :
  (forall s, Pre' s -> Pre s) -> (forall c s, Post c s -> Post' c s) ->
  triple P Pre m Post -> triple P Pre' m Post'.
Proof.
  intros HPre HPost H s Hs.
  apply safe_weaken with (P := P) (Q := fun x => Post (fst x) (snd x)); auto.
Qed.

Lemma preserves_triple {A} I (m : M A) :
  preserves P I m -> triple P I m (fun _ s => I s).
Proof. intros H s Hs. exact (H s Hs). Qed.

Lemma triple_modify Pre f (Post : completion unit -> Store -> Prop) :
  (forall s, Pre s -> Post (Normal tt) (f s)) -> triple P Pre (modify f) Post.
Proof. intros H s Hs. apply safe_ret. simpl. auto. Qed.

Lemma triple_ret {A} Pre (a : A) (Post : completion A -> Store -> Prop) :
  (forall s, Pre s -> Post (Normal a) s) -> triple P Pre (ret a) Post.
Proof. intros H s Hs. apply safe_ret. simpl. auto. Qed.

Lemma triple_bind {A B} Pre (m : M A) (f : A -> M B) (Mid : A -> Store -> Prop) Post :
  triple P Pre m
         (fun c s => match c with Normal a => Mid a s | Throw e => Post (Throw e) s end) ->
  (forall a, triple P (Mid a) (f a) Post) ->
  triple P Pre (bind m f) Post.
Proof.
  intros Hm Hf s Hs. unfold bind.
  eapply safe_pbind; [apply Hm; exact Hs |].
  intros [[a | err] s1] H1; simpl in H1.
  - apply Hf. exact H1.
  - apply safe_ret. exact H1.
Qed.

Lemma triple_try_catch {A} Pre (body : M A) handle (H : jsval -> Store -> Prop) Post :
  triple P Pre body
         (fun c s => match c with Normal a => Post (Normal a) s | Throw e => H e s end) ->
  (forall e, triple P (H e) (handle e) Post) ->
  triple P Pre (try_catch body handle) Post.
Proof.
  intros Hm Hf s Hs. unfold try_catch.
  eapply safe_pbind; [apply Hm; exact Hs |].
  intros [[a | err] s1] H1; simpl in H1.
  - apply safe_ret. exact H1.
  - apply Hf. exact H1.
Qed.

Lemma triple_finally {A} Pre (body : M A) fin (R : completion A -> Store -> Prop) Post :
  triple P Pre body R ->
  (forall c, triple P (R c) fin
                    (fun c2 s => match c2 with
                                 | Normal _ => Post c s
                                 | Throw e => Post (Throw e) s
                                 end)) ->
  triple P Pre (finally body fin) Post.
Proof.
  intros Hm Hf s Hs. unfold finally.
  eapply safe_pbind; [apply Hm; exact Hs |].
  intros [c s1] H1; simpl in H1.
  eapply safe_pbind; [apply (Hf c); exact H1 |].
  intros [[a | err] s2] H2; simpl in H2; apply safe_ret; exact H2.
Qed.

Lemma triple_serve {A C} (h : handler C) Pre (m : M A) Post s b :
  triple P Pre m Post -> Pre s ->
  Post (fst (result_of (serve h (m s) b))) (snd (result_of (serve h (m s) b)))
  /\ Forall P (requests_of (serve h (m s) b)).
Proof.
  intros Hm Hs.
  exact (safe_serve P (fun x => Post (fst x) (snd x)) h (m s) (Hm s Hs) b).
Qed.
End Triples.

(** Whatever a handler does before it, a [finally] block that sets a cell
    decides what the cell holds at the end. *)
Lemma triple_finally_sets {A} Pre (body : M A) f (Q : Store -> Prop) :
  (forall s, Q (f s)) ->
  triple (fun _ => True) Pre (finally body (modify f)) (fun _ s => Q s).
Proof.
  intros Hf.
  apply triple_finally with (R := fun _ _ => True).
  - intros s _. apply safe_weaken with (P := fun _ => True) (Q := fun _ => True);
      auto using safe_always.
  - intros c. apply triple_modify. intros s _. apply Hf.
Qed.

Lemma triple_after {A B} Pre (m : M A) (f : A -> M B)
      (Post : completion B -> Store -> Prop) :
  (forall e s, Post (Throw e) s) ->
  (forall a, triple (fun _ => True) (fun _ => True) (f a) Post) ->
  triple (fun _ => True) Pre (bind m f) Post.
Proof.
  intros Hthrow Hf.
  apply triple_bind with (Mid := fun _ _ => True); [| exact Hf].
  intros s _. apply safe_weaken with (P := fun _ => True) (Q := fun _ => True);
    auto using safe_always.
  intros [[a | e] s1] _; simpl; auto.
Qed.

Section BusyFlags.
Variable new_Date : jsval -> option Z.
Variable now : Z.
Variable profile : jsval.
Variable today : string.
Variable user : jsval.
Variable trim : string -> string.

Lemma loadAthleteData_stops_loading id :
  triple (fun _ => True) (fun _ => True) (loadAthleteData new_Date now profile id)
         (fun _ s => loading s = false).
Proof. unfold loadAthleteData. apply triple_finally_sets. reflexivity. Qed.

Lemma loadAthleteData_done id :
  triple (fun _ => True) (fun _ => True) (loadAthleteData new_Date now profile id)
         (fun c s => match c with Normal _ => loading s = false | Throw _ => True end).
Proof.
  eapply triple_weaken; [| | apply loadAthleteData_stops_loading]; auto.
  intros [a | e] s H; auto.
Qed.

Ltac after_step :=
  match goal with
  | |- triple _ _ (bind _ _) _ => apply triple_after; [intros; exact Logic.I | intros ?]
  | |- triple _ _ (match ?x with (_, _) => _ end) _ => destruct x
  | |- triple _ _ (if ?c then _ else _) _ => destruct c
  | |- triple _ _ (loadAthleteData _ _ _ _) _ => apply loadAthleteData_done
  | |- triple _ _ (setLoading false) _ =>
      apply triple_modify; intros; reflexivity
  end.

Lemma loadData_done :
  triple (fun _ => True) (fun _ => True) (loadData new_Date now profile)
         (fun c s => match c with Normal _ => loading s = false | Throw _ => True end).
Proof.
  unfold loadData.
  do 2 after_step.
  apply triple_try_catch with (H := fun _ _ => True).
  - eapply triple_weaken with (Pre := fun _ => True)
      (Post := fun c s => match c with Normal _ => loading s = false | Throw _ => True end);
      [auto | intros [x | e] s0 H0; exact H0 |].
    repeat after_step.
  - intros e. unfold catch_setError. repeat after_step.
Qed.

Lemma handleSelectAthlete_done a :
  triple (fun _ => True) (fun _ => True) (handleSelectAthlete new_Date now profile a)
         (fun c s => match c with Normal _ => loading s = false | Throw _ => True end).
Proof. unfold handleSelectAthlete. repeat after_step. Qed.

Lemma handleQuickLog_stops_saving c :
  triple (fun _ => True) (fun s => saving s = false)
         (handleQuickLog new_Date now profile today c)
         (fun _ s => saving s = false).
Proof.
  unfold handleQuickLog. destruct (_ || _).
  - apply triple_ret. auto.
  - eapply triple_weaken with (Pre := fun _ => True); [auto | intros c0 s H; exact H |].
    do 2 (apply triple_bind with (Mid := fun _ _ => True);
          [apply triple_modify; auto | intros _]).
    apply triple_finally_sets. reflexivity.
Qed.

Lemma saveGoal_stops_saving c skill :
  triple (fun _ => True) (fun s => saving s = false)
         (saveGoal new_Date now profile c skill)
         (fun _ s => saving s = false).
Proof.
  unfold saveGoal. destruct (negb _).
  - apply triple_ret. auto.
  - eapply triple_weaken with (Pre := fun _ => True); [auto | intros c0 s H; exact H |].
    do 2 (apply triple_bind with (Mid := fun _ _ => True);
          [apply triple_modify; auto | intros _]).
    apply triple_finally_sets. reflexivity.
Qed.

Lemma createAthlete_stops_saving name :
  triple (fun _ => True) (fun s => saving s = false)
         (createAthlete user trim name)
         (fun _ s => saving s = false).
Proof.
  unfold createAthlete. destruct (negb _).
  - apply triple_ret. auto.
  - eapply triple_weaken with (Pre := fun _ => True); [auto | intros c0 s H; exact H |].
    do 2 (apply triple_bind with (Mid := fun _ _ => True);
          [apply triple_modify; auto | intros _]).
    apply triple_finally_sets. reflexivity.
Qed.
End BusyFlags.

(** X9.  No handler leaves the page busy.  Against every backend: the
    per-athlete load ends with the loading flag cleared even when it
    throws; [loadData] and [handleSelectAthlete] end with it cleared
    whenever they complete normally; and [handleQuickLog], [saveGoal] and
    [createAthlete], started while nothing is being saved, end with the
    saving flag cleared whatever the backend answered. *)
Theorem handlers_release_busy_flags new_Date now profile today user trim
        {C} (h : handler C) b s :
  let after {A} (m : M A) := result_of (serve h (m s) b) in
  (forall id, loading (snd (after (loadAthleteData new_Date now profile id))) = false)
  /\ (fst (after (loadData new_Date now profile)) = Normal tt ->
      loading (snd (after (loadData new_Date now profile))) = false)
  /\ (forall a,
        fst (after (handleSelectAthlete new_Date now profile a)) = Normal tt ->
        loading (snd (after (handleSelectAthlete new_Date now profile a))) = false)
  /\ (saving s = false ->
      saving (snd (after (handleQuickLog new_Date now profile today s))) = false
      /\ (forall skill,
            saving (snd (after (saveGoal new_Date now profile s skill))) = false)
      /\ (forall name,
            saving (snd (after (createAthlete user trim name))) = false)).
Proof.
  intros after. subst after. cbv beta.
  split; [| split; [| split]].
  - intros id.
    apply (triple_serve _ h _ _ _ s b (loadAthleteData_stops_loading _ _ _ id) Logic.I).
  - intros Hn.
    pose proof (triple_serve _ h _ _ _ s b (loadData_done new_Date now profile) Logic.I)
      as [H _].
    rewrite Hn in H. exact H.
  - intros a Hn.
    pose proof (triple_serve _ h _ _ _ s b
                  (handleSelectAthlete_done new_Date now profile a) Logic.I) as [H _].
    rewrite Hn in H. exact H.
  - intros Hs. split; [| split].
    + apply (triple_serve _ h _ _ _ s b
               (handleQuickLog_stops_saving new_Date now profile today s) Hs).
    + intros skill.
      apply (triple_serve _ h _ _ _ s b
               (saveGoal_stops_saving new_Date now profile s skill) Hs).
    + intros name.
      apply (triple_serve _ h _ _ _ s b
               (createAthlete_stops_saving user trim name) Hs).
Qed.

Lemma handlers_release_busy_flags_witness :
  saving Sample.store = false
  /\ saving (snd (result_of
       (serve scripted
              (handleQuickLog Sample.new_Date Sample.now Sample.pro_profile
                              Sample.today Sample.store Sample.store)
              [Thrown NetworkError]))) = false.
Proof.
  pose proof (handlers_release_busy_flags Sample.new_Date Sample.now
                Sample.pro_profile Sample.today (JObj [("id", JStr "u1")])
                (fun x => x) scripted [Thrown NetworkError] Sample.store) as H.
  cbv zeta in H. destruct H as [_ [_ [_ H]]].
  split; [reflexivity |].
  destruct (H eq_refl) as [Hq _]. exact Hq.
Defined.

(* ------------------------------------------------------------------ *)
(** ** The free tier never shows two active goals *)

Lemma active_count_cleared k o :
  (List.length (activeGoals (obj_set k JNull o)) <= List.length (activeGoals o))%nat.
Proof.
  induction o as [| [k' g] o IH]; simpl.
  - lia.
  - destruct (k' =? k)%string; simpl.
    + destruct (truthy (g ?. "isActive")); simpl; lia.
    + destruct (truthy (g ?. "isActive")); simpl; lia.
Qed.

Lemma active_count_replaced k g' o :
  truthy (g' ?. "isActive") = truthy ((lookup o k) ?. "isActive") ->
  List.length (activeGoals (obj_set k g' o)) = List.length (activeGoals o).
Proof.
  unfold lookup.
  induction o as [| [k' g] o IH]; simpl; intros H.
  - rewrite H. reflexivity.
  - destruct (k' =? k)%string; simpl.
    + rewrite H. destruct (truthy (g ?. "isActive")); reflexivity.
    + destruct (truthy (g ?. "isActive")); simpl; rewrite IH by exact H; reflexivity.
Qed.

Lemma reworded_activity text g :
  truthy (g ?. "id") = true ->
  truthy ((JObj (obj_set "text" text (spread g))) ?. "isActive")
  = truthy (g ?. "isActive").
Proof.
  intros Hid. destruct (identified_is_object g Hid) as [o ->].
  unfold opt_prop. simpl. rewrite obj_get_set_other by discriminate. reflexivity.
Qed.

Section SingleGoal.
Variable new_Date : jsval -> option Z.
Variable now : Z.
Variable profile : jsval.

Hypothesis free : truthy (isPro new_Date now profile) = false.

Variable c : Store.
Variable skill : string.

Hypothesis object : goals_object (goals c).
Hypothesis single : at_most_one_active c.

Lemma untouched_at_most_one s : goals_untouched c s -> at_most_one_active s.
Proof. unfold goals_untouched, at_most_one_active. intros ->. exact single. Qed.

(** A step that leaves the goals alone, followed by the rest. *)
Lemma triple_then {A B} (m : M A) (f : A -> M B) :
  preserves (fun _ => True) (goals_untouched c) m ->
  (forall a, triple (fun _ => True) (goals_untouched c) (f a)
                    (fun _ s => at_most_one_active s)) ->
  triple (fun _ => True) (goals_untouched c) (bind m f)
         (fun _ s => at_most_one_active s).
Proof.
  intros Hm Hf.
  apply triple_bind with (Mid := fun _ s => goals_untouched c s); [| exact Hf].
  eapply triple_weaken; [| | apply preserves_triple; exact Hm]; [auto |].
  intros [a | e] s H; [exact H | apply untouched_at_most_one; exact H].
Qed.

(** A step that does not touch the goals, after they were updated. *)
Lemma triple_kept f :
  (forall s, goals (f s) = goals s) ->
  triple (fun _ => True) at_most_one_active (modify f)
         (fun _ s => at_most_one_active s).
Proof.
  intros Hf. apply triple_modify. intros s Hs. unfold at_most_one_active in *.
  rewrite Hf. exact Hs.
Qed.

Ltac keeps_goals :=
  repeat preserve_step;
  try (apply preserves_await; exact Logic.I);
  try (apply preserves_modify; intros s0 Hs0; exact Hs0).

Ltac as_is :=
  eapply triple_weaken;
  [| | apply triple_kept; reflexivity];
  [auto | intros [? | ?] ? H0; exact H0].

Lemma saveGoal_single :
  triple (fun _ => True) (goals_untouched c) (saveGoal new_Date now profile c skill)
         (fun _ s => at_most_one_active s).
Proof.
  unfold saveGoal. destruct (negb (truthy (athlete c))).
  { apply triple_ret. apply untouched_at_most_one. }
  apply triple_then; [keeps_goals | intros _].
  apply triple_then; [keeps_goals | intros _].
  apply triple_finally with (R := fun _ s => at_most_one_active s); [| intros c0; as_is].
  apply triple_try_catch with (H := fun _ s => at_most_one_active s).
  2:{ intros e. unfold catch_setError.
      apply triple_bind with (Mid := fun _ s => at_most_one_active s).
      - intros s Hs. apply safe_ret. simpl. destruct (member e "message"); exact Hs.
      - intros msg. as_is. }
  apply triple_bind with (Mid := fun _ s => at_most_one_active s).
  2:{ intros _. apply triple_bind with (Mid := fun _ s => at_most_one_active s);
        [| intros _]; as_is. }
  eapply triple_weaken with (Pre := goals_untouched c)
    (Post := fun _ s => at_most_one_active s);
    [auto | intros [x | e] s0 H0; exact H0 |].
  cbv zeta. rewrite free. cbn [negb].
  destruct (truthy (JStr (editGoalText c))); cbn [negb].
  - destruct (truthy ((lookup (goals c) skill) ?. "id")) eqn:Hid.
    + (* the text of an existing goal *)
      apply triple_then; [keeps_goals | intros [d e]].
      apply triple_then; [keeps_goals | intros _].
      apply triple_modify. intros s Hs.
      unfold at_most_one_active, goals_untouched in *.
      cbn [goals with_goals]. rewrite Hs.
      rewrite active_count_replaced; [exact single |].
      apply reworded_activity. exact Hid.
    + (* a new goal *)
      apply triple_then; [unfold deactivate; keeps_goals | intros _].
      apply triple_then; [keeps_goals | intros athlete_id].
      apply triple_then; [keeps_goals | intros [newGoal e]].
      apply triple_then; [keeps_goals | intros _].
      apply triple_then; [keeps_goals | intros new_id].
      apply triple_modify. intros s Hs. unfold at_most_one_active.
      cbn [goals with_goals].
      rewrite clear_others_map by exact object.
      rewrite only_new_goal_active by (exact object || reflexivity).
      simpl. lia.
  - (* no text: the goal is removed *)
    apply triple_then; [keeps_goals | intros _].
    apply triple_modify. intros s Hs.
    unfold at_most_one_active, goals_untouched in *.
    cbn [goals with_goals]. rewrite Hs.
    pose proof (active_count_cleared skill (goals c)). lia.
Qed.
End SingleGoal.

(** X10.  On the free tier [saveGoal] keeps the number of locally active
    goals at no more than one: if at most one goal is active when it is
    called, at most one is active when it ends, for every skill and text
    (create, reword or delete) and whatever the backend answers to each
    request. *)
Theorem free_tier_never_two_active_goals new_Date now profile
        {C} (h : handler C) b c skill :
  truthy (isPro new_Date now profile) = false ->
  goals_object (goals c) ->
  at_most_one_active c ->
  let run := serve h (dispatch (fun c => saveGoal new_Date now profile c skill) c) b in
  at_most_one_active (snd (result_of run)).
Proof.
  intros Hfree Hobj Hone run. subst run. unfold dispatch.
  apply (triple_serve _ h _ _ _ c b
           (saveGoal_single new_Date now profile Hfree c skill Hobj Hone)).
  reflexivity.
Qed.

Lemma free_tier_never_two_active_goals_witness :
  let c := with_goals [("hitting", Sample.goal "g1" "Level swing");
                       ("pitching", JNull); ("fielding", JNull);
                       ("conditioning", JNull)] Sample.store in
  let run := serve scripted
               (dispatch (fun c => saveGoal Sample.new_Date Sample.now
                                            Sample.free_profile c "fielding") c)
               [Returned JNull Sample.rejected; Returned Sample.goal_row JNull] in
  at_most_one_active c
  /\ activeGoals (goals (snd (result_of run)))
     = [("fielding", new_goal Sample.goal_row)]
  /\ at_most_one_active (snd (result_of run)).
Proof.
  pose proof (free_tier_never_two_active_goals Sample.new_Date Sample.now
                Sample.free_profile scripted
                [Returned JNull Sample.rejected; Returned Sample.goal_row JNull]
                (with_goals [("hitting", Sample.goal "g1" "Level swing");
                             ("pitching", JNull); ("fielding", JNull);
                             ("conditioning", JNull)] Sample.store)
                "fielding") as H.
  cbv zeta in H.
  assert (Hone : at_most_one_active
            (with_goals [("hitting", Sample.goal "g1" "Level swing");
                         ("pitching", JNull); ("fielding", JNull);
                         ("conditioning", JNull)] Sample.store)).
  { unfold at_most_one_active. simpl. lia. }
  split; [exact Hone | split; [reflexivity |]].
  apply H; [reflexivity | | exact Hone].
  unfold goals_object. simpl. repeat constructor; simpl; intuition discriminate.
Defined.

(* ------------------------------------------------------------------ *)
(** ** The logging form *)

Lemma toggle_in id l x :
  In x (toggle id l) <-> (x = id /\ ~ In id l) \/ (x <> id /\ In x l).
Proof.
  unfold toggle.
  destruct (existsb (fun f => (f =? id)%string) l) eqn:E.
  - apply existsb_exists in E. destruct E as [y [Hy Ey]].
    apply String.eqb_eq in Ey. subst y.
    rewrite filter_In. split.
    + intros [Hin Hne]. right. split; [| exact Hin].
      apply negb_true_iff in Hne. apply String.eqb_neq. exact Hne.
    + intros [[_ Hn] | [Hne Hin]]; [contradiction |].
      split; [exact Hin |]. apply negb_true_iff. apply String.eqb_neq. exact Hne.
  - assert (Hnot : ~ In id l).
    { intros Hin. assert (Ht : existsb (fun f => (f =? id)%string) l = true).
      { apply existsb_exists. exists id. split; [exact Hin | apply String.eqb_refl]. }
      congruence. }
    rewrite in_app_iff. simpl. split.
    + intros [Hin | [Heq | []]].
      * right. split; [| exact Hin]. intros ->. contradiction.
      * left. split; [symmetry; exact Heq | exact Hnot].
    + intros [[Heq _] | [_ Hin]]; [right; left; symmetry; exact Heq | left; exact Hin].
Qed.

Lemma toggle_nodup id l : NoDup l -> NoDup (toggle id l).
Proof.
  intros Hnd. unfold toggle.
  destruct (existsb (fun f => (f =? id)%string) l) eqn:E.
  - apply NoDup_filter. exact Hnd.
  - assert (Hnot : ~ In id l).
    { intros Hin. assert (Ht : existsb (fun f => (f =? id)%string) l = true).
      { apply existsb_exists. exists id. split; [exact Hin | apply String.eqb_refl]. }
      congruence. }
    clear E. induction l as [| y l IH]; simpl.
    + constructor; [intros [] | constructor].
    + inversion Hnd as [| ? ? Hy Hl]; subst. constructor.
      * rewrite in_app_iff. simpl. intros [H | [H | []]]; [contradiction |].
        apply Hnot. left. symmetry. exact H.
      * apply IH; [exact Hl |]. intros H. apply Hnot. right. exact H.
Qed.

(** X11.  Tapping a focus chip flips that one focus area in the
    selection and nothing else: afterwards the area is selected exactly
    when it was not before, every other area is selected exactly when it
    was, no area is listed twice if none was, and the drill selection is
    not touched.  Tapping a drill chip does the same to the drills and
    leaves the focus areas alone. *)
Theorem toggles_flip_one_entry {C} (h : handler C) b s id x :
  let f := snd (result_of (serve h (toggleFocus id s) b)) in
  let d := snd (result_of (serve h (toggleDrill id s) b)) in
  (In x (logFocus f) <-> (x = id /\ ~ In id (logFocus s)) \/ (x <> id /\ In x (logFocus s)))
  /\ (NoDup (logFocus s) -> NoDup (logFocus f))
  /\ logDrills f = logDrills s
  /\ (In x (logDrills d) <-> (x = id /\ ~ In id (logDrills s)) \/ (x <> id /\ In x (logDrills s)))
  /\ (NoDup (logDrills s) -> NoDup (logDrills d))
  /\ logFocus d = logFocus s
  /\ requests_of (serve h (toggleFocus id s) b) = []
  /\ requests_of (serve h (toggleDrill id s) b) = [].
Proof.
  cbv zeta. unfold toggleFocus, toggleDrill, result_of, requests_of. simpl.
  repeat split; try apply toggle_in; try apply toggle_nodup;
    try (intros H; apply toggle_in; exact H).
Qed.

Section LoggingForm.
Variable new_Date : jsval -> option Z.
Variable now : Z.
Variable profile : jsval.
Variable today : string.

Lemma handleQuickLog_session_rejected c bad failed rest :
  logFocus c <> [] -> truthy (athlete c) = true ->
  failure bad failed ->
  serve scripted (dispatch (handleQuickLog new_Date now profile today) c)
        (bad :: rest) =
  (Normal tt,
   with_saving false (with_error (prop failed "message") c),
   rest,
   [(insert_session_request c, bad)]).
Proof.
  intros Hf Ha Hbad.
  pose proof (failure_defined _ _ Hbad) as Hdef.
  unfold dispatch, handleQuickLog.
  rewrite (handleQuickLog_guard_passes c Hf Ha).
  unfold member at 1. rewrite (truthy_not_nullish _ Ha). mrun.
  destruct Hbad as [data e Ht | e Hn]; mrun; rewrite ?Ht; mrun;
    rewrite (member_defined _ "message" Hdef); mrun; reflexivity.
Qed.
End LoggingForm.

(** X12.  When the insert of the session itself fails, [handleQuickLog]
    has issued that one request and nothing else, not even on the Pro tier
    with drills selected; the sessions list is unchanged, every field of
    the form keeps what the user entered and the form stays open; the
    message of the failure is shown and the saving flag is cleared. *)
Theorem quick_log_session_insert_fails new_Date now profile today c bad failed rest :
  logFocus c <> [] -> truthy (athlete c) = true ->
  failure bad failed ->
  let run := serve scripted (dispatch (handleQuickLog new_Date now profile today) c)
                   (bad :: rest) in
  let s' := snd (result_of run) in
  fst (result_of run) = Normal tt
  /\ requests_of run = [insert_session_request c]
  /\ sessions s' = sessions c
  /\ (logDate s', logDuration s', logFocus s', logNote s', logReflection s', logDrills s')
     = (logDate c, logDuration c, logFocus c, logNote c, logReflection c, logDrills c)
  /\ showQuickLog s' = showQuickLog c
  /\ error s' = prop failed "message"
  /\ saving s' = false.
Proof.
  intros Hf Ha Hbad run s'. subst run s'.
  rewrite (handleQuickLog_session_rejected _ _ _ _ c bad failed rest Hf Ha Hbad).
  unfold result_of, requests_of. cbn [fst snd map]. repeat split.
Qed.

Lemma quick_log_session_insert_fails_witness :
  let run := serve scripted
               (dispatch (handleQuickLog Sample.new_Date Sample.now
                                         Sample.pro_profile Sample.today)
                         Sample.store)
               [Returned JNull Sample.rejected] in
  List.length (requests_of run) = 1%nat
  /\ logDrills (snd (result_of run)) = ["tee-work"; "soft-toss"]
  /\ error (snd (result_of run)) = JStr "violates foreign key constraint".
Proof.
  pose proof (quick_log_session_insert_fails Sample.new_Date Sample.now
                Sample.pro_profile Sample.today Sample.store
                (Returned JNull Sample.rejected) Sample.rejected []) as H.
  cbv zeta in H.
  destruct H as [_ [Hr [_ [Hform [_ [He _]]]]]];
    [discriminate | reflexivity | constructor; reflexivity |].
  split; [rewrite Hr; reflexivity | split; [| exact He]].
  apply (f_equal snd) in Hform. exact Hform.
Defined.

(** X13.  Drills stay selected when their focus area is deselected.  On
    the Pro tier, after a focus area is tapped off (another one staying
    selected), a successful [handleQuickLog] stores a session without that
    focus area and still inserts one [session_drills] row for every drill
    that was selected, whether or not the form still offers it. *)
Theorem deselected_focus_keeps_drills new_Date now profile today c id
        newSession err outs rest :
  truthy (isPro new_Date now profile) = true ->
  In id (logFocus c) ->
  toggle id (logFocus c) <> [] ->
  truthy (athlete c) = true ->
  nullish newSession = false -> truthy err = false ->
  List.length outs = List.length (logDrills c) ->
  forallb succeeded outs = true ->
  let c' := snd (result_of (serve scripted (toggleFocus id c) [])) in
  let run := serve scripted (dispatch (handleQuickLog new_Date now profile today) c')
                   (Returned newSession err :: outs ++ rest)%list in
  ~ In id (logFocus c')
  /\ requests_of run =
       insert_session_request c'
       :: map (insert_drill_request newSession) (logDrills c)
  /\ sessions (snd (result_of run)) = displayed newSession :: sessions c.
Proof.
  intros Hpro Hin Hne Ha Hn He Hlen Hok c' run.
  assert (Hc' : c' = with_logFocus (toggle id (logFocus c)) c) by reflexivity.
  assert (Hsent : drills_sent (isPro new_Date now profile) c' = logDrills c).
  { unfold drills_sent. rewrite Hpro, Hc'. reflexivity. }
  destruct (handleQuickLog_runs_through new_Date now profile today c'
              newSession err outs rest) as [s' [Hrun Hs']].
  - rewrite Hc'. exact Hne.
  - rewrite Hc'. exact Ha.
  - exact Hn.
  - exact He.
  - rewrite Hsent. exact Hlen.
  - exact Hok.
  - subst run. rewrite Hrun. rewrite Hsent.
    unfold requests_of, result_of. cbn [fst snd map].
    rewrite requests_of_combine by (rewrite length_map; lia).
    split; [| split; [reflexivity |]].
    + rewrite Hc'. cbn [logFocus with_logFocus]. intros H.
      apply toggle_in in H. destruct H as [[_ H] | [H _]]; contradiction.
    + destruct Hs' as [Hsess _]. rewrite Hsess, Hc'. reflexivity.
Qed.

Lemma toggles_flip_one_entry_witness :
  logFocus (snd (result_of (serve scripted (toggleFocus "fielding" Sample.store) [])))
  = ["hitting"; "fielding"]
  /\ NoDup (logFocus (snd (result_of
                             (serve scripted (toggleFocus "fielding" Sample.store) [])))).
Proof.
  pose proof (toggles_flip_one_entry scripted [] Sample.store "fielding" "fielding") as H.
  cbv zeta in H. destruct H as [_ [Hnd _]].
  split; [reflexivity |].
  apply Hnd. simpl. repeat constructor; simpl; intuition discriminate.
Defined.

Lemma deselected_focus_keeps_drills_witness :
  let c := with_logFocus ["hitting"; "fielding"] Sample.store in
  let c' := snd (result_of (serve scripted (toggleFocus "hitting" c) [])) in
  let run := serve scripted
               (dispatch (handleQuickLog Sample.new_Date Sample.now
                                         Sample.pro_profile Sample.today) c')
               [Returned Sample.session_row JNull;
                Returned JNull JNull; Returned JNull JNull] in
  logFocus c' = ["fielding"]
  /\ ~ In "tee-work" (offeredDrills (logFocus c'))
  /\ requests_of run =
       [insert_session_request c';
        insert_drill_request Sample.session_row "tee-work";
        insert_drill_request Sample.session_row "soft-toss"].
Proof.
  pose proof (deselected_focus_keeps_drills Sample.new_Date Sample.now
                Sample.pro_profile Sample.today
                (with_logFocus ["hitting"; "fielding"] Sample.store) "hitting"
                Sample.session_row JNull
                [Returned JNull JNull; Returned JNull JNull] []) as H.
  cbv zeta in H.
  destruct H as [_ [Hr _]];
    [reflexivity | left; reflexivity | discriminate | reflexivity | reflexivity
     | reflexivity | reflexivity | reflexivity |].
  split; [reflexivity | split; [| exact Hr]].
  simpl. intuition discriminate.
Defined.

(* ------------------------------------------------------------------ *)
(** ** Adding an athlete *)

Section NewAthlete.
Variable new_Date : jsval -> option Z.
Variable now : Z.
Variable profile : jsval.
Variable user : jsval.
Variable trim : string -> string.

Lemma createAthlete_run name s newAthlete e rest :
  nullish user = false ->
  trim name <> "" ->
  truthy e = false ->
  serve scripted (createAthlete user trim name s) (Returned newAthlete e :: rest) =
  (Normal "",
   with_saving false
     (with_showAddAthlete false
        (with_athlete newAthlete
           (with_athletes (append_athlete newAthlete (athletes s))
                          (with_error JNull (with_saving true s))))),
   rest,
   [(db_insert "athletes"
               (JObj [("profile_id", prop user "id"); ("name", JStr (trim name))])
               true,
     Returned newAthlete e)]).
Proof.
  intros Hu Hname He.
  unfold createAthlete, updAthletes.
  rewrite (nonempty_truthy _ Hname), (member_defined user "id" Hu).
  cbn [negb]. mrun. rewrite He. mrun. reflexivity.
Qed.

Lemma createAthlete_rejected name s bad failed rest :
  nullish user = false ->
  trim name <> "" ->
  failure bad failed ->
  serve scripted (createAthlete user trim name s) (bad :: rest) =
  (Normal name,
   with_saving false (with_error (prop failed "message") s),
   rest,
   [(db_insert "athletes"
               (JObj [("profile_id", prop user "id"); ("name", JStr (trim name))])
               true,
     bad)]).
Proof.
  intros Hu Hname Hbad.
  pose proof (failure_defined _ _ Hbad) as Hdef.
  unfold createAthlete, updAthletes.
  rewrite (nonempty_truthy _ Hname), (member_defined user "id" Hu).
  cbn [negb]. mrun.
  destruct Hbad as [data e Ht | e Hn]; mrun; rewrite ?Ht; mrun;
    rewrite (member_defined _ "message" Hdef); mrun; reflexivity.
Qed.
End NewAthlete.

(** X14.  What [createAthlete] does with a name that is not blank.  It
    sends one insert carrying the signed-in user's identifier and the
    trimmed name.  When the insert succeeds, the returned row is appended
    to the roster and made the current athlete, the prompt is closed and
    the name field emptied; nothing is loaded or remembered for the new
    athlete: the sessions, goals and drill frequency in local state are
    still those loaded before, and the stored selection is unchanged.
    When the insert fails, the roster, the current athlete and the prompt
    are as before, the name field keeps the name typed, and the message of
    the failure is shown.  Either way the saving flag ends cleared. *)
Theorem createAthlete_outcome user trim name s rest :
  nullish user = false ->
  trim name <> "" ->
  let insert :=
    db_insert "athletes"
              (JObj [("profile_id", prop user "id"); ("name", JStr (trim name))])
              true in
  (forall roster newAthlete err,
     athletes s = JArr roster -> truthy err = false ->
     let run := serve scripted (createAthlete user trim name s)
                      (Returned newAthlete err :: rest) in
     let s' := snd (result_of run) in
     fst (result_of run) = Normal ""
     /\ requests_of run = [insert]
     /\ athletes s' = JArr (roster ++ [newAthlete])
     /\ athlete s' = newAthlete
     /\ showAddAthlete s' = false /\ error s' = JNull /\ saving s' = false
     /\ sessions s' = sessions s /\ goals s' = goals s
     /\ drillFrequency s' = drillFrequency s
     /\ localStorage s' = localStorage s)
  /\ (forall bad failed,
        failure bad failed ->
        let run := serve scripted (createAthlete user trim name s) (bad :: rest) in
        fst (result_of run) = Normal name
        /\ requests_of run = [insert]
        /\ snd (result_of run)
           = with_saving false (with_error (prop failed "message") s)).
Proof.
  intros Hu Hname. cbv zeta. split.
  - intros roster newAthlete err Hroster Herr.
    rewrite (createAthlete_run user trim name s newAthlete err rest Hu Hname Herr).
    unfold result_of, requests_of. cbn [fst snd map].
    cbn [athletes with_saving with_showAddAthlete with_athlete with_athletes].
    rewrite Hroster. repeat split.
  - intros bad failed Hbad.
    rewrite (createAthlete_rejected user trim name s bad failed rest Hu Hname Hbad).
    repeat split.
Qed.

Lemma createAthlete_outcome_witness :
  let cy := JObj [("id", JStr "a3"); ("name", JStr "Cy")] in
  let create := createAthlete (JObj [("id", JStr "u1")]) (fun x => x) "Cy" Sample.store in
  athletes (snd (result_of (serve scripted create [Returned cy JNull])))
  = JArr [Sample.ava; Sample.bea; cy]
  /\ goals (snd (result_of (serve scripted create [Returned cy JNull])))
     = goals Sample.store
  /\ result_of (serve scripted create [Returned JNull Sample.rejected])
     = (Normal "Cy",
        with_saving false
          (with_error (JStr "violates foreign key constraint") Sample.store)).
Proof.
  pose proof (createAthlete_outcome (JObj [("id", JStr "u1")]) (fun x => x)
                "Cy" Sample.store []) as H.
  cbv zeta in H.
  destruct H as [Hok Hbad]; [reflexivity | discriminate |].
  destruct (Hok [Sample.ava; Sample.bea]
                (JObj [("id", JStr "a3"); ("name", JStr "Cy")]) JNull)
    as [_ [_ [Hr [_ [_ [_ [_ [_ [Hg _]]]]]]]]]; [reflexivity | reflexivity |].
  destruct (Hbad (Returned JNull Sample.rejected) Sample.rejected)
    as [Hn [_ Hs]]; [constructor; reflexivity |].
  cbv zeta. split; [exact Hr | split; [exact Hg |]].
  unfold result_of in *.
  destruct (serve scripted
              (createAthlete (JObj [("id", JStr "u1")]) (fun x => x) "Cy" Sample.store)
              [Returned JNull Sample.rejected]) as [[[c0 s0] b0] l0].
  simpl in Hn, Hs |- *. rewrite Hn, Hs. reflexivity.
Defined.

(** X15.  An athlete just created is current only until the next load:
    [createAthlete] does not store the new identifier, so a following
    [loadData] selects by the identifier remembered before the creation
    (or the first athlete of the roster), whatever row was created. *)
Theorem created_athlete_not_remembered new_Date now profile user trim name s
        newAthlete err {C} (h : handler C) b first rest err' :
  nullish user = false ->
  trim name <> "" ->
  truthy err = false ->
  fst (h (select_athletes_request
            (if truthy (isPro new_Date now profile) then 10 else 1)) b)
    = Returned (JArr (first :: rest)) err' ->
  truthy err' = false ->
  forallb athlete_row (first :: rest) = true ->
  let s1 := snd (result_of (serve scripted (createAthlete user trim name s)
                                  [Returned newAthlete err])) in
  let s2 := snd (result_of (serve h (loadData new_Date now profile s1) b)) in
  athlete s1 = newAthlete
  /\ athlete s2
     = remembered_or_first (getItem (localStorage s) "selectedAthleteId") first rest.
Proof.
  intros Hu Hname Herr Hh Herr' Hall s1 s2.
  assert (Hs1 : localStorage s1 = localStorage s /\ athlete s1 = newAthlete).
  { subst s1.
    rewrite (createAthlete_run user trim name s newAthlete err [] Hu Hname Herr).
    split; reflexivity. }
  destruct Hs1 as [Hl Ha]. split; [exact Ha |].
  destruct (loadData_selects new_Date now profile h b s1 first rest err' Hh Herr' Hall)
    as [Hsel _].
  subst s2. rewrite Hsel, Hl. reflexivity.
Qed.

Lemma created_athlete_not_remembered_witness :
  let cy := JObj [("id", JStr "a3"); ("name", JStr "Cy")] in
  let s1 := snd (result_of
                   (serve scripted
                          (createAthlete (JObj [("id", JStr "u1")]) (fun x => x) "Cy"
                                         Sample.store)
                          [Returned cy JNull])) in
  let s2 := snd (result_of
                   (serve scripted
                          (loadData Sample.new_Date Sample.now Sample.pro_profile s1)
                          [Returned (JArr [Sample.ava; Sample.bea; cy]) JNull])) in
  athlete s1 = cy /\ athlete s2 = Sample.bea.
Proof.
  pose proof (created_athlete_not_remembered Sample.new_Date Sample.now
                Sample.pro_profile (JObj [("id", JStr "u1")]) (fun x => x) "Cy"
                Sample.store (JObj [("id", JStr "a3"); ("name", JStr "Cy")]) JNull
                scripted
                [Returned (JArr [Sample.ava; Sample.bea;
                                 JObj [("id", JStr "a3"); ("name", JStr "Cy")]]) JNull]
                Sample.ava
                [Sample.bea; JObj [("id", JStr "a3"); ("name", JStr "Cy")]] JNull) as H.
  cbv zeta in H.
  destruct H as [H1 H2];
    [reflexivity | discriminate | reflexivity | reflexivity | reflexivity
     | reflexivity |].
  split; [exact H1 | exact H2].
Defined.


(* ------------------------------------------------------------------ *)
(** ** What is never rewritten *)

Section HistoryKept.
Variable new_Date : jsval -> option Z.
Variable now : Z.
Variable profile : jsval.
Variable today : string.
Variable user : jsval.
Variable trim : string -> string.

Ltac only_adds :=
  repeat preserve_step;
  try (apply preserves_await; reflexivity);
  try (apply preserves_modify; intros s0 Hs0; exact Hs0).

Lemma history_loadAthleteData id :
  preserves (fun r => keeps_history r = true) (fun _ => True)
            (loadAthleteData new_Date now profile id).
Proof. unfold loadAthleteData. only_adds. Qed.

Lemma history_loadData :
  preserves (fun r => keeps_history r = true) (fun _ => True)
            (loadData new_Date now profile).
Proof. unfold loadData. only_adds; apply history_loadAthleteData. Qed.

Lemma history_handleSelectAthlete a :
  preserves (fun r => keeps_history r = true) (fun _ => True)
            (handleSelectAthlete new_Date now profile a).
Proof. unfold handleSelectAthlete. only_adds; apply history_loadAthleteData. Qed.

Lemma history_handleQuickLog c :
  preserves (fun r => keeps_history r = true) (fun _ => True)
            (handleQuickLog new_Date now profile today c).
Proof. unfold handleQuickLog, insertDrill. only_adds. Qed.

Lemma history_saveGoal c skill :
  preserves (fun r => keeps_history r = true) (fun _ => True)
            (saveGoal new_Date now profile c skill).
Proof. unfold saveGoal, deactivate. only_adds. Qed.

Lemma history_createAthlete name :
  preserves (fun r => keeps_history r = true) (fun _ => True)
            (createAthlete user trim name).
Proof. unfold createAthlete, updAthletes. only_adds. Qed.
End HistoryKept.

(** X16.  Practice history is only ever added to.  Against every backend
    and from every state, no handler of the store sends an update or a
    delete to a table other than [goals]: sessions, session drills and
    athletes are fetched and inserted, never changed or removed. *)
Theorem handlers_keep_history new_Date now profile today user trim
        {C} (h : handler C) b s c a skill name :
  let kept {A} (m : M A) :=
    Forall (fun r => keeps_history r = true) (requests_of (serve h (m s) b)) in
  kept (loadData new_Date now profile)
  /\ kept (handleSelectAthlete new_Date now profile a)
  /\ kept (handleQuickLog new_Date now profile today c)
  /\ kept (saveGoal new_Date now profile c skill)
  /\ kept (createAthlete user trim name).
Proof.
  cbv zeta.
  repeat split;
    refine (proj2 (preserves_serve _ (fun _ => True) h _ s b _ Logic.I)).
  - apply history_loadData.
  - apply history_handleSelectAthlete.
  - apply history_handleQuickLog.
  - apply history_saveGoal.
  - apply history_createAthlete.
Qed.

(* ------------------------------------------------------------------ *)
(** ** The goal editor *)

Lemma goalText_text goals skill t :
  goalText goals skill = JStr t -> t <> "" ->
  exists o, lookup goals skill = JObj o /\ obj_get o "text" = Some (JStr t).
Proof.
  unfold goalText, js_or, opt_prop, prop. intros H Ht.
  destruct (lookup goals skill) as [| | | | | | o]; simpl in H;
    try (injection H as H; congruence).
  exists o. split; [reflexivity |].
  destruct (obj_get o "text") as [v |]; simpl in H.
  - destruct (truthy v); [congruence | injection H as H; congruence].
  - injection H as H. congruence.
Qed.

Lemma lookup_object goals skill o :
  lookup goals skill = JObj o -> obj_get goals skill = Some (JObj o).
Proof.
  unfold lookup. destruct (obj_get goals skill); [congruence | discriminate].
Qed.

(** X17.  Opening the goal editor with the "Edit" button and saving
    without typing changes nothing locally: the editor opens on the first
    active goal with its text filled in, and saving that text sends one
    update of the text column and leaves the goals object exactly as it
    was. *)
Theorem edit_and_save_unchanged new_Date now profile c t out rest :
  let skill := fst (openGoalEdit (goals c)) in
  snd (openGoalEdit (goals c)) = JStr t -> t <> "" ->
  truthy (athlete c) = true ->
  truthy ((lookup (goals c) skill) ?. "id") = true ->
  succeeded out = true ->
  let opened := with_editGoalText t (with_showGoalEdit (JStr skill) c) in
  let run := serve scripted
               (dispatch (fun c => saveGoal new_Date now profile c skill) opened)
               (out :: rest) in
  requests_of run =
    [db_update "goals" (JObj [("text", JStr t)])
               [("id", prop (lookup (goals c) skill) "id")]]
  /\ goals (snd (result_of run)) = goals c
  /\ showGoalEdit (snd (result_of run)) = JNull.
Proof.
  intros skill Htext Ht Ha Hid Hout opened run.
  destruct out as [data e | e]; simpl in Hout; [| discriminate].
  apply negb_true_iff in Hout.
  destruct (goalText_text (goals c) skill t Htext Ht) as [o [Ho Hot]].
  subst run.
  rewrite (saveGoal_update_run new_Date now profile opened skill data e rest);
    try assumption.
  unfold result_of, requests_of. cbn [fst snd map].
  subst opened.
  cbn [goals editGoalText with_saving with_editGoalText with_showGoalEdit with_goals
       showGoalEdit].
  repeat split.
  rewrite Ho. cbn [spread].
  rewrite (obj_set_same_value "text" (JStr t) o Hot).
  apply obj_set_same_value. apply lookup_object. exact Ho.
Qed.

Lemma edit_and_save_unchanged_witness :
  openGoalEdit (goals Sample.store) = ("hitting", JStr "Level swing")
  /\ goals (snd (result_of
       (serve scripted
              (dispatch (fun c => saveGoal Sample.new_Date Sample.now
                                           Sample.free_profile c "hitting")
                        (with_editGoalText "Level swing"
                           (with_showGoalEdit (JStr "hitting") Sample.store)))
              [Returned (JArr []) JNull])))
     = goals Sample.store.
Proof.
  pose proof (edit_and_save_unchanged Sample.new_Date Sample.now Sample.free_profile
                Sample.store "Level swing" (Returned (JArr []) JNull) []) as H.
  cbv zeta in H.
  destruct H as [_ [Hg _]];
    [reflexivity | discriminate | reflexivity | reflexivity | reflexivity |].
  split; [reflexivity | exact Hg].
Defined.

Lemma obj_get_in (o : list (string * jsval)) k v : obj_get o k = Some v -> In (k, v) o.
Proof.
  induction o as [| [k' v'] o IH]; simpl; [discriminate |].
  destruct (k' =? k)%string eqn:E.
  - apply String.eqb_eq in E. intros H. injection H as ->. subst k'. left. reflexivity.
  - intros H. right. apply IH. exact H.
Qed.

Lemma active_entry goals f :
  truthy ((lookup goals f) ?. "isActive") = true ->
  exists g, In (f, g) (activeGoals goals).
Proof.
  unfold lookup. destruct (obj_get goals f) as [g |] eqn:E; [| discriminate].
  intros H. exists g. apply filter_In. split; [apply obj_get_in; exact E | exact H].
Qed.

(** X18.  "Add another goal" never opens the editor on a skill whose goal
    is active.  While fewer than three goals are active (the only time
    the button is shown), the skill it picks is one of the four focus
    options and its goal in local state is not active. *)
Theorem add_another_goal_picks_free_skill goals :
  (List.length (activeGoals goals) < 3)%nat ->
  In (unusedSkill goals) FOCUS_OPTIONS
  /\ truthy ((lookup goals (unusedSkill goals)) ?. "isActive") = false.
Proof.
  intros Hfew. unfold unusedSkill.
  destruct (find (fun f => negb (truthy ((lookup goals f) ?. "isActive"))) FOCUS_OPTIONS)
    as [f |] eqn:E.
  - apply find_some in E. destruct E as [Hin Hfree].
    apply negb_true_iff in Hfree.
    assert (Hne : truthy (JStr f) = true).
    { simpl in Hin. destruct Hin as [<- | [<- | [<- | [<- | []]]]]; reflexivity. }
    rewrite Hne. split; assumption.
  - exfalso.
    assert (Hall : forall f, In f FOCUS_OPTIONS ->
                             exists g, In (f, g) (activeGoals goals)).
    { intros f Hin. apply active_entry.
      pose proof (find_none _ _ E f Hin) as H. apply negb_false_iff in H. exact H. }
    destruct (Hall "hitting") as [g1 H1]; [simpl; tauto |].
    destruct (Hall "pitching") as [g2 H2]; [simpl; tauto |].
    destruct (Hall "fielding") as [g3 H3]; [simpl; tauto |].
    destruct (Hall "conditioning") as [g4 H4]; [simpl; tauto |].
    assert (Hnd : NoDup [("hitting", g1); ("pitching", g2); ("fielding", g3);
                         ("conditioning", g4)]).
    { repeat constructor; simpl; intuition discriminate. }
    assert (Hincl : incl [("hitting", g1); ("pitching", g2); ("fielding", g3);
                          ("conditioning", g4)] (activeGoals goals)).
    { intros x [<- | [<- | [<- | [<- | []]]]]; assumption. }
    pose proof (NoDup_incl_length Hnd Hincl) as Hlen. simpl in Hlen. lia.
Qed.

Lemma add_another_goal_picks_free_skill_witness :
  unusedSkill (goals Sample.store) = "fielding"
  /\ truthy ((lookup (goals Sample.store) (unusedSkill (goals Sample.store)))
               ?. "isActive") = false.
Proof.
  pose proof (add_another_goal_picks_free_skill (goals Sample.store)) as H.
  destruct H as [_ H]; [simpl; lia |].
  split; [reflexivity | exact H].
Defined.

(* ------------------------------------------------------------------ *)
(** ** The list of recent practices *)

(** X19.  Whenever the "Show More" button is shown, the number in its
    label is positive and is exactly the number of practices that pressing
    it adds to the list; the five shown before stay on top, and no more
    than fifteen are ever listed, however many were loaded. *)
Theorem show_more_label_is_exact sessions :
  showMoreButton sessions = true ->
  0 < showMoreCount sessions
  /\ Z.of_nat (List.length (recentPractices true sessions))
     = Z.of_nat (List.length (recentPractices false sessions)) + showMoreCount sessions
  /\ recentPractices false sessions = firstn 5 (recentPractices true sessions)
  /\ (List.length (recentPractices true sessions) <= 15)%nat.
Proof.
  unfold showMoreButton, showMoreCount, recentPractices. intros H.
  apply Z.ltb_lt in H.
  rewrite !length_firstn. repeat split; try lia.
  rewrite firstn_firstn. reflexivity.
Qed.

Lemma show_more_label_is_exact_witness :
  let sessions := repeat (displayed Sample.session_row) 7 in
  showMoreCount sessions = 2
  /\ List.length (recentPractices true sessions) = 7%nat.
Proof.
  pose proof (show_more_label_is_exact (repeat (displayed Sample.session_row) 7)) as H.
  destruct H as [_ [H _]]; [reflexivity |].
  split; [reflexivity |].
  simpl in H |- *. lia.
Defined.

(* ------------------------------------------------------------------ *)
(** ** The gateway over HTTP *)

Section Wire.
Variable supabaseUrl : string.
Variable supabaseAnonKey : string.
Variable session : jsval.

(** A run against prepared outcomes is also the run over the wire,
    whenever the responses on the wire are ones the gateway turns into
    those outcomes. *)
Lemma wire_replays_script {A} (p : Prog A) : forall outs resps rest snt,
  Forall2 (fun ro resp => db_result (fst ro) resp = snd ro)
          (log_of (serve scripted p outs)) resps ->
  serve (gateway supabaseUrl supabaseAnonKey (wire session)) p
        (mkWire (resps ++ rest) snt) =
  (result_of (serve scripted p outs),
   mkWire rest
     (snt ++ map (fun r => db_request supabaseUrl supabaseAnonKey r
                                      (getAuthToken supabaseAnonKey session))
                 (requests_of (serve scripted p outs))),
   log_of (serve scripted p outs)).
Proof.
  induction p as [a | r k IH]; intros outs resps rest snt H.
  - simpl in H. inversion H; subst. simpl. rewrite app_nil_r. reflexivity.
  - unfold log_of, requests_of, result_of in *.
    cbn [serve] in H |- *.
    destruct (scripted r outs) as [o outs'] eqn:Es.
    specialize (IH o outs').
    destruct (serve scripted (k o) outs') as [[a b2] log] eqn:Ek.
    cbn [fst snd map] in *.
    inversion H as [| ro resp l l' Hro Hrest]; subst. cbn [fst snd] in Hro.
    unfold gateway at 1. cbn [wire getSession fetch pending sent app].
    rewrite Hro.
    rewrite (IH l' rest _ Hrest).
    rewrite <- app_assoc. reflexivity.
Qed.

Lemma gateway_puts {A} (p : Prog A) : forall w a w' log,
  serve (gateway supabaseUrl supabaseAnonKey (wire session)) p w = (a, w', log) ->
  sent w' =
  (sent w ++ map (fun r => db_request supabaseUrl supabaseAnonKey r
                                      (getAuthToken supabaseAnonKey session))
                 (map fst log))%list.
Proof.
  induction p as [x | r k IH]; intros w a w' log H.
  - simpl in H. injection H as <- <- <-. simpl. rewrite app_nil_r. reflexivity.
  - cbn [serve] in H.
    destruct (gateway supabaseUrl supabaseAnonKey (wire session) r w)
      as [o w1] eqn:Eg.
    destruct (serve (gateway supabaseUrl supabaseAnonKey (wire session)) (k o) w1)
      as [[a1 w2] log1] eqn:Ek.
    injection H as <- <- <-.
    rewrite (IH o w1 a1 w2 log1 Ek).
    assert (Hw1 : sent w1 =
                  (sent w ++ [db_request supabaseUrl supabaseAnonKey r
                                (getAuthToken supabaseAnonKey session)])%list).
    { unfold gateway in Eg. cbn [wire getSession fetch] in Eg.
      destruct (pending w); injection Eg as _ <-; reflexivity. }
    rewrite Hw1, <- app_assoc. reflexivity.
Qed.
End Wire.

(** X20.  Every call of the gateway puts exactly one request on the wire,
    in the order of the calls and built from the call and the session
    alone; each carries the anonymous key as [apikey] and, as bearer, the
    access token of the session, or the anonymous key when there is no
    session.  This holds for every computation that uses the gateway. *)
Theorem gateway_one_request_per_call supabaseUrl supabaseAnonKey session
        {A} (p : Prog A) w :
  let run := serve (gateway supabaseUrl supabaseAnonKey (wire session)) p w in
  let token := getAuthToken supabaseAnonKey session in
  let put := map (fun r => db_request supabaseUrl supabaseAnonKey r token)
                 (requests_of run) in
  sent (snd (fst run)) = (sent w ++ put)%list
  /\ Forall (fun q => header "apikey" (http_headers q) = Some supabaseAnonKey
                      /\ header "Authorization" (http_headers q)
                         = Some ("Bearer " ++ ToString token)) put
  /\ (nullish session = true -> token = JStr supabaseAnonKey).
Proof.
  cbv zeta. split; [| split].
  - destruct (serve (gateway supabaseUrl supabaseAnonKey (wire session)) p w)
      as [[a w'] log] eqn:E.
    unfold requests_of. cbn [fst snd].
    exact (gateway_puts supabaseUrl supabaseAnonKey session p w a w' log E).
  - apply Forall_forall. intros q Hq. apply in_map_iff in Hq.
    destruct Hq as [r [<- _]]. destruct r; split; reflexivity.
  - intros Hn. unfold getAuthToken, opt_prop. rewrite Hn. reflexivity.
Qed.

Lemma gateway_one_request_per_call_witness :
  let run := serve (gateway "https://db.example" "anon" (wire JNull))
                   (loadData Sample.new_Date Sample.now Sample.free_profile
                             (initialStore "2025-01-01"))
                   (mkWire [AuthProvider.Response 200 (Some (JArr []))] []) in
  map http_url (sent (snd (fst run)))
  = ["https://db.example/rest/v1/athletes?select=*&archived_at=is.null&limit=1"]
  /\ getAuthToken "anon" JNull = JStr "anon".
Proof.
  pose proof (gateway_one_request_per_call "https://db.example" "anon" JNull
                (loadData Sample.new_Date Sample.now Sample.free_profile
                          (initialStore "2025-01-01"))
                (mkWire [AuthProvider.Response 200 (Some (JArr []))] [])) as H.
  cbv zeta in H. destruct H as [Hs [_ Ht]].
  split; [rewrite Hs; reflexivity | apply Ht; reflexivity].
Defined.

Lemma minimal_inserts_accepted newSession ds : forall resps,
  List.length resps = List.length ds ->
  Forall (fun r => exists status body,
            r = AuthProvider.Response status body
            /\ AuthProvider.is_2xx status = true) resps ->
  Forall2 (fun ro resp => db_result (fst ro) resp = snd ro)
          (combine (map (insert_drill_request newSession) ds)
                   (map (fun _ : string => Returned JNull JNull) ds))
          resps.
Proof.
  induction ds as [| d ds IH]; intros [| r resps] Hlen Hok; simpl in *;
    try discriminate; constructor.
  - inversion Hok as [| ? ? [status [body [-> H2xx]]] _]; subst.
    simpl. rewrite H2xx. reflexivity.
  - apply IH; [lia |]. inversion Hok; assumption.
Qed.

Section OverTheWire.
Variable supabaseUrl : string.
Variable supabaseAnonKey : string.
Variable session : jsval.
Variable new_Date : jsval -> option Z.
Variable now : Z.
Variable profile : jsval.
Variable today : string.

(** [handleQuickLog] over the wire, when the gateway makes [newSession]
    of the first response and every drill insert is answered with a
    success status. *)
Lemma handleQuickLog_wire_run c first newSession drill_resps rest :
  logFocus c <> [] -> truthy (athlete c) = true ->
  db_result (insert_session_request c) first = Returned newSession JNull ->
  nullish newSession = false ->
  List.length drill_resps
  = List.length (drills_sent (isPro new_Date now profile) c) ->
  Forall (fun r => exists status body,
            r = AuthProvider.Response status body
            /\ AuthProvider.is_2xx status = true) drill_resps ->
  exists s',
    serve (gateway supabaseUrl supabaseAnonKey (wire session))
          (dispatch (handleQuickLog new_Date now profile today) c)
          (mkWire (first :: drill_resps ++ rest) [])
    = (Normal tt, s',
       mkWire rest
         (map (fun r => db_request supabaseUrl supabaseAnonKey r
                                   (getAuthToken supabaseAnonKey session))
              (insert_session_request c
               :: map (insert_drill_request newSession)
                      (drills_sent (isPro new_Date now profile) c))),
       (insert_session_request c, Returned newSession JNull)
       :: combine (map (insert_drill_request newSession)
                       (drills_sent (isPro new_Date now profile) c))
                  (map (fun _ : string => Returned JNull JNull)
                       (drills_sent (isPro new_Date now profile) c)))
    /\ sessions s' = displayed newSession :: sessions c
    /\ error s' = JNull /\ logFocus s' = [] /\ showQuickLog s' = false.
Proof.
  intros Hf Ha Hfirst Hn Hlen Hok.
  pose (ds := drills_sent (isPro new_Date now profile) c).
  pose (outs := map (fun _ : string => Returned JNull JNull) ds).
  destruct (handleQuickLog_runs_through new_Date now profile today c
              newSession JNull outs [])
    as [s1 [Hrun Hs1]]; try assumption.
  { reflexivity. }
  { subst outs. rewrite length_map. reflexivity. }
  { subst outs ds. clear. induction (drills_sent _ c); simpl; auto. }
  rewrite app_nil_r in Hrun.
  assert (Hwire := wire_replays_script supabaseUrl supabaseAnonKey session
            (dispatch (handleQuickLog new_Date now profile today) c)
            (Returned newSession JNull :: outs) (first :: drill_resps) rest []).
  rewrite Hrun in Hwire. unfold log_of, requests_of, result_of in Hwire.
  cbn [fst snd map app] in Hwire.
  exists s1. split.
  - rewrite Hwire.
    + fold ds. subst outs.
      rewrite requests_of_combine by (rewrite !length_map; reflexivity).
      reflexivity.
    + constructor; [exact Hfirst |].
      apply minimal_inserts_accepted; assumption.
  - destruct Hs1 as [Hsess [_ [_ [Hfocus [_ [_ [_ [Hshow [Herr _]]]]]]]]].
    repeat split; assumption.
Qed.
End OverTheWire.

(** X21.  Logging a practice against a REST backend.  When the insert of
    the session is answered with a success status and an array whose first
    element is the new row, and each drill insert with a success status
    (whatever its body, even none), [handleQuickLog] run through the
    gateway completes: the row is shown on top of the sessions, no error is
    set, and what went over the wire is one POST for the session asking
    for the representation, then one POST per drill sent asking for none,
    in the order of the drill list. *)
Theorem quick_log_over_the_wire supabaseUrl supabaseAnonKey session
        new_Date now profile today c row more status drill_resps rest :
  logFocus c <> [] -> truthy (athlete c) = true ->
  truthy row = true ->
  AuthProvider.is_2xx status = true ->
  List.length drill_resps
  = List.length (drills_sent (isPro new_Date now profile) c) ->
  Forall (fun r => exists status body,
            r = AuthProvider.Response status body
            /\ AuthProvider.is_2xx status = true) drill_resps ->
  let run := serve (gateway supabaseUrl supabaseAnonKey (wire session))
                   (dispatch (handleQuickLog new_Date now profile today) c)
                   (mkWire (AuthProvider.Response status (Some (JArr (row :: more)))
                            :: drill_resps ++ rest) []) in
  let s' := snd (result_of run) in
  let w' := snd (fst run) in
  let token := getAuthToken supabaseAnonKey session in
  fst (result_of run) = Normal tt
  /\ sessions s' = displayed row :: sessions c
  /\ error s' = JNull /\ logFocus s' = [] /\ showQuickLog s' = false
  /\ sent w' =
       db_request supabaseUrl supabaseAnonKey (insert_session_request c) token
       :: map (fun d => db_request supabaseUrl supabaseAnonKey
                                   (insert_drill_request row d) token)
              (drills_sent (isPro new_Date now profile) c)
  /\ map (fun q => header "Prefer" (http_headers q)) (sent w') =
       Some "return=representation"
       :: map (fun _ => Some "return=minimal")
              (drills_sent (isPro new_Date now profile) c)
  /\ pending w' = rest.
Proof.
  intros Hf Ha Hrow H2xx Hlen Hok run s' w' token.
  destruct (handleQuickLog_wire_run supabaseUrl supabaseAnonKey session
              new_Date now profile today c
              (AuthProvider.Response status (Some (JArr (row :: more)))) row
              drill_resps rest) as [s1 [Hrun [Hsess [Herr [Hfocus Hshow]]]]];
    try assumption.
  { simpl. rewrite H2xx. simpl. unfold js_or. rewrite Hrow. reflexivity. }
  { apply truthy_not_nullish. exact Hrow. }
  subst run s' w' token. unfold result_of. rewrite Hrun.
  cbn [fst snd sent pending map]. rewrite !map_map.
  repeat split; try assumption.
Qed.

Lemma quick_log_over_the_wire_witness :
  let run := serve (gateway "https://db.example" "anon"
                            (wire (JObj [("access_token", JStr "jwt")])))
                   (dispatch (handleQuickLog Sample.new_Date Sample.now
                                             Sample.pro_profile Sample.today)
                             Sample.store)
                   (mkWire [AuthProvider.Response 201 (Some (JArr [Sample.session_row]));
                            AuthProvider.Response 201 None;
                            AuthProvider.Response 201 None] []) in
  sessions (snd (result_of run)) = [displayed Sample.session_row]
  /\ map http_url (sent (snd (fst run)))
     = ["https://db.example/rest/v1/sessions";
        "https://db.example/rest/v1/session_drills";
        "https://db.example/rest/v1/session_drills"]
  /\ map (fun q => header "Authorization" (http_headers q)) (sent (snd (fst run)))
     = [Some "Bearer jwt"; Some "Bearer jwt"; Some "Bearer jwt"].
Proof.
  pose proof (quick_log_over_the_wire "https://db.example" "anon"
                (JObj [("access_token", JStr "jwt")])
                Sample.new_Date Sample.now Sample.pro_profile Sample.today
                Sample.store Sample.session_row [] 201
                [AuthProvider.Response 201 None; AuthProvider.Response 201 None] [])
    as H.
  cbv zeta in H.
  destruct H as [_ [Hs [_ [_ [_ [Hsent _]]]]]];
    [discriminate | reflexivity | reflexivity | reflexivity | reflexivity
     | repeat constructor; eexists; eexists; split; reflexivity |].
  split; [exact Hs |].
  cbn [app] in Hsent. rewrite Hsent. split; reflexivity.
Defined.



(** X23.  An empty representation is taken for the new row.  When the
    insert of the session is answered with a success status and an empty
    array, the gateway hands the array itself to [handleQuickLog] as the
    new session: no error is shown and the form is closed, an entry whose
    identifier, date, duration and focus are all [undefined] is put on top
    of the sessions, and every drill insert that follows carries
    [undefined] as its session identifier. *)
Theorem empty_representation_adds_blank_entry supabaseUrl supabaseAnonKey session
        new_Date now profile today c status drill_resps rest :
  logFocus c <> [] -> truthy (athlete c) = true ->
  AuthProvider.is_2xx status = true ->
  List.length drill_resps
  = List.length (drills_sent (isPro new_Date now profile) c) ->
  Forall (fun r => exists status body,
            r = AuthProvider.Response status body
            /\ AuthProvider.is_2xx status = true) drill_resps ->
  let run := serve (gateway supabaseUrl supabaseAnonKey (wire session))
                   (dispatch (handleQuickLog new_Date now profile today) c)
                   (mkWire (AuthProvider.Response status (Some (JArr []))
                            :: drill_resps ++ rest) []) in
  let s' := snd (result_of run) in
  fst (result_of run) = Normal tt
  /\ error s' = JNull /\ showQuickLog s' = false
  /\ sessions s' =
       JObj [("id", JUndefined); ("date", JUndefined); ("duration", JUndefined);
             ("focus", JUndefined); ("note", JStr ""); ("reflection", JStr "")]
       :: sessions c
  /\ map http_body (tl (sent (snd (fst run)))) =
       map (fun d => Some (JObj [("session_id", JUndefined); ("drill_id", JStr d)]))
           (drills_sent (isPro new_Date now profile) c).
Proof.
  intros Hf Ha H2xx Hlen Hok run s'.
  destruct (handleQuickLog_wire_run supabaseUrl supabaseAnonKey session
              new_Date now profile today c
              (AuthProvider.Response status (Some (JArr []))) (JArr [])
              drill_resps rest) as [s1 [Hrun [Hsess [Herr [Hfocus Hshow]]]]];
    try assumption.
  { simpl. rewrite H2xx. reflexivity. }
  { reflexivity. }
  subst run s'. unfold result_of. rewrite Hrun.
  cbn [fst snd sent map tl]. rewrite !map_map.
  repeat split; try assumption.
Qed.

Lemma empty_representation_adds_blank_entry_witness :
  let run := serve (gateway "https://db.example" "anon"
                            (wire (JObj [("access_token", JStr "jwt")])))
                   (dispatch (handleQuickLog Sample.new_Date Sample.now
                                             Sample.pro_profile Sample.today)
                             Sample.store)
                   (mkWire [AuthProvider.Response 201 (Some (JArr []));
                            AuthProvider.Response 201 None;
                            AuthProvider.Response 201 None] []) in
  error (snd (result_of run)) = JNull
  /\ map (fun s => prop s "id") (sessions (snd (result_of run))) = [JUndefined]
  /\ map http_body (tl (sent (snd (fst run))))
     = [Some (JObj [("session_id", JUndefined); ("drill_id", JStr "tee-work")]);
        Some (JObj [("session_id", JUndefined); ("drill_id", JStr "soft-toss")])].
Proof.
  pose proof (empty_representation_adds_blank_entry "https://db.example" "anon"
                (JObj [("access_token", JStr "jwt")])
                Sample.new_Date Sample.now Sample.pro_profile Sample.today
                Sample.store 201
                [AuthProvider.Response 201 None; AuthProvider.Response 201 None] [])
    as H.
  cbv zeta in H.
  destruct H as [_ [He [_ [Hs Hb]]]];
    [discriminate | reflexivity | reflexivity | reflexivity
     | repeat constructor; eexists; eexists; split; reflexivity |].
  cbv zeta. cbn [app] in He, Hs, Hb.
  split; [exact He | split; [rewrite Hs; reflexivity | exact Hb]].
Defined.

(* ------------------------------------------------------------------ *)
(** ** Updates and deletes name their row *)

Lemma truthy_opt_prop g k : truthy (g ?. k) = true -> truthy (prop g k) = true.
Proof. unfold opt_prop. destruct (nullish g); [discriminate | auto]. Qed.

Section Addressed.
Variable new_Date : jsval -> option Z.
Variable now : Z.
Variable profile : jsval.

(** Remembers the test that guards a request. *)
Ltac guarded_step :=
  match goal with
  | |- preserves _ _ (when (truthy (?g ?. "id")) _) =>
      let E := fresh "E" in
      destruct (truthy (g ?. "id")) eqn:E; cbn [when]
  | |- _ => preserve_step
  end.

Lemma addressed_saveGoal c skill :
  preserves addressed (fun _ => True) (saveGoal new_Date now profile c skill).
Proof.
  unfold saveGoal, deactivate.
  destruct (negb (truthy (athlete c))); [apply preserves_ret |].
  destruct (truthy ((lookup (goals c) skill) ?. "id")) eqn:Hid;
    cbn [negb when];
    repeat guarded_step;
    try (apply preserves_modify; intros s0 Hs0; exact Hs0);
    apply preserves_await; simpl; auto;
    eexists; (split; [reflexivity | apply truthy_opt_prop; assumption]).
Qed.
End Addressed.

(** X24.  [saveGoal] never sends an update or a delete that is not
    addressed to one row: against every backend and in every branch, each
    update and each delete it issues carries exactly one filter, [id]
    equal to a truthy identifier. *)
Theorem saveGoal_writes_name_their_row new_Date now profile
        {C} (h : handler C) b c skill :
  Forall addressed
    (requests_of
       (serve h (dispatch (fun c => saveGoal new_Date now profile c skill) c) b)).
Proof.
  unfold dispatch.
  exact (proj2 (preserves_serve _ (fun _ => True) h _ c b
                  (addressed_saveGoal new_Date now profile c skill) Logic.I)).
Qed.

(* ------------------------------------------------------------------ *)
(** ** Auth events, [refreshProfile] and the sign-in screen *)

Lemma fallback_not_entitled new_Date now userId :
  truthy (isPro new_Date now (AuthSession.fallbackProfile userId)) = false.
Proof. reflexivity. Qed.

Lemma null_not_entitled new_Date now : truthy (isPro new_Date now JNull) = false.
Proof. reflexivity. Qed.

Lemma fetchProfile_without_row userId r s :
  AuthProvider.carries_row r = false ->
  AuthSession.fetchProfile userId r s
  = AuthProvider.setLoading false
      (AuthProvider.setProfile (AuthSession.fallbackProfile userId) s).
Proof.
  unfold AuthSession.fetchProfile.
  destruct r as [err | status [[| | | | | [| first others] |] |]]; simpl;
    try discriminate; reflexivity.
Qed.

(** X25.  [refreshProfile] asks for the profile of the signed-in user
    with the anonymous key as bearer, never with the user's token; and a
    refresh that brings no row (a fault, an unreadable body, anything but
    a non-empty array) replaces whatever profile there was, a Pro one
    included, by the free default, so that entitlement is lost. *)
Theorem refreshProfile_without_row_downgrades supabaseUrl supabaseAnonKey
        new_Date now r s :
  truthy (AuthProvider.user s) = true ->
  AuthProvider.carries_row r = false ->
  let userId := prop (AuthProvider.user s) "id" in
  let s' := snd (AuthSession.refreshProfile supabaseUrl supabaseAnonKey r s) in
  (exists q,
     fst (AuthSession.refreshProfile supabaseUrl supabaseAnonKey r s) = Some q
     /\ http_url q
        = supabaseUrl ++ "/rest/v1/profiles?select=*&id=eq." ++ ToString userId
     /\ header "Authorization" (http_headers q) = Some ("Bearer " ++ supabaseAnonKey))
  /\ AuthProvider.profile s' = AuthSession.fallbackProfile userId
  /\ truthy (isPro new_Date now (AuthProvider.profile s')) = false
  /\ AuthProvider.loading s' = false
  /\ AuthProvider.user s' = AuthProvider.user s.
Proof.
  intros Hu Hr userId s'. subst s' userId.
  unfold AuthSession.refreshProfile. rewrite Hu. cbn [fst snd].
  rewrite (fetchProfile_without_row _ r s Hr).
  split; [| repeat split].
  eexists. split; [reflexivity |]. split; reflexivity.
Qed.

Lemma refreshProfile_without_row_downgrades_witness :
  let s := AuthProvider.mkAuth (JObj [("id", JStr "u1")]) Sample.pro_profile false in
  let s' := snd (AuthSession.refreshProfile "https://db.example" "anon"
                   (AuthProvider.Response 200 (Some (JArr []))) s) in
  truthy (isPro Sample.new_Date Sample.now (AuthProvider.profile s)) = true
  /\ truthy (isPro Sample.new_Date Sample.now (AuthProvider.profile s')) = false.
Proof.
  pose proof (refreshProfile_without_row_downgrades "https://db.example" "anon"
                Sample.new_Date Sample.now
                (AuthProvider.Response 200 (Some (JArr [])))
                (AuthProvider.mkAuth (JObj [("id", JStr "u1")]) Sample.pro_profile false))
    as H.
  cbv zeta in H.
  destruct H as [_ [_ [H _]]]; [reflexivity | reflexivity |].
  split; [reflexivity | exact H].
Defined.

(** X26.  An auth event decides everything from the session it carries.
    Without a user in it, no request is made, the user and the profile are
    dropped, loading ends and no entitlement is left.  With a user, that
    user is stored, one profile request goes out with the session's access
    token as bearer (the anonymous key if the token is missing), loading
    ends, and the profile is the first row fetched, or the free default
    for that user when no row came. *)
Theorem auth_event_follows_session supabaseUrl supabaseAnonKey new_Date now
        session r s :
  let event := AuthSession.onAuthStateChange supabaseUrl supabaseAnonKey session r s in
  let s' := snd event in
  (truthy (session ?. "user") = false ->
     fst event = None
     /\ truthy (AuthProvider.user s') = false
     /\ AuthProvider.profile s' = JNull
     /\ truthy (isPro new_Date now (AuthProvider.profile s')) = false
     /\ AuthProvider.loading s' = false)
  /\ (truthy (session ?. "user") = true ->
      (exists q,
         fst event = Some q
         /\ header "Authorization" (http_headers q)
            = Some ("Bearer "
                    ++ ToString (js_or (prop session "access_token")
                                       (JStr supabaseAnonKey))))
      /\ AuthProvider.user s' = prop session "user"
      /\ AuthProvider.loading s' = false
      /\ AuthProvider.profile s'
         = match r with
           | AuthProvider.Response _ (Some (JArr (first :: _))) => first
           | _ => AuthSession.fallbackProfile (prop (prop session "user") "id")
           end).
Proof.
  cbv zeta. unfold AuthSession.onAuthStateChange.
  split; intros Hu; rewrite Hu; cbn [fst snd].
  - repeat split.
    unfold AuthSession.setUser, coalesce. simpl.
    destruct (nullish (session ?. "user")); [reflexivity | exact Hu].
  - assert (Hn : nullish session = false).
    { destruct session; try reflexivity; discriminate. }
    assert (Hsu : session ?. "user" = prop session "user").
    { unfold opt_prop. rewrite Hn. reflexivity. }
    split; [| split; [| split]].
    + eexists. split; [reflexivity |]. reflexivity.
    + unfold AuthSession.fetchProfile, AuthSession.setUser, coalesce.
      rewrite Hsu in Hu |- *.
      rewrite (truthy_not_nullish _ Hu).
      destruct r as [err | status [[| | | | | [| first others] |] |]]; reflexivity.
    + unfold AuthSession.fetchProfile.
      destruct r as [err | status [[| | | | | [| first others] |] |]]; reflexivity.
    + unfold AuthSession.fetchProfile.
      destruct r as [err | status [[| | | | | [| first others] |] |]]; reflexivity.
Qed.

Lemma auth_event_follows_session_witness :
  let session := JObj [("access_token", JStr "jwt");
                       ("user", JObj [("id", JStr "u1")])] in
  let event := AuthSession.onAuthStateChange "https://db.example" "anon" session
                 (AuthProvider.Response 200 (Some (JArr [Sample.pro_profile])))
                 Sample.auth in
  AuthProvider.profile (snd event) = Sample.pro_profile
  /\ AuthProvider.user (snd event) = JObj [("id", JStr "u1")]
  /\ AuthProvider.loading (snd event) = false.
Proof.
  pose proof (auth_event_follows_session "https://db.example" "anon"
                Sample.new_Date Sample.now
                (JObj [("access_token", JStr "jwt");
                       ("user", JObj [("id", JStr "u1")])])
                (AuthProvider.Response 200 (Some (JArr [Sample.pro_profile])))
                Sample.auth) as H.
  cbv zeta in H. destruct H as [_ H].
  destruct (H eq_refl) as [_ [Hu [Hl Hp]]].
  split; [exact Hp | split; [exact Hu | exact Hl]].
Defined.

(** X27.  What the sign-in screen shows after a submit.  When the call
    resolves, loading always ends, and an alert and an error are never
    shown together; signing in never alerts; signing up with an address
    that is taken (no error, but a user without identities) shows the
    "already exists" error and no confirmation alert, and the alert is
    shown exactly when there is no error, the identities are not empty, a
    user came back and no session did.  When the call rejects, the handler
    throws, and the screen is left loading with no message. *)
Theorem handleSubmit_feedback f answer :
  let f' := snd (snd (AuthScreen.handleSubmit f answer)) in
  let done := fst (snd (AuthScreen.handleSubmit f answer)) in
  (forall data error, answer = Returned data error ->
     done = Normal tt
     /\ AuthScreen.loading f' = false
     /\ (AuthScreen.alerts f' <> AuthScreen.alerts f -> AuthScreen.error f' = JNull)
     /\ (AuthScreen.mode f = "signin" -> AuthScreen.alerts f' = AuthScreen.alerts f)
     /\ (AuthScreen.mode f <> "signin" ->
         (truthy error = false ->
          (data ?. "user") ?. "identities" = JArr [] ->
          AuthScreen.error f'
          = JStr "An account with this email already exists. Try signing in instead."
          /\ AuthScreen.alerts f' = AuthScreen.alerts f)
         /\ (AuthScreen.alerts f' <> AuthScreen.alerts f <->
             truthy error = false
             /\ is_num (AuthScreen.opt_length ((data ?. "user") ?. "identities")) 0 = false
             /\ truthy (data ?. "user") = true
             /\ truthy (prop data "session") = false)))
  /\ (forall err, answer = Thrown err ->
        done = Throw err
        /\ AuthScreen.loading f' = true
        /\ AuthScreen.error f' = JNull
        /\ AuthScreen.alerts f' = AuthScreen.alerts f).
Proof.
  cbv zeta. unfold AuthScreen.handleSubmit.
  assert (Hgrow : forall (l : list string) x, (l ++ [x])%list <> l).
  { intros l x H. apply (f_equal (@List.length string)) in H.
    rewrite length_app in H. simpl in H. lia. }
  split.
  - intros data error ->.
    destruct (AuthScreen.mode f =? "signin")%string eqn:Em; cbn [fst snd].
    + apply String.eqb_eq in Em.
      destruct (truthy error); simpl; intuition congruence.
    + apply String.eqb_neq in Em.
      destruct (truthy error) eqn:Ee;
        [| destruct (is_num (AuthScreen.opt_length ((data ?. "user") ?. "identities")) 0)
             eqn:Ei;
           [| destruct (truthy (data ?. "user")) eqn:Eu;
              destruct (truthy (prop data "session")) eqn:Es]];
        simpl;
        repeat match goal with
               | |- _ /\ _ => split
               | |- _ <-> _ => split
               | |- _ -> _ => intro
               end;
        try reflexivity; try congruence; try tauto;
        try (exfalso; tauto);
        try match goal with
            | H : _ = JArr [] |- _ => rewrite H in Ei; discriminate
            end;
        try match goal with
            | H : _ /\ _ |- _ => decompose [and] H; congruence
            end;
        try (eapply Hgrow; eassumption).
  - intros err ->.
    destruct (AuthScreen.mode f =? "signin")%string; simpl; repeat split.
Qed.

Lemma handleSubmit_feedback_witness :
  let f := AuthScreen.mkForm "signup" "ava@example.org" "secret" false JNull [] in
  let taken := Returned (JObj [("user", JObj [("id", JStr "u9"); ("identities", JArr [])]);
                               ("session", JNull)]) JNull in
  AuthScreen.error (snd (snd (AuthScreen.handleSubmit f taken)))
  = JStr "An account with this email already exists. Try signing in instead."
  /\ AuthScreen.alerts (snd (snd (AuthScreen.handleSubmit f taken))) = [].
Proof.
  pose proof (handleSubmit_feedback
                (AuthScreen.mkForm "signup" "ava@example.org" "secret" false JNull [])
                (Returned (JObj [("user", JObj [("id", JStr "u9");
                                               ("identities", JArr [])]);
                                 ("session", JNull)]) JNull)) as H.
  cbv zeta in H. destruct H as [H _].
  destruct (H _ _ eq_refl) as [_ [_ [_ [_ Hup]]]].
  destruct Hup as [Htaken _]; [discriminate |].
  exact (Htaken eq_refl eq_refl).
Defined.

(** X28.  Which screen follows an auth event.  After the session found at
    start-up and after every auth event the spinner is gone: the tracker
    is shown when the session carried a user and the sign-in screen when it
    did not, whatever the profile fetch came back with.  A refresh of the
    profile never takes a signed-in user away from the tracker. *)
Theorem screen_follows_session supabaseUrl supabaseAnonKey session r s :
  let shown := if truthy (session ?. "user") then TrackerApp else SignInScreen in
  AppContent (snd (AuthSession.onInitialSession supabaseUrl supabaseAnonKey session r s))
  = shown
  /\ AppContent (snd (AuthSession.onAuthStateChange supabaseUrl supabaseAnonKey
                                                    session r s))
     = shown
  /\ (AppContent s = TrackerApp ->
      AppContent (snd (AuthSession.refreshProfile supabaseUrl supabaseAnonKey r s))
      = TrackerApp).
Proof.
  cbv zeta.
  assert (Hfetch : forall userId s0,
            AuthProvider.loading (AuthSession.fetchProfile userId r s0) = false
            /\ AuthProvider.user (AuthSession.fetchProfile userId r s0)
               = AuthProvider.user s0).
  { intros userId s0. unfold AuthSession.fetchProfile.
    destruct r as [err | status [[| | | | | [| first others] |] |]]; split; reflexivity. }
  assert (Huser : truthy (coalesce (session ?. "user") JNull)
                  = truthy (session ?. "user")).
  { unfold coalesce. destruct (session ?. "user"); reflexivity. }
  unfold AuthSession.onInitialSession, AuthSession.onAuthStateChange,
    AuthSession.refreshProfile, AppContent.
  split; [| split].
  - destruct (truthy (session ?. "user")) eqn:Hu; cbn [snd].
    + destruct (Hfetch (prop (prop session "user") "id")
                       (AuthSession.setUser (coalesce (session ?. "user") JNull) s))
        as [-> ->].
      cbn [AuthSession.setUser AuthProvider.user]. rewrite Huser, ?Hu. reflexivity.
    + cbn [AuthProvider.setLoading AuthSession.setUser AuthProvider.loading
           AuthProvider.user].
      rewrite Huser, ?Hu. reflexivity.
  - destruct (truthy (session ?. "user")) eqn:Hu; cbn [snd].
    + destruct (Hfetch (prop (prop session "user") "id")
                       (AuthSession.setUser (coalesce (session ?. "user") JNull) s))
        as [-> ->].
      cbn [AuthSession.setUser AuthProvider.user]. rewrite Huser, ?Hu. reflexivity.
    + cbn [AuthProvider.setLoading AuthProvider.setProfile AuthSession.setUser
           AuthProvider.loading AuthProvider.user].
      rewrite Huser, ?Hu. reflexivity.
  - destruct (AuthProvider.loading s) eqn:Hl; [discriminate |].
    destruct (truthy (AuthProvider.user s)) eqn:Hu; [| discriminate].
    intros _. cbn [snd].
    destruct (Hfetch (prop (AuthProvider.user s) "id") s) as [-> ->].
    rewrite Hu. reflexivity.
Qed.

Lemma screen_follows_session_witness :
  let s := AuthProvider.mkAuth (JObj [("id", JStr "u1")]) Sample.pro_profile false in
  AppContent s = TrackerApp
  /\ AppContent (snd (AuthSession.refreshProfile "https://db.example" "anon"
                        (AuthProvider.Rejected NetworkError) s)) = TrackerApp
  /\ AppContent (snd (AuthSession.onAuthStateChange "https://db.example" "anon"
                        JNull (AuthProvider.Rejected NetworkError) s)) = SignInScreen.
Proof.
  pose proof (screen_follows_session "https://db.example" "anon" JNull
                (AuthProvider.Rejected NetworkError)
                (AuthProvider.mkAuth (JObj [("id", JStr "u1")]) Sample.pro_profile false))
    as H.
  cbv zeta in H. destruct H as [_ [Hevent Hrefresh]].
  split; [reflexivity | split; [exact (Hrefresh eq_refl) | exact Hevent]].
Defined.

(* ------------------------------------------------------------------ *)
(** ** The focus chart *)









(* ------------------------------------------------------------------ *)
(** ** The CSV export *)

Lemma unquote_doubled text :
  unquote_rest (double_quotes text ++ String dquote EmptyString) = Some text.
Proof.
  induction text as [| ch text IH]; simpl.
  - reflexivity.
  - destruct (ch =? dquote)%char eqn:E.
    + apply Ascii.eqb_eq in E. subst ch. simpl. rewrite IH. reflexivity.
    + simpl. rewrite E, IH. reflexivity.
Qed.

Lemma quoted_reads_back text :
  csv_unquote (csv_cell (JStr (double_quotes text))) = Some text.
Proof. unfold csv_unquote, csv_cell. simpl. apply unquote_doubled. Qed.

(** X30.  The notes survive the CSV export.  For sessions as the store
    holds them, [exportCSV] does not throw and names the file after the
    athlete; the content is the header line followed by one line per
    session, in order, each made of five quoted cells; and the note and
    reflection cells, read back as quoted CSV fields, give exactly the
    note and the reflection of the session, whatever quotes, commas or
    line breaks they contain. *)
Theorem exported_notes_read_back sessions athlete :
  nullish athlete = false ->
  Forall (fun s => tagged_session s
                   /\ (exists note, js_or (prop s "note") (JStr "") = JStr note)
                   /\ (exists refl, js_or (prop s "reflection") (JStr "") = JStr refl))
         sessions ->
  exists rows,
    exportCSV sessions athlete
    = Normal (join newline (join "," csv_headers :: map csv_line rows),
              ToString (prop athlete "name") ++ "-practices.csv",
              "text/csv")
    /\ Forall2
         (fun s cells =>
            exists focus n r,
              cells = [prop s "date"; prop s "duration"; focus; n; r]
              /\ option_map JStr (csv_unquote (csv_cell n))
                 = Some (js_or (prop s "note") (JStr ""))
              /\ option_map JStr (csv_unquote (csv_cell r))
                 = Some (js_or (prop s "reflection") (JStr "")))
         sessions rows.
Proof.
  intros Ha Hs.
  assert (Hrows : exists rows,
            map_throwing csv_cells sessions = Normal rows
            /\ Forall2
                 (fun s cells =>
                    exists focus n r,
                      cells = [prop s "date"; prop s "duration"; focus; n; r]
                      /\ option_map JStr (csv_unquote (csv_cell n))
                         = Some (js_or (prop s "note") (JStr ""))
                      /\ option_map JStr (csv_unquote (csv_cell r))
                         = Some (js_or (prop s "reflection") (JStr "")))
                 sessions rows).
  { induction Hs as [| s sessions [[Hn Hfocus] [[note Hnote] [refl Hrefl]]] _ IH].
    - exists []. split; [reflexivity | constructor].
    - destruct IH as [rows [Hrun Hall]].
      assert (Htags : exists tags, js_or (prop s "focus") (JArr []) = JArr tags).
      { destruct Hfocus as [Hf | [tags Hf]].
        - exists []. unfold js_or. rewrite Hf. reflexivity.
        - exists tags. rewrite Hf. reflexivity. }
      destruct Htags as [tags Htags].
      eexists. split.
      + cbn [map_throwing]. rewrite Hrun.
        unfold csv_cells, member, replace_quotes.
        rewrite Hn, Htags, Hnote, Hrefl. cbn [array_of]. reflexivity.
      + constructor; [| exact Hall].
        eexists. eexists. eexists. split; [reflexivity |].
        rewrite Hnote, Hrefl, !quoted_reads_back. split; reflexivity. }
  destruct Hrows as [rows [Hrun Hall]].
  exists rows. split; [| exact Hall].
  unfold exportCSV, member. rewrite Hrun, Ha. reflexivity.
Qed.

Lemma exported_notes_read_back_witness :
  let said := String dquote ("Stay back" ++ String dquote ", she said") in
  let s := JObj [("id", JStr "s1"); ("date", JStr "2024-12-31");
                 ("duration", JNum 45); ("focus", JArr [JStr "hitting"]);
                 ("note", JStr said); ("reflection", JStr "")] in
  exists rows,
    fst (fst (match exportCSV [s] Sample.ava with
              | Normal x => x
              | Throw _ => ("", "", "")
              end))
    = join newline (join "," csv_headers :: map csv_line rows)
    /\ Forall2 (fun s cells =>
                  exists focus n r,
                    cells = [prop s "date"; prop s "duration"; focus; n; r]
                    /\ option_map JStr (csv_unquote (csv_cell n))
                       = Some (js_or (prop s "note") (JStr ""))
                    /\ option_map JStr (csv_unquote (csv_cell r))
                       = Some (js_or (prop s "reflection") (JStr "")))
               [s] rows.
Proof.
  pose proof (exported_notes_read_back
                [JObj [("id", JStr "s1"); ("date", JStr "2024-12-31");
                       ("duration", JNum 45); ("focus", JArr [JStr "hitting"]);
                       ("note", JStr (String dquote
                                        ("Stay back" ++ String dquote ", she said")));
                       ("reflection", JStr "")]]
                Sample.ava) as H.
  destruct H as [rows [Hrun Hall]].
  - reflexivity.
  - repeat (apply Forall_cons || apply Forall_nil).
    split; [split; [reflexivity | right; eexists; reflexivity] |].
    split; eexists; reflexivity.
  - cbv zeta. exists rows. rewrite Hrun. split; [reflexivity | exact Hall].
Defined.
